(** * Redundant multi-file I/O: a shallow embedding of [MultiFile] and [compare]

    The development follows MultifileIO.cpp (the coordinator and the
    comparison utility), MultiFileIO.h (the class layout and the inline
    [open]/[excl]/[create] entry points) and FileIO.h ([error_flags],
    [BasicFile], [FileRO], [FileRW]).

    - Integers of the program are [Z]; the conversions the code performs
      ([unsigned(Size)], [int] to [size_t], [int(cnt)]) are written out.
    - A byte ([uint8_t]) is a [Z]; a buffer is a [list Z].
    - The operating system is a parameter: the class [OS] lists the
      calls of the platform section of FileIO.h over an abstract [world].
    - A single-file method is a function on the handle and the world; a
      coordinator method runs in a state-and-trace monad whose state holds
      the [MultiFile] object, the thread-local verification [buffer] and the
      world, and whose trace lists the single-file calls it made, in order.
    - The typed and endian-converting overloads of [read] and [write]
      only compute a pointer and a size and call the byte-level methods;
      they are not repeated here. *)

From stdpp Require Import base numbers list strings gmap.

Open Scope Z_scope.

(** ** The platform *)

(** The calls of the platform section of [BasicFile] ([os_open] ...
    [os_write]) and the constants of the C runtime headers the code names.
    [os_open] returns the error code and the descriptor it stored in
    [f_handle]; [os_read] returns the count and the bytes it transferred. *)
Class OS := {
  world : Type;
  O_RDONLY : Z; O_WRONLY : Z; O_RDWR : Z; O_APPEND : Z;
  O_CREAT : Z; O_TRUNC : Z; O_EXCL : Z; O_BINARY : Z;
  EACCES : Z; EEXIST : Z; EINVAL : Z; EMFILE : Z; ENOENT : Z;
  EBADF : Z; ENOSPC : Z;
  os_open : string -> Z -> world -> Z * Z * world;
  os_close : Z -> world -> Z * world;
  os_commit : Z -> world -> Z * world;
  os_size : Z -> world -> Z * world;
  os_eof : Z -> world -> Z * world;
  os_seek : Z -> Z -> Z -> world -> Z * world;
  os_tell : Z -> world -> Z * world;
  os_chsize : Z -> Z -> world -> Z * world;
  os_read : Z -> Z -> world -> Z * list Z * world;
  os_write : Z -> list Z -> world -> Z * world
}.

(** ** error_flags (FileIO.h) *)

(** Positions of the one-bit fields inside [value]. *)
Definition bit_open : Z := 0.
Definition bit_reopen : Z := 1.
Definition bit_eacces : Z := 2.
Definition bit_eexists : Z := 3.
Definition bit_einval : Z := 4.
Definition bit_emfile : Z := 5.
Definition bit_enoent : Z := 6.
Definition bit_invalid : Z := 7.
Definition bit_commit : Z := 8.
Definition bit_seek : Z := 9.
Definition bit_tell : Z := 10.
Definition bit_read : Z := 11.
Definition bit_write : Z := 12.
Definition bit_corrupt : Z := 13.

(** Assignment [field = x] to a one-bit unsigned field: the stored bit is
    [x] modulo 2. *)
Definition assign_bit (n x value : Z) : Z :=
  if Z.odd x then Z.lor value (Z.shiftl 1 n)
  else Z.land value (Z.lnot (Z.shiftl 1 n)).

Definition field (n value : Z) : Z := Z.b2z (Z.testbit value n).

(** [field |= x]. *)
Definition or_assign_bit (n x value : Z) : Z :=
  assign_bit n (Z.lor (field n value) x) value.

Definition error_flags_good (value : Z) : bool := value =? 0.
Definition error_flags_fail (value : Z) : bool := negb (value =? 0).
Definition error_flags_bad (value : Z) : bool := negb (Z.land value 255 =? 0).

(** [bad(int fh)]: [open = (fh == -1); return bad();] *)
Definition error_flags_bad_fh (fh value : Z) : bool * Z :=
  let value' := assign_bit bit_open (Z.b2z (fh =? -1)) value in
  (error_flags_bad value', value').

Definition error_flags_reset (value : Z) : Z := Z.land value 255.

Section Platform.
Context `{os : OS}.

Definition fill_open_errors (err : Z) : Z :=
  let v := 0 in
  let v := assign_bit bit_eacces (Z.land err EACCES) v in
  let v := assign_bit bit_eexists (Z.land err EEXIST) v in
  let v := assign_bit bit_einval (Z.land err EINVAL) v in
  let v := assign_bit bit_emfile (Z.land err EMFILE) v in
  assign_bit bit_enoent (Z.land err ENOENT) v.

(** ** BasicFile (FileIO.h) *)

Record BasicFile := mkBasicFile { f_handle : Z; e_flags : Z }.

(** [BasicFile() : f_handle{ -1 }, e_flags{ 1 }] *)
Definition BasicFile_new : BasicFile := mkBasicFile (-1) 1.

Definition with_flags (v : Z) (f : BasicFile) : BasicFile :=
  mkBasicFile (f_handle f) v.
Definition raise (n : Z) (f : BasicFile) : BasicFile :=
  with_flags (assign_bit n 1 (e_flags f)) f.

Definition BasicFile_eflags (f : BasicFile) : Z := e_flags f.
Definition BasicFile_fail (f : BasicFile) : bool := error_flags_fail (e_flags f).
Definition BasicFile_good (f : BasicFile) : bool := error_flags_good (e_flags f).
Definition BasicFile_is_open (f : BasicFile) : bool := negb (f_handle f =? -1).

(** [bad()] stores the [open] bit in the mutable [e_flags]. *)
Definition BasicFile_bad (f : BasicFile) : bool * BasicFile :=
  let '(b, v) := error_flags_bad_fh (f_handle f) (e_flags f) in
  (b, with_flags v f).

(** A single-file method: result, handle afterwards, world afterwards. *)
Definition method (A : Type) : Type := BasicFile -> world -> A * BasicFile * world.

Definition BasicFile_length : method Z := fun f w =>
  let '(res, w) := os_size (f_handle f) w in
  if res =? -1 then (res, raise bit_invalid f, w) else (res, f, w).

Definition BasicFile_eof : method Z := fun f w =>
  let '(res, w) := os_eof (f_handle f) w in
  if res =? -1 then (res, raise bit_invalid f, w) else (res, f, w).

Definition BasicFile_commit : method bool := fun f w =>
  if BasicFile_is_open f && BasicFile_good f then
    let '(res, w) := os_commit (f_handle f) w in
    if negb (res =? 0) then (true, raise bit_invalid f, w) else (false, f, w)
  else (true, f, w).

Definition BasicFile_chsize (NewSize : Z) : method bool := fun f w =>
  let '(err, w) := os_chsize (f_handle f) NewSize w in
  if negb (err =? 0) then
    let v := assign_bit bit_invalid 1 (e_flags f) in
    let v := or_assign_bit bit_eacces (Z.land err (Z.lor EBADF ENOSPC)) v in
    let v := or_assign_bit bit_einval (Z.land err EINVAL) v in
    (true, with_flags v f, w)
  else (false, f, w).

Definition BasicFile_seek (Pos Dir : Z) : method Z := fun f w =>
  let '(res, w) := os_seek (f_handle f) Pos Dir w in
  if res =? -1 then (res, raise bit_invalid (raise bit_seek f), w) else (res, f, w).

Definition BasicFile_tell : method Z := fun f w =>
  let '(res, w) := os_tell (f_handle f) w in
  if res =? -1 then (res, raise bit_tell (raise bit_invalid f), w) else (res, f, w).

(** [unsigned(Size)] and the conversion of the [int] result to [size_t]
    in [res == Size]. *)
Definition to_unsigned (x : Z) : Z := x mod 2 ^ 32.
Definition to_size_t (x : Z) : Z := x mod 2 ^ 64.

(** The bytes a transfer leaves in the destination: the transferred
    bytes, then what the buffer held behind them. *)
Definition overwrite (buf data : list Z) : list Z :=
  data ++ drop (length data) buf.

(** [read(_Buf, Size)]: the result is the error flag and the buffer. *)
Definition BasicFile_read (_Buf : list Z) (Size : Z) : method (bool * list Z) := fun f w =>
  let '(res, data, w) := os_read (f_handle f) (to_unsigned Size) w in
  let buf := overwrite _Buf data in
  if to_size_t res =? Size then (false, buf, f, w)
  else
    let f := raise bit_read f in
    if res =? -1 then (true, buf, raise bit_invalid f, w) else (true, buf, f, w).

Definition BasicFile_write (_Buf : list Z) (Size : Z) : method bool := fun f w =>
  let '(res, w) := os_write (f_handle f) (take (Z.to_nat (to_unsigned Size)) _Buf) w in
  if to_size_t res =? Size then (false, f, w)
  else
    let f := raise bit_write f in
    if res =? -1 then (true, raise bit_invalid f, w) else (true, f, w).

(** [close()]: the [WRITER] overload commits a good handle first. *)
Definition BasicFile_close (WRITER : bool) : method unit := fun f w =>
  if BasicFile_is_open f then
    let w := if WRITER && BasicFile_good f then snd (os_commit (f_handle f) w) else w in
    let '(_, w) := os_close (f_handle f) w in
    (tt, mkBasicFile (-1) (e_flags f), w)
  else (tt, f, w).

(** [open(Path, Flags)] returns [!good()] as an [int]. *)
Definition BasicFile_open (WRITER : bool) (Path : string) (Flags : Z) : method Z := fun f w =>
  let f := with_flags 0 f in
  let '(f, w) :=
    if negb (f_handle f =? -1) then
      let f := raise bit_reopen f in
      let '(_, f, w) := BasicFile_close WRITER f w in (f, w)
    else
      let '(err, fh, w) := os_open Path Flags w in
      let f := mkBasicFile fh (fill_open_errors err) in
      if f_handle f =? -1 then (raise bit_open f, w)
      else if negb (err =? 0) then
        let f := raise bit_open f in
        let '(_, w) := os_close (f_handle f) w in
        (mkBasicFile (-1) (e_flags f), w)
      else (f, w)
  in (Z.b2z (negb (BasicFile_good f)), f, w).

(** [FileRO]: [open] and its flag filter. *)
Definition FileRO_filter_open (flags : Z) : Z :=
  Z.land (Z.lor flags O_RDONLY)
    (Z.lnot (Z.lor (Z.lor (Z.lor (Z.lor (Z.lor O_RDWR O_TRUNC) O_WRONLY) O_APPEND) O_CREAT) O_EXCL)).

Definition FileRO_open (Path : string) (flags : Z) : method bool := fun f w =>
  let '(r, f, w) := BasicFile_open false Path (FileRO_filter_open flags) f w in
  (r =? 0, f, w).

(** [FileRW]: [open_] and the three flag filters.  In the source [&] binds
    tighter than [|], so the masks are [~(_O_RDONLY | (O_WRONLY & O_CREAT & O_EXCL))]
    and [~(_O_RDONLY | (O_WRONLY & O_EXCL))]. *)
Definition FileRW_open_ (Path : string) (flags : Z) : method bool := fun f w =>
  let '(r, f, w) := BasicFile_open true Path flags f w in
  (r =? 0, f, w).

Definition FileRW_filter_open (flags : Z) : Z :=
  Z.land (Z.lor flags O_RDWR)
    (Z.lnot (Z.lor O_RDONLY (Z.land (Z.land O_WRONLY O_CREAT) O_EXCL))).

Definition FileRW_filter_excl (flags : Z) : Z :=
  Z.land (Z.lor (Z.lor (Z.lor flags O_RDWR) O_CREAT) O_EXCL)
    (Z.lnot (Z.lor O_RDONLY O_WRONLY)).

Definition FileRW_filter_create (flags : Z) : Z :=
  Z.land (Z.lor (Z.lor flags O_RDWR) O_CREAT)
    (Z.lnot (Z.lor O_RDONLY (Z.land O_WRONLY O_EXCL))).

End Platform.

(** ** MultiFile (MultiFileIO.h, MultifileIO.cpp) *)

(** The handle a single-file call is made on: [hdl] or [copies[i]]. *)
Inductive href := Hdl | Copy (i : nat).

(** A single-file call with its arguments and what it returned. *)
Inductive call :=
| c_open (Path : string) (Flags : Z) (ok : bool)
| c_close
| c_bad (b : bool)
| c_fail (b : bool)
| c_good (b : bool)
| c_is_open (b : bool)
| c_eof (res : Z)
| c_eflags (value : Z)
| c_commit (err : bool)
| c_length (res : Z)
| c_seek (Pos Dir : Z) (res : Z)
| c_tell (res : Z)
| c_chsize (NewSize : Z) (err : bool)
| c_write (_Buf : list Z) (Size : Z) (err : bool)
| c_read (Size : Z) (bytes : list Z) (err : bool).

Inductive event := Ev (who : href) (what : call).

Section Coordinator.
Context `{os : OS}.

Record MultiFile := mkMultiFile {
  hdl : BasicFile;
  copies : list BasicFile;
  NumCopies : Z;
  OpenFlags : Z
}.

(** [MultiFile() = default]: five default-constructed slots, no copies. *)
Definition MultiFile_new : MultiFile :=
  mkMultiFile BasicFile_new (replicate 5 BasicFile_new) 0 0.

(** What a coordinator method runs on: the object, the thread-local
    [buffer] and the world. *)
Record state := mkState {
  mf : MultiFile;
  buffer : list Z;
  os_w : world
}.

Definition M (A : Type) : Type := state -> A * list event * state.

Definition ret {A} (a : A) : M A := fun s => (a, [], s).

Definition bind {A B} (m : M A) (k : A -> M B) : M B := fun s =>
  let '(a, t1, s1) := m s in
  let '(b, t2, s2) := k a s1 in
  (b, t1 ++ t2, s2).

Notation "'let!' x ':=' m 'in' k" := (bind m (fun x => k))
  (at level 10, x name, m at level 100, k at level 200).
Notation "'let!' ' p ':=' m 'in' k" := (bind m (fun x => let 'p := x in k))
  (at level 10, p pattern, m at level 100, k at level 200).

(** [copies[i]]; an index outside the array reads a default handle. *)
Definition get_handle (r : href) (m : MultiFile) : BasicFile :=
  match r with
  | Hdl => hdl m
  | Copy i => nth i (copies m) BasicFile_new
  end.

Definition set_handle (r : href) (f : BasicFile) (m : MultiFile) : MultiFile :=
  match r with
  | Hdl => mkMultiFile f (copies m) (NumCopies m) (OpenFlags m)
  | Copy i => mkMultiFile (hdl m) (<[i := f]> (copies m)) (NumCopies m) (OpenFlags m)
  end.

(** A call [r.meth(...)]: run the method on the handle and the world,
    store the handle back, record the call. *)
Definition invoke {A} (r : href) (meth : method A) (what : A -> call) : M A := fun s =>
  let '(a, f, w) := meth (get_handle r (mf s)) (os_w s) in
  (a, [Ev r (what a)], mkState (set_handle r f (mf s)) (buffer s) w).

(** A query that does not touch the world. *)
Definition query {A} (q : BasicFile -> A) : method A := fun f w => (q f, f, w).

(** [for (int i = 0; i < NumCopies; i++) acc = body(i, acc);] no body
    assigns [NumCopies]. *)
Fixpoint for_each {A} (idx : list nat) (body : nat -> A -> M A) (acc : A) : M A :=
  match idx with
  | [] => ret acc
  | i :: rest => let! acc' := body i acc in for_each rest body acc'
  end.

Definition for_copies {A} (body : nat -> A -> M A) (acc : A) : M A := fun s =>
  for_each (seq 0 (Z.to_nat (NumCopies (mf s)))) body acc s.

(** The loops of the forwarding methods have one shape: the primary's
    result starts the accumulator, each copy's result is folded in. *)
Definition fold_call {A} (meth : method A) (what : A -> call) (step : A -> A -> A)
    (i : nat) (acc : A) : M A :=
  let! a := invoke (Copy i) meth what in ret (step acc a).

Definition fan_out {A} (meth : method A) (what : A -> call) (step : A -> A -> A) : M A :=
  let! a0 := invoke Hdl meth what in
  for_copies (fold_call meth what step) a0.

Definition MultiFile_open_ (Path : string) (Flags : Z) : M bool := fun s =>
  let m := mkMultiFile (hdl (mf s)) (copies (mf s)) 0 Flags in
  invoke Hdl (FileRW_open_ Path Flags) (c_open Path Flags) (mkState m (buffer s) (os_w s)).

Definition MultiFile_open (Path : string) (flags : Z) : M bool :=
  MultiFile_open_ Path (FileRW_filter_open flags).
Definition MultiFile_excl (Path : string) (flags : Z) : M bool :=
  MultiFile_open_ Path (FileRW_filter_excl flags).
Definition MultiFile_create (Path : string) (flags : Z) : M bool :=
  MultiFile_open_ Path (FileRW_filter_create flags).

Definition MultiFile_add (Path : string) : M bool := fun s =>
  let n := NumCopies (mf s) in
  if (n <? 0) || (n >=? 5) then (false, [], s)
  else
    let flags := OpenFlags (mf s) in
    let '(ok, t, s1) := invoke (Copy (Z.to_nat n)) (FileRW_open_ Path flags) (c_open Path flags) s in
    if negb ok then (false, t, s1)
    else
      let m := mf s1 in
      (true, t, mkState (mkMultiFile (hdl m) (copies m) (NumCopies m + 1) (OpenFlags m))
                        (buffer s1) (os_w s1)).

Definition MultiFile_close : M unit :=
  let! _ := invoke Hdl (BasicFile_close true) (fun _ => c_close) in
  for_copies (fun i _ => invoke (Copy i) (BasicFile_close true) (fun _ => c_close)) tt.

Definition MultiFile_bad : M bool :=
  fan_out (fun f w => let '(b, f) := BasicFile_bad f in (b, f, w)) c_bad (fun B b => B || b).

Definition MultiFile_fail : M bool :=
  fan_out (query BasicFile_fail) c_fail (fun B b => B || b).

Definition MultiFile_good : M bool :=
  fan_out (query BasicFile_good) c_good (fun B b => B && b).

Definition MultiFile_is_open : M bool :=
  fan_out (query BasicFile_is_open) c_is_open (fun B b => B && b).

Definition MultiFile_is_closed : M bool :=
  let! B := fan_out (query BasicFile_is_open) c_is_open (fun B b => B || b) in
  ret (negb B).

Definition MultiFile_eof : M Z :=
  fan_out BasicFile_eof c_eof (fun R r => if negb (r =? R) then -1 else R).

Definition MultiFile_eflags : M Z :=
  fan_out (query BasicFile_eflags) c_eflags (fun fl v => Z.lor fl v).

Definition MultiFile_commit : M bool :=
  fan_out BasicFile_commit c_commit (fun B b => B && b).

Definition MultiFile_length : M Z :=
  fan_out BasicFile_length c_length (fun L l => if negb (l =? L) then -1 else L).

Definition MultiFile_size : M Z := MultiFile_length.

(** [P = P != p ? -1 : P], the step of [seek] and [tell]. *)
Definition keep_or_sentinel (P p : Z) : Z := if negb (P =? p) then -1 else P.

Definition MultiFile_seek (Pos Dir : Z) : M Z :=
  fan_out (BasicFile_seek Pos Dir) (c_seek Pos Dir) keep_or_sentinel.

Definition MultiFile_tell : M Z :=
  fan_out BasicFile_tell c_tell keep_or_sentinel.

Definition MultiFile_chsize (NewSize : Z) : M bool :=
  fan_out (BasicFile_chsize NewSize) (c_chsize NewSize) (fun Err e => Err || e).

Definition MultiFile_write (_Buf : list Z) (Size : Z) : M bool :=
  fan_out (BasicFile_write _Buf Size) (c_write _Buf Size) (fun Err e => e || Err).

(** Storing into and reading the thread-local [buffer]. *)
Definition set_buffer (b : list Z) : M unit := fun s =>
  (tt, [], mkState (mf s) b (os_w s)).
Definition get_buffer : M (list Z) := fun s => (buffer s, [], s).

Definition read_call (Size : Z) (r : bool * list Z) : call :=
  c_read Size (take (Z.to_nat Size) (snd r)) (fst r).

(** [x.read(p, Size) || x.fail()]: [fail()] is called only when the read
    returned false. *)
Definition read_or_fail (r : href) (dst : list Z) (Size : Z) : M (bool * list Z) :=
  let! '(e, dst) := invoke r (BasicFile_read dst Size) (read_call Size) in
  let! e := (if e then ret true else invoke r (query BasicFile_fail) c_fail) in
  ret (e, dst).

(** The body of the loop of [read]: read the copy into the
    verification buffer, then [memcmp] against the caller's buffer. *)
Definition verify_copy (Ptr_ : list Z) (Size : Z) (i : nat) (Err : bool) : M bool :=
  let! Buf_ := get_buffer in
  let! '(e, Buf_) := read_or_fail (Copy i) Buf_ Size in
  let! _ := set_buffer Buf_ in
  let Err := e || Err in
  let Err := bool_decide (take (Z.to_nat Size) Ptr_ <> take (Z.to_nat Size) Buf_) || Err in
  ret Err.

(** [read(Ptr_, Size)]: [buffer.resize(Size)] keeps what the vector
    held and zero-fills; the result is the error flag and the caller's
    buffer [Ptr_]. *)
Definition MultiFile_read (Ptr_ : list Z) (Size : Z) : M (bool * list Z) :=
  let! Buf_ := get_buffer in
  let! _ := set_buffer (resize (Z.to_nat Size) 0 Buf_) in
  let! '(Err, Ptr_) := read_or_fail Hdl Ptr_ Size in
  let! Err := for_copies (verify_copy Ptr_ Size) Err in
  ret (Err, Ptr_).

End Coordinator.

(** The notations of the monad, for the sections that follow. *)
Notation "'let!' x ':=' m 'in' k" := (bind m (fun x => k))
  (at level 10, x name, m at level 100, k at level 200).
Notation "'let!' ' p ':=' m 'in' k" := (bind m (fun x => let 'p := x in k))
  (at level 10, p pattern, m at level 100, k at level 200).

(** ** compare (MultifileIO.cpp) *)

Section Compare.
Context `{os : OS}.

(** [int(cnt)]: the 64-bit counter converted to [int]. *)
Definition to_int (x : Z) : Z := (x + 2 ^ 31) mod 2 ^ 32 - 2 ^ 31.

(** A line of the diagnostic stream: offset, both bytes, running count. *)
Definition diag : Type := Z * Z * Z * Z.

(** The inner [for (int64_t i = 0; i < L; i++)] over one chunk. *)
Definition compare_chunk (V1 V2 : list Z) (L L1 L2 : Z) (cnt : Z) (out : list diag)
  : Z * list diag :=
  fold_left (fun (acc : Z * list diag) (i : nat) =>
      let '(cnt, out) := acc in
      if negb (nth i V1 0 =? nth i V2 0) then
        let cnt := cnt + 1 in
        let j := L2 - L1 + Z.of_nat i in
        (cnt, out ++ [(j, nth i V1 0, nth i V2 0, cnt)])
      else (cnt, out))
    (seq 0 (Z.to_nat L)) (cnt, out).

(** What the body of [compare] has in hand when it leaves: the two
    handles, the diagnostic lines, the world. *)
Record frame := mkFrame {
  F1 : BasicFile; F2 : BasicFile; cout : list diag; fw : world
}.

(** [while (L1) { ... }]: [inl r] is an early [return r], [inr cnt]
    the counter when the loop ends; [None] when the fuel does not reach
    the end of the loop. *)
Fixpoint compare_loop (fuel : nat) (V1 V2 : list Z) (L1 L2 cnt : Z) (fr : frame)
  : option (Z + Z) * frame :=
  if L1 =? 0 then (Some (inr cnt), fr)
  else match fuel with
  | O => (None, fr)
  | S fuel =>
    let L := if L1 >? 4096 then 4096 else L1 in
    let '(e1, V1, f1, w) := BasicFile_read V1 (to_size_t L) (F1 fr) (fw fr) in
    if e1 then (Some (inl (-1)), mkFrame f1 (F2 fr) (cout fr) w)
    else
      let '(e2, V2, f2, w) := BasicFile_read V2 (to_size_t L) (F2 fr) w in
      if e2 then (Some (inl (-1)), mkFrame f1 f2 (cout fr) w)
      else
        let '(cnt, out) := compare_chunk V1 V2 L L1 L2 cnt (cout fr) in
        compare_loop fuel V1 V2 (L1 - L) L2 cnt (mkFrame f1 f2 out w)
  end.

(** Leaving the function destroys [F2], then [F1]; a [FileRO] closes
    without committing. *)
Definition leave (r : option Z) (fr : frame) : option Z * list diag * world :=
  let '(_, _, w) := BasicFile_close false (F2 fr) (fw fr) in
  let '(_, _, w) := BasicFile_close false (F1 fr) w in
  (r, cout fr, w).

(** The result is the returned [int], the diagnostic lines and the
    world; the loop runs on [|L1|] units of fuel, which always reach its
    end. *)
Definition compare (P1 P2 : string) (w : world) : option Z * list diag * world :=
  let V1 := replicate 4096 0 in
  let V2 := replicate 4096 0 in
  let '(ok1, f1, w) := FileRO_open P1 O_BINARY BasicFile_new w in
  if negb ok1 then leave (Some (-1)) (mkFrame f1 BasicFile_new [] w)
  else
    let '(ok2, f2, w) := FileRO_open P2 O_BINARY BasicFile_new w in
    if negb ok2 then leave (Some (-1)) (mkFrame f1 f2 [] w)
    else
      let '(L1, f1, w) := BasicFile_length f1 w in
      let '(L2, f2, w) := BasicFile_length f2 w in
      let fr := mkFrame f1 f2 [] w in
      if L1 <? L2 then leave (Some (-1)) fr
      else if L1 >? L2 then leave (Some (-1)) fr
      else
        match compare_loop (Z.to_nat (Z.abs L1)) V1 V2 L1 L2 0 fr with
        | (Some (inl r), fr) => leave (Some r) fr
        | (Some (inr cnt), fr) => leave (Some (to_int cnt)) fr
        | (None, fr) => leave None fr
        end.

End Compare.

(** ** Sequences of coordinator calls *)

Inductive op :=
| op_open (Path : string) (flags : Z)
| op_excl (Path : string) (flags : Z)
| op_create (Path : string) (flags : Z)
| op_add (Path : string)
| op_close
| op_bad | op_fail | op_good | op_is_open | op_is_closed | op_eof | op_eflags
| op_commit | op_length | op_size
| op_seek (Pos Dir : Z)
| op_tell
| op_chsize (NewSize : Z)
| op_write (_Buf : list Z) (Size : Z)
| op_read (Ptr_ : list Z) (Size : Z).

(** What a call hands back to its caller. *)
Inductive value :=
| v_void
| v_bool (b : bool)
| v_int (z : Z)
| v_read (err : bool) (Ptr_ : list Z).

Section Runs.
Context `{os : OS}.

Definition run (o : op) : M value :=
  match o with
  | op_open Path flags => let! b := MultiFile_open Path flags in ret (v_bool b)
  | op_excl Path flags => let! b := MultiFile_excl Path flags in ret (v_bool b)
  | op_create Path flags => let! b := MultiFile_create Path flags in ret (v_bool b)
  | op_add Path => let! b := MultiFile_add Path in ret (v_bool b)
  | op_close => let! _ := MultiFile_close in ret v_void
  | op_bad => let! b := MultiFile_bad in ret (v_bool b)
  | op_fail => let! b := MultiFile_fail in ret (v_bool b)
  | op_good => let! b := MultiFile_good in ret (v_bool b)
  | op_is_open => let! b := MultiFile_is_open in ret (v_bool b)
  | op_is_closed => let! b := MultiFile_is_closed in ret (v_bool b)
  | op_eof => let! z := MultiFile_eof in ret (v_int z)
  | op_eflags => let! z := MultiFile_eflags in ret (v_int z)
  | op_commit => let! b := MultiFile_commit in ret (v_bool b)
  | op_length => let! z := MultiFile_length in ret (v_int z)
  | op_size => let! z := MultiFile_size in ret (v_int z)
  | op_seek Pos Dir => let! z := MultiFile_seek Pos Dir in ret (v_int z)
  | op_tell => let! z := MultiFile_tell in ret (v_int z)
  | op_chsize NewSize => let! b := MultiFile_chsize NewSize in ret (v_bool b)
  | op_write _Buf Size => let! b := MultiFile_write _Buf Size in ret (v_bool b)
  | op_read Ptr_ Size => let! r := MultiFile_read Ptr_ Size in ret (v_read (fst r) (snd r))
  end.

(** The state a sequence of calls leaves. *)
Definition run_ops (ops : list op) (s : state) : state :=
  fold_left (fun s o => snd (run o s)) ops s.

(** A freshly constructed coordinator, over any world and any content
    of the thread-local buffer. *)
Definition initial (b : list Z) (w : world) : state := mkState MultiFile_new b w.

Definition reachable (s : state) : Prop :=
  exists b w ops, s = run_ops ops (initial b w).

(** The calls that establish a primary, and the calls that forward to
    every participant. *)
Definition is_opening (o : op) : bool :=
  match o with op_open _ _ | op_excl _ _ | op_create _ _ => true | _ => false end.

Definition is_forwarding (o : op) : bool :=
  match o with
  | op_open _ _ | op_excl _ _ | op_create _ _ | op_add _ => false
  | _ => true
  end.

(** The handle takes part in a call when the call's trace names it. *)
Definition participates (r : href) (t : list event) : Prop :=
  exists c, Ev r c ∈ t.

End Runs.

(** ** A platform to run on: files in memory

    A deterministic file system without faults, used to run the model on
    concrete files: every file is a list of bytes, a descriptor records
    its path, its position and the flags it was opened with.  The constants
    are those of the Microsoft C runtime, whose names the source uses. *)

Record open_file := mkOpenFile { of_path : string; of_pos : Z; of_flags : Z }.

Record memfs := mkMemFS {
  files : gmap string (list Z);
  fds : gmap Z open_file;
  next_fd : Z
}.

Definition has_flag (flags mask : Z) : bool := negb (Z.land flags mask =? 0).
Definition readable (flags : Z) : bool := negb (Z.land flags 3 =? 1).
Definition writable (flags : Z) : bool := negb (Z.land flags 3 =? 0).

Definition memfs_register (Path : string) (content : list Z) (flags : Z) (fs : memfs)
  : Z * Z * memfs :=
  (0, next_fd fs,
   mkMemFS (<[Path := content]> (files fs))
           (<[next_fd fs := mkOpenFile Path 0 flags]> (fds fs))
           (next_fd fs + 1)).

Definition memfs_open (Path : string) (flags : Z) (fs : memfs) : Z * Z * memfs :=
  match files fs !! Path with
  | Some content =>
      if has_flag flags 256 && has_flag flags 1024 then (17, -1, fs)
      else if has_flag flags 512 && writable flags then memfs_register Path [] flags fs
      else memfs_register Path content flags fs
  | None =>
      if has_flag flags 256 then memfs_register Path [] flags fs
      else (2, -1, fs)
  end.

Definition memfs_close (fd : Z) (fs : memfs) : Z * memfs :=
  match fds fs !! fd with
  | Some _ => (0, mkMemFS (files fs) (delete fd (fds fs)) (next_fd fs))
  | None => (-1, fs)
  end.

Definition memfs_commit (fd : Z) (fs : memfs) : Z * memfs :=
  match fds fs !! fd with
  | Some _ => (0, fs)
  | None => (-1, fs)
  end.

(** The open description of [fd] and the content of its file. *)
Definition memfs_file (fd : Z) (fs : memfs) : option (open_file * list Z) :=
  match fds fs !! fd with
  | Some o => match files fs !! of_path o with
              | Some content => Some (o, content)
              | None => None
              end
  | None => None
  end.

Definition memfs_set_pos (fd : Z) (o : open_file) (pos : Z) (fs : memfs) : memfs :=
  mkMemFS (files fs) (<[fd := mkOpenFile (of_path o) pos (of_flags o)]> (fds fs)) (next_fd fs).

Definition memfs_size (fd : Z) (fs : memfs) : Z * memfs :=
  match memfs_file fd fs with
  | Some (_, content) => (Z.of_nat (length content), fs)
  | None => (-1, fs)
  end.

Definition memfs_eof (fd : Z) (fs : memfs) : Z * memfs :=
  match memfs_file fd fs with
  | Some (o, content) => (if of_pos o >=? Z.of_nat (length content) then 1 else 0, fs)
  | None => (-1, fs)
  end.

Definition memfs_seek (fd Offset Origin : Z) (fs : memfs) : Z * memfs :=
  match memfs_file fd fs with
  | Some (o, content) =>
      let base := if Origin =? 0 then Some 0
                  else if Origin =? 1 then Some (of_pos o)
                  else if Origin =? 2 then Some (Z.of_nat (length content))
                  else None in
      match base with
      | Some b => if b + Offset <? 0 then (-1, fs)
                  else (b + Offset, memfs_set_pos fd o (b + Offset) fs)
      | None => (-1, fs)
      end
  | None => (-1, fs)
  end.

Definition memfs_tell (fd : Z) (fs : memfs) : Z * memfs :=
  match memfs_file fd fs with
  | Some (o, _) => (of_pos o, fs)
  | None => (-1, fs)
  end.

Definition memfs_chsize (fd Size : Z) (fs : memfs) : Z * memfs :=
  match memfs_file fd fs with
  | Some (o, content) =>
      if Size <? 0 then (22, fs)
      else if writable (of_flags o) then
        (0, mkMemFS (<[of_path o := resize (Z.to_nat Size) 0 content]> (files fs))
                    (fds fs) (next_fd fs))
      else (13, fs)
  | None => (9, fs)
  end.

(** A read transfers what the file holds from the position on, at most
    [count] and at most [INT_MAX] bytes. *)
Definition memfs_read (fd count : Z) (fs : memfs) : Z * list Z * memfs :=
  match memfs_file fd fs with
  | Some (o, content) =>
      if readable (of_flags o) then
        let data := take (Z.to_nat (Z.min count (2 ^ 31 - 1)))
                         (drop (Z.to_nat (of_pos o)) content) in
        let n := Z.of_nat (length data) in
        (n, data, memfs_set_pos fd o (of_pos o + n) fs)
      else (-1, [], fs)
  | None => (-1, [], fs)
  end.

(** A write of no bytes returns 0 and changes nothing.  A write of
    bytes stores them at the position (at the end with [_O_APPEND]),
    zero-filling a gap behind the end of the file. *)
Definition memfs_write (fd : Z) (data : list Z) (fs : memfs) : Z * memfs :=
  match memfs_file fd fs with
  | Some (o, content) =>
      if writable (of_flags o) then
        match data with
        | [] => (0, fs)
        | _ :: _ =>
            let pos := if has_flag (of_flags o) 8 then Z.of_nat (length content)
                       else of_pos o in
            let n := Z.of_nat (length data) in
            let content' := resize (Z.to_nat pos) 0 content ++ data
                            ++ drop (Z.to_nat (pos + n)) content in
            (n, mkMemFS (<[of_path o := content']> (files fs))
                        (<[fd := mkOpenFile (of_path o) (pos + n) (of_flags o)]> (fds fs))
                        (next_fd fs))
        end
      else (-1, fs)
  | None => (-1, fs)
  end.

Definition MemFS : OS := {|
  world := memfs;
  O_RDONLY := 0; O_WRONLY := 1; O_RDWR := 2; O_APPEND := 8;
  O_CREAT := 256; O_TRUNC := 512; O_EXCL := 1024; O_BINARY := 32768;
  EACCES := 13; EEXIST := 17; EINVAL := 22; EMFILE := 24; ENOENT := 2;
  EBADF := 9; ENOSPC := 28;
  os_open := memfs_open;
  os_close := memfs_close;
  os_commit := memfs_commit;
  os_size := memfs_size;
  os_eof := memfs_eof;
  os_seek := memfs_seek;
  os_tell := memfs_tell;
  os_chsize := memfs_chsize;
  os_read := memfs_read;
  os_write := memfs_write
|}.

(** A disk holding the given files, nothing open; descriptors start at 3. *)
Definition disk (l : list (string * list Z)) : memfs :=
  mkMemFS (list_to_map l) ∅ 3.

(** ** Scenarios on files in memory *)

(** Two copies of five bytes, a shorter file, and no file named "missing". *)
Definition shelf : memfs :=
  disk [("a", [1; 2; 3; 4; 5]); ("b", [1; 2; 3; 4; 5]); ("c", [1; 2; 3]);
        ("d", [1; 0; 3; 0; 5])].

Definition unopened : @state MemFS := @initial MemFS [] shelf.

(** Primary "a" with the copy "b", nothing else done. *)
Definition mirrored : @state MemFS :=
  @run_ops MemFS [op_open "a" 0; op_add "b"] unopened.

(** Primary "a" with the copy "d", which differs in two bytes. *)
Definition diverged : @state MemFS :=
  @run_ops MemFS [op_open "a" 0; op_add "d"] unopened.

(** Primary "a" with the copy "b" after a read behind the end of both
    files and a seek back to the start: both handles carry the [read] flag. *)
Definition rewound : @state MemFS :=
  @run_ops MemFS [op_read (replicate 6 0) 6; op_seek 0 0] mirrored.

(** Primary "a" with the shorter copy "c" after a read of five bytes:
    the copy carries the [read] flag, the primary does not. *)
Definition short_copy : @state MemFS :=
  @run_ops MemFS [op_open "a" 0; op_add "c"; op_read (replicate 5 0) 5] unopened.

(** Primary "a" with five copies. *)
Definition full : @state MemFS :=
  @run_ops MemFS [op_open "a" 0; op_add "b"; op_add "b"; op_add "b"; op_add "b"; op_add "b"]
    unopened.

(** The primary alone. *)
Definition alone : @state MemFS := @run_ops MemFS [op_open "a" 0] unopened.

(** [open] of a missing primary, then [add] of an existing copy. *)
Definition headless : @state MemFS :=
  @run_ops MemFS [op_open "missing" 0; op_add "b"] unopened.

(** Primary "a" with the copy "b", then an [open] of "c": it is refused,
    closes the primary and resets the count; the slot of the copy is
    left open on "b". *)
Definition displaced : @state MemFS :=
  @run_ops MemFS [op_open "a" 0; op_add "b"; op_open "c" 0] unopened.

(** Primary "a" with the copy "b", both closed by [close]. *)
Definition shut : @state MemFS := @run_ops MemFS [op_close] mirrored.

(** A buffer of 2^32 + 2 bytes that starts with two bytes 7. *)
Definition four_gib : nat := Z.to_nat (2 ^ 32).
Definition long_buffer : list Z := 7 :: 7 :: replicate four_gib 0.

(** Two files of 2^31 bytes that differ at every position. *)
Definition two_gib : nat := Z.to_nat (2 ^ 31).
Definition big_disk : memfs :=
  disk [("a", replicate two_gib 0); ("b", replicate two_gib 1)].

(** ** Vocabulary of the statements *)

Section Vocabulary.
Context `{os : OS}.

(** The number of active copies, and the handles a forwarding method
    calls, in the order it calls them. *)
Definition active (s : state) : nat := Z.to_nat (NumCopies (mf s)).
Definition participants (n : nat) : list href := Hdl :: map Copy (seq 0 n).

(** Result, trace and final state of a run. *)
Definition result {A} (x : A * list event * state) : A := fst (fst x).
Definition trace {A} (x : A * list event * state) : list event := snd (fst x).
Definition final {A} (x : A * list event * state) : state := snd x.

(** The array and the counters are well formed. *)
Definition well_formed (s : state) : Prop :=
  length (copies (mf s)) = 5%nat /\ 0 <= NumCopies (mf s) <= 5.

(** The state of the coordinator in the terms of its data model: the
    primary, the active copies (the first [NumCopies] slots), the count,
    the flags, and the buffer.  The slots behind the count are not part
    of it. *)
Definition logical (s : state) : BasicFile * list BasicFile * Z * Z * list Z :=
  (hdl (mf s), take (active s) (copies (mf s)), NumCopies (mf s), OpenFlags (mf s), buffer s).

(** The reads of a trace: who read, the bytes in the destination after
    the read, the error flag. *)
Definition read_of (e : event) : option (href * list Z * bool) :=
  match e with
  | Ev r (c_read _ bytes err) => Some (r, bytes, err)
  | _ => None
  end.
Definition reads (t : list event) : list (href * list Z * bool) := omap read_of t.

(** The handle carries an error flag of an earlier call. *)
Definition flagged (r : href) (s : state) : bool := BasicFile_fail (get_handle r (mf s)).

(** The read [hdl.read(Ptr_, Size)] of the primary, with its error
    flag and the buffer it leaves. *)
Definition primary_read (Ptr_ : list Z) (Size : Z) (s : state)
  : bool * list Z * BasicFile * world :=
  BasicFile_read Ptr_ Size (hdl (mf s)) (os_w s).
Definition read_err (R : bool * list Z * BasicFile * world) : bool := fst (fst (fst R)).
Definition read_buf (R : bool * list Z * BasicFile * world) : list Z := snd (fst (fst R)).

(** What makes [read] report failure for one participant: its read
    returned true, it carried an error flag before the call, or its bytes
    are not those in the caller's buffer. *)
Definition suspicious (Ptr_ : list Z) (Size : Z) (s : state) (x : href * list Z * bool) : bool :=
  snd x || flagged (fst (fst x)) s
  || bool_decide (take (Z.to_nat Size) Ptr_ <> snd (fst x)).

(** The shape of the object every method but [open_] and [add] keeps. *)
Definition same_shape (s s' : state) : Prop :=
  NumCopies (mf s') = NumCopies (mf s) /\
  OpenFlags (mf s') = OpenFlags (mf s) /\
  length (copies (mf s')) = length (copies (mf s)).

Definition keeps_shape {A} (m : M A) : Prop := forall s, same_shape s (final (m s)).

(** The call [copies[NumCopies].open_(Path, OpenFlags)] that [add] makes. *)
Definition add_open (Path : string) (s : state) : bool * BasicFile * world :=
  FileRW_open_ Path (OpenFlags (mf s)) (get_handle (Copy (active s)) (mf s)) (os_w s).

End Vocabulary.


(** The values the participants reported against the aggregate: the
    common value when they are all the same, the sentinel when two differ. *)
Definition agreement (vals : list Z) (res : Z) : Prop :=
  (forall c, (forall v, v ∈ vals -> v = c) -> res = c) /\
  ((exists x y, x ∈ vals /\ y ∈ vals /\ x <> y) -> res = -1).

(** The descriptor [fd] is open for reading on a file holding [content],
    at position [pos]. *)
Definition reading (fs : memfs) (fd : Z) (content : list Z) (pos : Z) : Prop :=
  exists o, fds fs !! fd = Some o /\ files fs !! of_path o = Some content /\
            of_pos o = pos /\ readable (of_flags o) = true.

(** The number of positions at which two byte sequences differ. *)
Definition count_diff (a b : list Z) : Z :=
  Z.of_nat (length (filter (fun p : Z * Z => fst p <> snd p) (zip a b))).

(** ** Vocabulary of the further properties *)

Section Relations.
Context `{os : OS}.

(** A single-file method takes every handle to one related to it. *)
Definition respects {A} (T : BasicFile -> BasicFile -> Prop) (meth : method A) : Prop :=
  forall f w, T f (snd (fst (meth f w))).

(** On a coordinator with [n] active copies the call keeps the count,
    takes each participant to a related handle and leaves every other
    slot as it is. *)
Definition within {A} (n : nat) (T : BasicFile -> BasicFile -> Prop) (m : M A) : Prop :=
  forall s, active s = n ->
    active (final (m s)) = n /\
    forall r,
      (r ∈ participants n -> T (get_handle r (mf s)) (get_handle r (mf (final (m s))))) /\
      (r ∉ participants n -> get_handle r (mf (final (m s))) = get_handle r (mf s)).

(** The descriptor is the same and no error flag has been cleared. *)
Definition keeps_errors (f f' : BasicFile) : Prop :=
  f_handle f' = f_handle f /\
  forall n, Z.testbit (e_flags f) n = true -> Z.testbit (e_flags f') n = true.

(** The flags that only a failed or refused [open] sets. *)
Definition opening_flags : list Z :=
  [bit_open; bit_reopen; bit_eexists; bit_emfile; bit_enoent].

(** A handle that carries one of them is closed. *)
Definition flagged_means_closed (f : BasicFile) : Prop :=
  forall b, b ∈ opening_flags -> Z.testbit (e_flags f) b = true -> f_handle f = -1.

Definition stays_closed (f f' : BasicFile) : Prop :=
  flagged_means_closed f -> flagged_means_closed f'.

(** The forwarding calls that neither close a handle nor assign the
    [open] flag. *)
Definition never_resets (o : op) : bool :=
  match o with
  | op_open _ _ | op_excl _ _ | op_create _ _ | op_add _ | op_close | op_bad => false
  | _ => true
  end.

(** The call [copies[i].close()] of the loop of [close]. *)
Definition close_copy (i : nat) (_ : unit) : M unit :=
  invoke (Copy i) (BasicFile_close true) (fun _ => c_close).

(** What calling a single-file method on each of the handles [hs] in
    turn gives: for each call its result and the handle it leaves, and
    the world after the last call.  Each call runs on the world the call
    before it left. *)
Fixpoint each_in_turn {A} (meth : method A) (hs : list BasicFile) (w : world)
  : list (A * BasicFile) * world :=
  match hs with
  | [] => ([], w)
  | h :: hs =>
      let '(a, h', w) := meth h w in
      let '(outs, w) := each_in_turn meth hs w in
      ((a, h') :: outs, w)
  end.

(** The object with the handles [hs] stored back at the places [rs]. *)
Fixpoint put_all (rs : list href) (hs : list BasicFile) (m : MultiFile) : MultiFile :=
  match rs, hs with
  | r :: rs, h :: hs => put_all rs hs (set_handle r h m)
  | _, _ => m
  end.

(** The handles of the participants, in the order they are called, and
    what calling [meth] on each of them in turn gives. *)
Definition handles (s : state) : list BasicFile :=
  map (fun r => get_handle r (mf s)) (participants (active s)).

Definition in_turn {A} (meth : method A) (s : state) : list (A * BasicFile) * world :=
  each_in_turn meth (handles s) (os_w s).

(** The values these calls return, in the order of the calls. *)
Definition reported {A} (meth : method A) (s : state) : list A :=
  map fst (fst (in_turn meth s)).

(** The coordinator method [m] calls [meth] on the primary and then on
    each active copy, each handle as it was before the call of [m] and
    each call on the world the call before it left: there
    is one call for the primary and one for each active copy, the trace
    names these calls with what they returned, every handle is stored
    back, and the world is the one the last call left. *)
Definition calls_in_turn {A} (m : M A) (meth : method A) (what : A -> call) (s : state)
  : Prop :=
  length (reported meth s) = S (active s) /\
  trace (m s)
    = zip_with (fun r a => Ev r (what a)) (participants (active s)) (reported meth s) /\
  final (m s)
    = mkState (put_all (participants (active s)) (map snd (fst (in_turn meth s))) (mf s))
        (buffer s) (snd (in_turn meth s)).

(** The counts the platform returns when [write(_Buf, Size)] is called
    on each of the handles in turn. *)
Fixpoint write_counts (_Buf : list Z) (Size : Z) (hs : list BasicFile) (w : world)
  : list Z :=
  match hs with
  | [] => []
  | h :: hs =>
      fst (os_write (f_handle h) (take (Z.to_nat (to_unsigned Size)) _Buf) w)
      :: write_counts _Buf Size hs (snd (BasicFile_write _Buf Size h w))
  end.

End Relations.

(** The two disks hold the same files and the same descriptors except,
    possibly, [fd1] and [fd2]. *)
Definition same_but (fd1 fd2 : Z) (w w' : memfs) : Prop :=
  files w' = files w /\
  forall fd, fd <> fd1 -> fd <> fd2 -> fds w' !! fd = fds w !! fd.

(** The descriptor [fd] is open on the file [P], which holds [c], at
    position [p], with the access mode [_O_RDWR] and without [_O_APPEND]. *)
Definition holds_at (w : memfs) (fd : Z) (P : string) (p : Z) (c : list Z) : Prop :=
  exists flags, fds w !! fd = Some (mkOpenFile P p flags) /\
    Z.land flags 3 = 2 /\ has_flag flags 8 = false /\
    files w !! P = Some c.

(** What a file holds after [data] has been written at position [p]:
    a write of no bytes leaves the file as it is. *)
Definition written (p : Z) (data c : list Z) : list Z :=
  match data with
  | [] => c
  | _ :: _ =>
      resize (Z.to_nat p) 0 c ++ data ++ drop (Z.to_nat (p + Z.of_nat (length data))) c
  end.

(** The handle [r] is clean and is the descriptor [fd r], open on the
    file [path r] as [holds_at] says. *)
Definition attached (fd : href -> Z) (path : href -> string) (r : href) (p : Z)
    (c : list Z) (s : @state MemFS) : Prop :=
  get_handle r (mf s) = mkBasicFile (fd r) 0 /\
  holds_at (os_w s) (fd r) (path r) p c.

(** * Theorems *)

Section Monad.
Context `{os : OS}.

Lemma same_shape_refl s : same_shape s s.
Proof. by repeat split. Qed.

Lemma same_shape_trans s1 s2 s3 :
  same_shape s1 s2 -> same_shape s2 s3 -> same_shape s1 s3.
Proof. unfold same_shape. intros (?&?&?) (?&?&?). repeat split; congruence. Qed.

Lemma ret_shape {A} (a : A) : keeps_shape (ret a).
Proof. intros s. apply same_shape_refl. Qed.

Lemma bind_shape {A B} (m : M A) (k : A -> M B) :
  keeps_shape m -> (forall a, keeps_shape (k a)) -> keeps_shape (bind m k).
Proof.
  intros Hm Hk s. unfold bind, final.
  specialize (Hm s). destruct (m s) as [[a t1] s1]. 
  specialize (Hk a s1). destruct (k a s1) as [[b t2] s2].
  eapply same_shape_trans; eauto.
Qed.

Lemma invoke_shape {A} r (meth : method A) what : keeps_shape (invoke r meth what).
Proof.
  intros s. unfold invoke, final.
  destruct (meth _ _) as [[a f] w]. unfold same_shape. simpl.
  destruct r; simpl; repeat split; try done. by rewrite length_insert.
Qed.

Lemma for_each_shape {A} idx (body : nat -> A -> M A) acc :
  (forall i a, keeps_shape (body i a)) -> keeps_shape (for_each idx body acc).
Proof.
  intros Hb. revert acc. induction idx as [|i idx IH]; intros acc; simpl.
  - apply ret_shape.
  - apply bind_shape; auto.
Qed.

Lemma for_copies_shape {A} (body : nat -> A -> M A) acc :
  (forall i a, keeps_shape (body i a)) -> keeps_shape (for_copies body acc).
Proof. intros Hb s. unfold for_copies. by apply for_each_shape. Qed.

Lemma set_buffer_shape b : keeps_shape (set_buffer b).
Proof. intros s. by repeat split. Qed.

Lemma get_buffer_shape : keeps_shape get_buffer.
Proof. intros s. apply same_shape_refl. Qed.

Lemma fan_out_shape {A} (meth : method A) what step : keeps_shape (fan_out meth what step).
Proof.
  apply bind_shape; [apply invoke_shape|]. intros a.
  apply for_copies_shape. intros i acc. unfold fold_call.
  apply bind_shape; [apply invoke_shape|]. intros; apply ret_shape.
Qed.

(** The loop of a forwarding method: one call per index, in order, each
    result folded into the accumulator. *)
Lemma for_each_fan {A} (meth : method A) what step idx acc s :
  exists (rest : list A) (s' : state),
    length rest = length idx /\
    for_each idx (fold_call meth what step) acc s
      = (fold_left step rest acc,
         zip_with (fun r a => Ev r (what a)) (map Copy idx) rest, s').
Proof.
  revert acc s. induction idx as [|i idx IH]; intros acc s.
  - by exists [], s.
  - simpl. unfold bind at 1. unfold fold_call at 1, bind at 1.
    unfold invoke at 1. destruct (meth _ _) as [[a f] w]. simpl.
    set (s1 := mkState _ _ _).
    destruct (IH (step acc a) s1) as (rest & s' & Hlen & ->).
    exists (a :: rest), s'. simpl. by rewrite Hlen.
Qed.

(** A forwarding method calls the primary and then every active copy,
    whatever the calls return, and folds the results from the primary's. *)
Lemma fan_out_spec {A} (meth : method A) what step s :
  exists (a0 : A) (rest : list A) (s' : state),
    length rest = active s /\
    fan_out meth what step s
      = (fold_left step rest a0,
         zip_with (fun r a => Ev r (what a)) (participants (active s)) (a0 :: rest), s').
Proof.
  unfold fan_out, bind at 1, invoke at 1.
  destruct (meth _ _) as [[a0 f] w]. set (s1 := mkState _ _ _).
  unfold for_copies.
  assert (Hn : Z.to_nat (NumCopies (mf s1)) = active s) by (by destruct s).
  rewrite Hn.
  destruct (for_each_fan meth what step (seq 0 (active s)) a0 s1) as (rest & s' & Hlen & ->).
  exists a0, rest, s'. rewrite length_seq in Hlen. by split.
Qed.

End Monad.

(** ** The folds of the forwarding methods *)

Lemma fold_or (rest : list bool) (a0 : bool) :
  fold_left (fun Err e => e || Err) rest a0 = existsb id (a0 :: rest).
Proof.
  revert a0. induction rest as [|e rest IH]; intros a0; simpl.
  - by rewrite orb_false_r.
  - rewrite IH. simpl. unfold id. by destruct a0, e.
Qed.

Lemma fold_and (rest : list bool) (a0 : bool) :
  fold_left (fun B b => B && b) rest a0 = forallb id (a0 :: rest).
Proof.
  revert a0. induction rest as [|e rest IH]; intros a0; simpl.
  - by rewrite andb_true_r.
  - rewrite IH. simpl. unfold id. by destruct a0, e.
Qed.

Lemma fold_keep_or_sentinel (rest : list Z) (a0 : Z) :
  fold_left keep_or_sentinel rest a0 = if forallb (Z.eqb a0) rest then a0 else -1.
Proof.
  revert a0. induction rest as [|v rest IH]; intros a0; simpl; [done|].
  rewrite IH. unfold keep_or_sentinel.
  destruct (a0 =? v) eqn:E; simpl; [done|]. by destruct (forallb _ rest).
Qed.

Lemma fold_agreement (rest : list Z) (a0 : Z) :
  agreement (a0 :: rest) (fold_left keep_or_sentinel rest a0).
Proof.
  rewrite fold_keep_or_sentinel. split.
  - intros c Hc.
    assert (Hall : forallb (Z.eqb a0) rest = true).
    { apply forallb_forall. intros v Hv. apply Z.eqb_eq.
      rewrite (Hc a0), (Hc v); [done| |]; [right; by apply list_elem_of_In | left]. }
    rewrite Hall. apply Hc. left.
  - intros (x & y & Hx & Hy & Hne).
    destruct (forallb (Z.eqb a0) rest) eqn:Hall; [|done].
    exfalso. apply Hne.
    assert (Heq : forall v, v ∈ a0 :: rest -> v = a0).
    { intros v Hv. apply elem_of_cons in Hv as [->|Hv]; [done|].
      rewrite forallb_forall in Hall. symmetry. apply Z.eqb_eq, Hall.
      by apply list_elem_of_In. }
    by rewrite (Heq x), (Heq y).
Qed.

Section Forwarding.
Context `{os : OS}.

(** What [BasicFile::write] returns: true exactly when the count the
    platform returned, converted to [size_t], is not [Size]. *)
Lemma BasicFile_write_result (_Buf : list Z) (Size : Z) (f : BasicFile) (w : world) :
  fst (fst (BasicFile_write _Buf Size f w))
  = negb (to_size_t (fst (os_write (f_handle f) (take (Z.to_nat (to_unsigned Size)) _Buf) w)) =? Size).
Proof.
  unfold BasicFile_write. destruct (os_write _ _ _) as [res w']. simpl.
  destruct (to_size_t res =? Size); [done|]. by destruct (res =? -1).
Qed.

(** For a size an object can have and a count in the range of [int],
    that is: true exactly when the platform wrote another count than [Size]. *)
Lemma BasicFile_write_short (_Buf : list Z) (Size : Z) (f : BasicFile) (w : world) :
  0 <= Size < 2 ^ 63 ->
  - 2 ^ 31 <= fst (os_write (f_handle f) (take (Z.to_nat (to_unsigned Size)) _Buf) w) < 2 ^ 31 ->
  fst (fst (BasicFile_write _Buf Size f w)) = true <->
  fst (os_write (f_handle f) (take (Z.to_nat (to_unsigned Size)) _Buf) w) <> Size.
Proof.
  intros HS Hres. rewrite BasicFile_write_result.
  set (res := fst (os_write _ _ _)) in *. unfold to_size_t.
  rewrite negb_true_iff, Z.eqb_neq. split; intros H Heq; apply H.
  - subst res. rewrite Heq. apply Z.mod_small. lia.
  - destruct (Z.neg_nonneg_cases res) as [Hneg|Hpos].
    + exfalso. assert (Hm : res mod 2 ^ 64 = res + 2 ^ 64).
      { symmetry. apply (Z.mod_unique_pos _ _ (-1)); lia. }
      lia.
    + rewrite Z.mod_small in Heq; lia.
Qed.

(** [commit] folds the results of the single-file commits with [&&]. *)
Lemma commit_conjunction (s : state) :
  exists errs : list bool,
    length errs = S (active s) /\
    trace (MultiFile_commit s)
      = zip_with (fun r e => Ev r (c_commit e)) (participants (active s)) errs /\
    result (MultiFile_commit s) = forallb id errs.
Proof.
  unfold MultiFile_commit.
  destruct (fan_out_spec BasicFile_commit c_commit (fun B b => B && b) s)
    as (a0 & rest & s' & Hlen & ->).
  exists (a0 :: rest). unfold trace, result. simpl.
  repeat split; [by rewrite Hlen | apply fold_and].
Qed.

End Forwarding.

(** ** The life cycle: construction, [open_], [add] *)

Section Lifecycle.
Context `{os : OS}.

Lemma read_or_fail_shape r dst Size : keeps_shape (read_or_fail r dst Size).
Proof.
  unfold read_or_fail. apply bind_shape; [apply invoke_shape|].
  intros [e d]. apply bind_shape; [|intros; apply ret_shape].
  destruct e; [apply ret_shape | apply invoke_shape].
Qed.

Lemma MultiFile_read_shape Ptr_ Size : keeps_shape (MultiFile_read Ptr_ Size).
Proof.
  unfold MultiFile_read.
  apply bind_shape; [apply get_buffer_shape|]. intros b.
  apply bind_shape; [apply set_buffer_shape|]. intros _.
  apply bind_shape; [apply read_or_fail_shape|]. intros [e p].
  apply bind_shape; [|intros; apply ret_shape].
  apply for_copies_shape. intros i a. unfold verify_copy.
  apply bind_shape; [apply get_buffer_shape|]. intros b'.
  apply bind_shape; [apply read_or_fail_shape|]. intros [e' b''].
  apply bind_shape; [apply set_buffer_shape|]. intros; apply ret_shape.
Qed.

Lemma MultiFile_close_shape : keeps_shape MultiFile_close.
Proof.
  unfold MultiFile_close. apply bind_shape; [apply invoke_shape|]. intros _.
  apply for_copies_shape. intros; apply invoke_shape.
Qed.

(** Every call but [open], [excl], [create] and [add] leaves the count,
    the flags and the array length as they were. *)
Lemma run_shape (o : op) :
  is_opening o = false -> (forall Path, o <> op_add Path) -> keeps_shape (run o).
Proof.
  intros Hopen Hadd.
  destruct o; try discriminate Hopen; try (by destruct (Hadd Path));
    unfold run; (apply bind_shape; [|intros; apply ret_shape]);
    try apply fan_out_shape.
  - apply MultiFile_close_shape.
  - unfold MultiFile_is_closed. apply bind_shape; [apply fan_out_shape|].
    intros; apply ret_shape.
  - apply MultiFile_read_shape.
Qed.

Lemma MultiFile_open__count (Path : string) (Flags : Z) (s : state) :
  NumCopies (mf (final (MultiFile_open_ Path Flags s))) = 0 /\
  OpenFlags (mf (final (MultiFile_open_ Path Flags s))) = Flags /\
  length (copies (mf (final (MultiFile_open_ Path Flags s)))) = length (copies (mf s)).
Proof.
  unfold MultiFile_open_, invoke, final. simpl.
  by destruct (FileRW_open_ _ _ _ _) as [[ok f] w].
Qed.

Lemma MultiFile_add_cases (Path : string) (s : state) :
  (NumCopies (mf s) < 0 \/ 5 <= NumCopies (mf s)) /\
    MultiFile_add Path s = (false, [], s)
  \/
  (0 <= NumCopies (mf s) < 5) /\ fst (fst (add_open Path s)) = false /\
    result (MultiFile_add Path s) = false /\
    trace (MultiFile_add Path s) = [Ev (Copy (active s)) (c_open Path (OpenFlags (mf s)) false)] /\
    same_shape s (final (MultiFile_add Path s)) /\
    logical (final (MultiFile_add Path s)) = logical s
  \/
  (0 <= NumCopies (mf s) < 5) /\ fst (fst (add_open Path s)) = true /\
    result (MultiFile_add Path s) = true /\
    trace (MultiFile_add Path s) = [Ev (Copy (active s)) (c_open Path (OpenFlags (mf s)) true)] /\
    NumCopies (mf (final (MultiFile_add Path s))) = NumCopies (mf s) + 1 /\
    OpenFlags (mf (final (MultiFile_add Path s))) = OpenFlags (mf s) /\
    length (copies (mf (final (MultiFile_add Path s)))) = length (copies (mf s)).
Proof.
  unfold MultiFile_add, add_open, active.
  destruct (NumCopies (mf s) <? 0) eqn:Hlo; simpl.
  { left. split; [left; lia | done]. }
  destruct (NumCopies (mf s) >=? 5) eqn:Hhi; simpl.
  { left. split; [right; lia | done]. }
  right. unfold invoke.
  destruct (FileRW_open_ _ _ _ _) as [[ok f] w]. simpl.
  destruct ok; simpl; [right | left]; unfold result, trace, final, logical, active; simpl.
  - repeat split; try lia. by rewrite length_insert.
  - repeat split; try lia; simpl; try by rewrite length_insert.
    by rewrite take_insert_ge.
Qed.

Lemma fill_open_errors_0 : fill_open_errors 0 = 0.
Proof. unfold fill_open_errors, assign_bit. by rewrite !Z.land_0_l. Qed.

(** An [open_] that fails leaves the handle closed. *)
Lemma FileRW_open__failed (Path : string) (flags : Z) (f : BasicFile) (w : world) :
  fst (fst (FileRW_open_ Path flags f w)) = false ->
  f_handle (snd (fst (FileRW_open_ Path flags f w))) = -1.
Proof.
  unfold FileRW_open_, BasicFile_open. cbn [with_flags f_handle].
  destruct (f_handle f =? -1) eqn:Hfh; cbn [negb].
  - destruct (os_open Path flags w) as [[err fh] w1]. cbn [f_handle].
    destruct (fh =? -1) eqn:Hfh1.
    + apply Z.eqb_eq in Hfh1. by subst fh.
    + destruct (err =? 0) eqn:Herr; cbn [negb].
      * apply Z.eqb_eq in Herr. subst err. rewrite fill_open_errors_0. by cbn.
      * by destruct (os_close _ _) as [r w2].
  - unfold BasicFile_close, BasicFile_is_open, raise. cbn [with_flags f_handle].
    rewrite Hfh. cbn [negb]. by destruct (os_close _ _) as [r w2].
Qed.

(** What [open_] returns is whether it leaves the handle good. *)
Lemma FileRW_open__result (Path : string) (flags : Z) (f : BasicFile) (w : world) :
  fst (fst (FileRW_open_ Path flags f w))
  = BasicFile_good (snd (fst (FileRW_open_ Path flags f w))).
Proof.
  unfold FileRW_open_, BasicFile_open.
  destruct (if negb (f_handle (with_flags 0 f) =? -1) then _ else _) as [f' w'].
  cbn [fst snd]. by destruct (BasicFile_good f').
Qed.

(** What a failed [add] below the limit changes: the slot behind the
    count, which it leaves closed and flagged, and the world, which is
    the one the attempt to open left. *)
Lemma MultiFile_add_failed_slot (Path : string) (s : state) :
  0 <= NumCopies (mf s) < 5 -> fst (fst (add_open Path s)) = false ->
  final (MultiFile_add Path s)
    = mkState (set_handle (Copy (active s)) (snd (fst (add_open Path s))) (mf s))
        (buffer s) (snd (add_open Path s)) /\
  f_handle (snd (fst (add_open Path s))) = -1 /\
  BasicFile_good (snd (fst (add_open Path s))) = false.
Proof.
  intros Hn Hfail. split; [|split].
  - unfold MultiFile_add, add_open, active in *.
    destruct (NumCopies (mf s) <? 0) eqn:Hlo; [lia|].
    destruct (NumCopies (mf s) >=? 5) eqn:Hhi; [lia|]. cbn [orb].
    unfold invoke. destruct (FileRW_open_ _ _ _ _) as [[ok f] w]. cbn in Hfail. subst ok.
    done.
  - by apply FileRW_open__failed.
  - unfold add_open in *. by rewrite <- FileRW_open__result.
Qed.

Lemma final_bind_ret {A B} (m : M A) (k : A -> B) (s : state) :
  final ((let! a := m in ret (k a)) s) = final (m s).
Proof. unfold bind, ret, final. by destruct (m s) as [[a t] s1]. Qed.

(** A call leaves the count at 0, as it was, or one above a count below 5. *)
Lemma run_count_cases (o : op) (s : state) :
  NumCopies (mf (final (run o s))) = 0 \/
  NumCopies (mf (final (run o s))) = NumCopies (mf s) \/
  (0 <= NumCopies (mf s) < 5 /\ NumCopies (mf (final (run o s))) = NumCopies (mf s) + 1).
Proof.
  destruct (is_opening o) eqn:Hopen.
  - left. destruct o; try discriminate Hopen; unfold run;
      rewrite final_bind_ret; apply MultiFile_open__count.
  - right. destruct o; try discriminate Hopen.
    2-17: (left; pose proof (run_shape _ Hopen) as Hs;
           match type of Hs with (_ -> keeps_shape (run ?o)) =>
             assert (Ho : forall Path, o <> op_add Path) by (intros; discriminate);
             apply (Hs Ho s)
           end).
    unfold run. rewrite final_bind_ret.
    destruct (MultiFile_add_cases Path s)
      as [[_ Heq]|[(_&_&_&_&(H&_)&_)|(H0&_&_&_&H&_)]].
    + left. by rewrite Heq.
    + by left.
    + by right.
Qed.

Lemma initial_well_formed b w : well_formed (initial b w).
Proof. split; [done | simpl; lia]. Qed.

Lemma run_well_formed (o : op) (s : state) :
  well_formed s -> well_formed (final (run o s)).
Proof.
  intros [Hlen Hn].
  assert (Hkeep : forall A (m : M A) (k : A -> value),
             (NumCopies (mf (final (m s))) = 0 \/
              NumCopies (mf (final (m s))) = NumCopies (mf s) \/
              NumCopies (mf s) < 5 /\ NumCopies (mf (final (m s))) = NumCopies (mf s) + 1) ->
             length (copies (mf (final (m s)))) = length (copies (mf s)) ->
             well_formed (final ((let! a := m in ret (k a)) s))).
  { intros A m k Hc Hl. unfold bind, ret, final in *.
    destruct (m s) as [[a t] s1]. simpl in *. split; [congruence | lia]. }
  destruct (is_opening o) eqn:Hopen.
  - destruct o; try discriminate Hopen; unfold run; apply Hkeep;
      try (left; apply MultiFile_open__count); apply MultiFile_open__count.
  - destruct o; try discriminate Hopen.
    2-17: (pose proof (run_shape _ Hopen) as Hs;
           match type of Hs with (_ -> keeps_shape (run ?o)) =>
             assert (Ho : forall Path, o <> op_add Path) by (intros; discriminate);
             destruct (Hs Ho s) as (H1 & _ & H3)
           end; split; [congruence | lia]).
    unfold run. apply Hkeep.
    + destruct (MultiFile_add_cases Path s) as [[_ ->]|[(_&_&_&_&(H&_&_)&_)|(H0&_&_&_&H&_)]];
        [right; left; done | right; left; done | right; right; lia].
    + destruct (MultiFile_add_cases Path s) as [[_ ->]|[(_&_&_&_&(_&_&H)&_)|(_&_&_&_&_&_&H)]]; done.
Qed.

Lemma run_ops_app (ops1 ops2 : list op) (s : state) :
  run_ops (ops1 ++ ops2) s = run_ops ops2 (run_ops ops1 s).
Proof. unfold run_ops. apply fold_left_app. Qed.

Lemma run_ops_well_formed (ops : list op) (s : state) :
  well_formed s -> well_formed (run_ops ops s).
Proof.
  revert s. induction ops as [|o ops IH]; intros s Hs; [done|].
  simpl. apply IH. by apply (run_well_formed o s).
Qed.

Lemma reachable_well_formed (s : state) : reachable s -> well_formed s.
Proof.
  intros (b & w & ops & ->). apply run_ops_well_formed, initial_well_formed.
Qed.

End Lifecycle.

Section Counting.
Context `{os : OS}.

(** C5, amended: [add] returns false and leaves the state as it was
    when five copies are registered.  When the open of the slot behind
    the count with the stored flags fails, it returns false and leaves the
    primary, the active copies, the count, the flags and the buffer as
    they were; the state it leaves is the one before it with the handle
    of the failed attempt, closed and flagged, stored in that slot, on
    the world the attempt left.  When it returns true it has made that
    open and the count is one more. *)
Theorem add_fails_unchanged_or_counts (Path : string) (s : state) :
  (5 <= NumCopies (mf s) ->
     result (MultiFile_add Path s) = false /\ final (MultiFile_add Path s) = s) /\
  (0 <= NumCopies (mf s) < 5 -> fst (fst (add_open Path s)) = false ->
     result (MultiFile_add Path s) = false /\
     logical (final (MultiFile_add Path s)) = logical s /\
     final (MultiFile_add Path s)
       = mkState (set_handle (Copy (active s)) (snd (fst (add_open Path s))) (mf s))
           (buffer s) (snd (add_open Path s)) /\
     f_handle (snd (fst (add_open Path s))) = -1 /\
     BasicFile_good (snd (fst (add_open Path s))) = false) /\
  (result (MultiFile_add Path s) = true ->
     trace (MultiFile_add Path s)
       = [Ev (Copy (active s)) (c_open Path (OpenFlags (mf s)) true)] /\
     NumCopies (mf (final (MultiFile_add Path s))) = NumCopies (mf s) + 1).
Proof.
  destruct (MultiFile_add_cases Path s)
    as [[Hn Heq]|[(Hn&Hop&Hres&Htr&Hsh&Hlog)|(Hn&Hop&Hres&Htr&Hcnt&_)]].
  - rewrite Heq. unfold result, final. simpl. repeat split; try done; lia.
  - split; [lia|]. split; [|intros; congruence].
    intros _ _. split; [done|]. split; [done|].
    apply (MultiFile_add_failed_slot Path s Hn Hop).
  - split; [lia|]. split; [intros; congruence|]. done.
Qed.

(** C7: the count is 0 in a new coordinator and after [open], [excl]
    and [create]; [add] raises it by one, and only from below 5; no call
    takes it out of the range 0..5, so it is in that range after every
    sequence of calls. *)
Theorem secondary_count_in_range :
  NumCopies MultiFile_new = 0 /\
  (forall Path flags s,
     NumCopies (mf (final (MultiFile_open Path flags s))) = 0 /\
     NumCopies (mf (final (MultiFile_excl Path flags s))) = 0 /\
     NumCopies (mf (final (MultiFile_create Path flags s))) = 0) /\
  (forall Path s,
     if result (MultiFile_add Path s)
     then 0 <= NumCopies (mf s) < 5 /\
          NumCopies (mf (final (MultiFile_add Path s))) = NumCopies (mf s) + 1
     else NumCopies (mf (final (MultiFile_add Path s))) = NumCopies (mf s)) /\
  (forall o s,
     0 <= NumCopies (mf s) <= 5 -> 0 <= NumCopies (mf (final (run o s))) <= 5) /\
  (forall b w ops, 0 <= NumCopies (mf (run_ops ops (initial b w))) <= 5).
Proof.
  split; [done|]. split; [|split; [|split]].
  - intros. repeat split; apply MultiFile_open__count.
  - intros Path s.
    destruct (MultiFile_add_cases Path s)
      as [[Hn Heq]|[(Hn&Hop&Hres&Htr&Hsh&Hlog)|(Hn&Hop&Hres&Htr&Hcnt&_)]].
    + by rewrite Heq.
    + rewrite Hres. apply Hsh.
    + by rewrite Hres.
  - intros o s Hn. destruct (run_count_cases o s) as [H|[H|[H1 H]]]; lia.
  - intros b w ops. apply (run_ops_well_formed ops (initial b w)), initial_well_formed.
Qed.

End Counting.

(** ** Who takes part in a call *)

Section Participation.
Context `{os : OS}.

Lemma trace_bind {A B} (m : M A) (k : A -> M B) (s : state) :
  trace (bind m k s) = trace (m s) ++ trace (k (result (m s)) (final (m s))).
Proof.
  unfold bind, trace, result, final. destruct (m s) as [[a t1] s1]. simpl.
  by destruct (k a s1) as [[b t2] s2].
Qed.

Lemma participates_app_l r t1 t2 : participates r t1 -> participates r (t1 ++ t2).
Proof. intros [c Hc]. exists c. apply elem_of_app. by left. Qed.

Lemma participates_app_r r t1 t2 : participates r t2 -> participates r (t1 ++ t2).
Proof. intros [c Hc]. exists c. apply elem_of_app. by right. Qed.

Lemma invoke_participates {A} r (meth : method A) what s :
  participates r (trace (invoke r meth what s)).
Proof.
  unfold invoke, trace. destruct (meth _ _) as [[a f] w]. simpl.
  exists (what a). left.
Qed.

(** A loop whose body calls [copies[i]] calls every index it runs over. *)
Lemma for_each_participates {A} idx (body : nat -> A -> M A) acc s k :
  (forall i a s, participates (Copy i) (trace (body i a s))) ->
  k ∈ idx -> participates (Copy k) (trace (for_each idx body acc s)).
Proof.
  intros Hb. revert acc s. induction idx as [|i idx IH]; intros acc s Hk.
  - by apply elem_of_nil in Hk.
  - simpl. rewrite trace_bind. apply elem_of_cons in Hk as [->|Hk].
    + apply participates_app_l, Hb.
    + apply participates_app_r. by apply IH.
Qed.

Lemma for_copies_participates {A} (body : nat -> A -> M A) acc s k :
  (forall i a s, participates (Copy i) (trace (body i a s))) ->
  (k < active s)%nat -> participates (Copy k) (trace (for_copies body acc s)).
Proof.
  intros Hb Hk. unfold for_copies. apply for_each_participates; [done|].
  apply elem_of_seq. unfold active in Hk. lia.
Qed.

Lemma active_invoke {A} r (meth : method A) what s :
  active (final (invoke r meth what s)) = active s.
Proof. unfold active. by destruct (invoke_shape r meth what s) as [-> _]. Qed.

Lemma fan_out_participates {A} (meth : method A) what step s k :
  (k < active s)%nat -> participates (Copy k) (trace (fan_out meth what step s)).
Proof.
  intros Hk. unfold fan_out. rewrite trace_bind. apply participates_app_r.
  apply for_copies_participates; [|by rewrite active_invoke].
  intros i a s'. unfold fold_call. rewrite trace_bind.
  apply participates_app_l, invoke_participates.
Qed.

Lemma read_or_fail_participates r dst Size s :
  participates r (trace (read_or_fail r dst Size s)).
Proof.
  unfold read_or_fail. rewrite trace_bind.
  apply participates_app_l, invoke_participates.
Qed.

Lemma active_shape s s' : same_shape s s' -> active s' = active s.
Proof. unfold active. by intros [-> _]. Qed.

Lemma MultiFile_read_participates Ptr_ Size s k :
  (k < active s)%nat -> participates (Copy k) (trace (MultiFile_read Ptr_ Size s)).
Proof.
  intros Hk. unfold MultiFile_read.
  rewrite trace_bind. apply participates_app_r.
  rewrite trace_bind. apply participates_app_r.
  rewrite trace_bind. apply participates_app_r.
  destruct (result (read_or_fail Hdl Ptr_ Size _)) as [e p].
  rewrite trace_bind. apply participates_app_l.
  apply for_copies_participates.
  - intros i a s'. unfold verify_copy. rewrite trace_bind. apply participates_app_r.
    rewrite trace_bind. apply participates_app_l, read_or_fail_participates.
  - rewrite (active_shape _ _ (read_or_fail_shape Hdl Ptr_ Size _)). done.
Qed.

Lemma MultiFile_close_participates s k :
  (k < active s)%nat -> participates (Copy k) (trace (MultiFile_close s)).
Proof.
  intros Hk. unfold MultiFile_close. rewrite trace_bind. apply participates_app_r.
  apply for_copies_participates; [|by rewrite active_invoke].
  intros; apply invoke_participates.
Qed.

(** Every forwarding call calls every active copy. *)
Lemma run_participates (o : op) (s : state) (k : nat) :
  is_forwarding o = true -> (k < active s)%nat ->
  participates (Copy k) (trace (run o s)).
Proof.
  intros Hf Hk.
  destruct o; try discriminate Hf; unfold run; rewrite trace_bind;
    apply participates_app_l; try (by apply fan_out_participates).
  - by apply MultiFile_close_participates.
  - unfold MultiFile_is_closed. rewrite trace_bind.
    apply participates_app_l. by apply fan_out_participates.
  - by apply MultiFile_read_participates.
Qed.

(** A call that is not [open], [excl] or [create] does not lower the count. *)
Lemma run_count_mono (o : op) (s : state) :
  is_opening o = false -> NumCopies (mf s) <= NumCopies (mf (final (run o s))).
Proof.
  intros Hopen. destruct o; try discriminate Hopen.
  2-17: (pose proof (run_shape _ Hopen) as Hs;
         match type of Hs with (_ -> keeps_shape (run ?o)) =>
           assert (Ho : forall Path, o <> op_add Path) by (intros; discriminate);
           destruct (Hs Ho s) as (-> & _)
         end; lia).
  unfold run. rewrite final_bind_ret.
  destruct (MultiFile_add_cases Path s)
    as [[_ Heq]|[(_&_&_&_&(H&_)&_)|(H0&_&_&_&H&_)]].
  - rewrite Heq. unfold final. simpl. lia.
  - lia.
  - lia.
Qed.

Lemma run_ops_count_mono (ops : list op) (s : state) :
  forallb (fun o => negb (is_opening o)) ops = true ->
  NumCopies (mf s) <= NumCopies (mf (run_ops ops s)).
Proof.
  revert s. induction ops as [|o ops IH]; intros s Hops; simpl; [lia|].
  simpl in Hops. apply andb_true_iff in Hops as [Ho Hops].
  apply negb_true_iff in Ho.
  etransitivity; [by apply (run_count_mono o s)|]. by apply IH.
Qed.

(** C8, amended: once [add] has returned true for a copy, every
    forwarding call (every call but [open], [excl], [create] and [add])
    made after it calls that copy, as long as none of [open], [excl] and
    [create] is called in between; [close] does not end this. *)
Theorem added_copy_keeps_participating
    (s : state) (Path : string) (later : list op) (o : op) :
  result (MultiFile_add Path s) = true ->
  forallb (fun o => negb (is_opening o)) later = true ->
  is_forwarding o = true ->
  participates (Copy (active s))
    (trace (run o (run_ops later (final (MultiFile_add Path s))))).
Proof.
  intros Hadd Hlater Hfwd.
  apply run_participates; [done|].
  pose proof (run_ops_count_mono later (final (MultiFile_add Path s)) Hlater) as Hmono.
  destruct (MultiFile_add_cases Path s)
    as [[_ Heq]|[(_&_&Hres&_)|(Hn&_&_&_&Hcnt&_)]].
  - rewrite Heq in Hadd. discriminate Hadd.
  - congruence.
  - unfold active. lia.
Qed.

End Participation.

(** ** Reading with verification *)

Section Reading.
Context `{os : OS}.

Lemma insert_nth_id {A} (l : list A) (i : nat) (d : A) : <[i := nth i l d]> l = l.
Proof.
  destruct (nth_lookup_or_length l i d) as [H|H].
  - by apply list_insert_id.
  - by apply list_insert_ge.
Qed.

Lemma set_get_handle (r : href) (m : MultiFile) : set_handle r (get_handle r m) m = m.
Proof. destruct r, m; simpl; [done|]. by rewrite insert_nth_id. Qed.

Lemma get_set_handle_other (r r' : href) (f : BasicFile) (m : MultiFile) :
  r' <> r -> get_handle r' (set_handle r f m) = get_handle r' m.
Proof.
  intros Hne. destruct r as [|i], r' as [|j]; simpl; try done.
  rewrite !nth_lookup, list_lookup_insert_ne; [done|]. congruence.
Qed.

(** A read that returns false leaves the handle's flags alone. *)
Lemma BasicFile_read_success (_Buf : list Z) (Size : Z) (f : BasicFile) (w : world) :
  read_err (BasicFile_read _Buf Size f w) = false ->
  snd (fst (BasicFile_read _Buf Size f w)) = f.
Proof.
  unfold read_err, BasicFile_read.
  destruct (os_read _ _ _) as [[res data] w'].
  destruct (to_size_t res =? Size); [done|]. by destruct (res =? -1).
Qed.

Lemma read_or_fail_run (r : href) (dst : list Z) (Size : Z) (s : state) :
  let R := BasicFile_read dst Size (get_handle r (mf s)) (os_w s) in
  exists t s',
    read_or_fail r dst Size s = (read_err R || flagged r s, read_buf R, t, s') /\
    reads t = [(r, take (Z.to_nat Size) (read_buf R), read_err R)] /\
    (forall r', r' <> r -> get_handle r' (mf s') = get_handle r' (mf s)).
Proof.
  intros R. pose proof (BasicFile_read_success dst Size (get_handle r (mf s)) (os_w s)) as Hok.
  fold R in Hok. unfold read_or_fail, bind, invoke at 1. fold R.
  unfold read_err, read_buf in *. destruct R as [[[e buf] f] w]. simpl in *.
  destruct e; simpl.
  - eexists _, _. split; [done|]. split; [done|].
    intros r' Hr'. simpl. by apply get_set_handle_other.
  - specialize (Hok eq_refl). subst f. rewrite set_get_handle.
    unfold invoke, query, flagged. simpl.
    eexists _, _. split; [done|]. split; [done|].
    intros r' Hr'. simpl. by rewrite set_get_handle.
Qed.

Lemma verify_copy_run (Ptr_ : list Z) (Size : Z) (i : nat) (Err : bool) (s : state) :
  exists t s' out e,
    verify_copy Ptr_ Size i Err s = (suspicious Ptr_ Size s (Copy i, out, e) || Err, t, s') /\
    reads t = [(Copy i, out, e)] /\
    (forall r', r' <> Copy i -> get_handle r' (mf s') = get_handle r' (mf s)).
Proof.
  unfold verify_copy, bind at 1, get_buffer. unfold bind at 1.
  destruct (read_or_fail_run (Copy i) (buffer s) Size s) as (t & s' & Hrun & Hreads & Hother).
  rewrite Hrun. simpl in *.
  set (R := BasicFile_read _ _ _ _) in *.
  exists t, (mkState (mf s') (read_buf R) (os_w s')), (take (Z.to_nat Size) (read_buf R)), (read_err R).
  split; [|split; [|exact Hother]].
  - rewrite !app_nil_r. f_equal. f_equal. unfold suspicious. simpl.
    set (e := read_err _). set (fl := flagged _ _). set (d := bool_decide _).
    by destruct e, fl, d, Err.
  - done.
Qed.

Lemma suspicious_ext (Ptr_ : list Z) (Size : Z) (s s' : state) (x : href * list Z * bool) :
  get_handle (fst (fst x)) (mf s') = get_handle (fst (fst x)) (mf s) ->
  suspicious Ptr_ Size s' x = suspicious Ptr_ Size s x.
Proof. intros H. unfold suspicious, flagged. by rewrite H. Qed.

Lemma existsb_ext_in {A} (f g : A -> bool) (l : list A) :
  (forall x, x ∈ l -> f x = g x) -> existsb f l = existsb g l.
Proof.
  induction l as [|x l IH]; intros H; simpl; [done|].
  rewrite (H x), IH; [done| |left]. intros y Hy. apply H. by right.
Qed.

(** The loop of [read] over indices without repetition: one read per
    index, and the error flag collects what is suspicious about each. *)
Lemma verify_loop (Ptr_ : list Z) (Size : Z) (idx : list nat) (Err : bool) (s : state) :
  NoDup idx ->
  exists t s',
    for_each idx (verify_copy Ptr_ Size) Err s
      = (Err || existsb (suspicious Ptr_ Size s) (reads t), t, s') /\
    map (fun x => fst (fst x)) (reads t) = map Copy idx.
Proof.
  revert Err s. induction idx as [|i idx IH]; intros Err s Hnd.
  - exists [], s. simpl. by rewrite orb_false_r.
  - apply NoDup_cons in Hnd as [Hi Hnd]. simpl. unfold bind at 1.
    destruct (verify_copy_run Ptr_ Size i Err s) as (t1 & s1 & out & e & -> & Hr1 & Hother).
    destruct (IH (suspicious Ptr_ Size s (Copy i, out, e) || Err) s1 Hnd)
      as (t2 & s2 & -> & Hmap).
    exists (t1 ++ t2), s2. unfold reads in *. rewrite omap_app, Hr1. simpl. split.
    + f_equal. f_equal.
      rewrite (existsb_ext_in (suspicious Ptr_ Size s1) (suspicious Ptr_ Size s)).
      * set (a := suspicious _ _ _ (Copy i, out, e)). set (b := existsb _ _).
        by destruct a, Err, b.
      * intros x Hx. apply suspicious_ext, Hother.
        intros Heq. apply Hi.
        assert (Hin : fst (fst x) ∈ map Copy idx).
        { rewrite <- Hmap. apply list_elem_of_fmap. by exists x. }
        rewrite Heq in Hin. apply list_elem_of_fmap in Hin as (j & Hj & Hin).
        by inversion Hj; subst.
    + by rewrite Hmap.
Qed.

(** [read]: the caller's buffer is the one the primary's read leaves;
    the participants read once each, primary first; the result is true
    exactly when one of them is suspicious. *)
Lemma MultiFile_read_run (Ptr_ : list Z) (Size : Z) (s : state) :
  let Ptr' := read_buf (primary_read Ptr_ Size s) in
  exists t s',
    MultiFile_read Ptr_ Size s
      = (existsb (suspicious Ptr' Size s) (reads t), Ptr', t, s') /\
    map (fun x => fst (fst x)) (reads t) = participants (active s) /\
    head (reads t)
      = Some (Hdl, take (Z.to_nat Size) Ptr', read_err (primary_read Ptr_ Size s)).
Proof.
  unfold MultiFile_read, bind at 1, get_buffer. unfold bind at 1, set_buffer.
  unfold bind at 1. unfold primary_read.
  set (s0 := mkState _ _ _).
  destruct (read_or_fail_run Hdl Ptr_ Size s0) as (t1 & s1 & Hrun & Hr1 & Hother).
  rewrite Hrun. simpl. unfold bind at 1, for_copies.
  assert (Hact : Z.to_nat (NumCopies (mf s1)) = active s).
  { pose proof (read_or_fail_shape Hdl Ptr_ Size s0) as (Hn & _).
    rewrite Hrun in Hn. unfold final in Hn. simpl in Hn. unfold active. by rewrite Hn. }
  rewrite Hact. simpl in *.
  set (Ptr' := read_buf _) in *. set (e0 := read_err _) in *.
  destruct (verify_loop Ptr' Size (seq 0 (active s)) (e0 || flagged Hdl s0) s1 (NoDup_seq _ _))
    as (t2 & s2 & -> & Hmap).
  exists (t1 ++ t2), s2. unfold reads in *. simpl.
  rewrite !app_nil_r, omap_app, Hr1. simpl. split; [|split; [by rewrite Hmap|done]].
  f_equal. f_equal. f_equal.
  unfold suspicious at 2. simpl.
  rewrite (bool_decide_eq_false_2 (take (Z.to_nat Size) Ptr' <> take (Z.to_nat Size) Ptr'))
    by (intros H; by apply H).
  rewrite orb_false_r.
  assert (Hfl : flagged Hdl s = flagged Hdl s0) by done. rewrite Hfl. f_equal.
  apply existsb_ext_in. intros x Hx. apply suspicious_ext.
  transitivity (get_handle (fst (fst x)) (mf s0)); [|done].
  apply Hother. intros Heq.
  assert (Hin : fst (fst x) ∈ map Copy (seq 0 (active s))).
  { rewrite <- Hmap. apply list_elem_of_fmap. by exists x. }
  rewrite Heq in Hin. apply list_elem_of_fmap in Hin as (j & Hj & _). discriminate Hj.
Qed.

(** [read]: the caller's buffer is the one the primary's read leaves;
    the participants read once each, primary first; the result is true
    exactly when one of them is suspicious. *)
Lemma MultiFile_read_spec (Ptr_ : list Z) (Size : Z) (s : state) :
  snd (result (MultiFile_read Ptr_ Size s)) = read_buf (primary_read Ptr_ Size s) /\
  map (fun x => fst (fst x)) (reads (trace (MultiFile_read Ptr_ Size s)))
    = participants (active s) /\
  fst (result (MultiFile_read Ptr_ Size s))
    = existsb (suspicious (snd (result (MultiFile_read Ptr_ Size s))) Size s)
        (reads (trace (MultiFile_read Ptr_ Size s))) /\
  head (reads (trace (MultiFile_read Ptr_ Size s)))
    = Some (Hdl, take (Z.to_nat Size) (snd (result (MultiFile_read Ptr_ Size s))),
            read_err (primary_read Ptr_ Size s)).
Proof.
  destruct (MultiFile_read_run Ptr_ Size s) as (t & s' & -> & Hmap & Hhd). done.
Qed.

(** C1, amended: [read] hands the caller the buffer the primary's read
    left, whatever the verification finds; the primary and every active
    copy read once each, the primary first; the result is true when a read
    returned true, and when the bytes of a copy are not the bytes of the
    primary; the result is false when every read returned false, the
    bytes of every copy are the bytes of the primary and no participant
    carried an error flag before the call. *)
Theorem read_returns_primary_and_verifies (Ptr_ : list Z) (Size : Z) (s : state) :
  let X := MultiFile_read Ptr_ Size s in
  let Ptr' := snd (result X) in
  Ptr' = read_buf (primary_read Ptr_ Size s) /\
  map (fun x => fst (fst x)) (reads (trace X)) = participants (active s) /\
  head (reads (trace X))
    = Some (Hdl, take (Z.to_nat Size) Ptr', read_err (primary_read Ptr_ Size s)) /\
  (forall r bytes, (r, bytes, true) ∈ reads (trace X) -> fst (result X) = true) /\
  (forall r bytes err,
     (r, bytes, err) ∈ reads (trace X) -> bytes <> take (Z.to_nat Size) Ptr' ->
     fst (result X) = true) /\
  ((forall r bytes err,
      (r, bytes, err) ∈ reads (trace X) ->
      err = false /\ bytes = take (Z.to_nat Size) Ptr' /\ flagged r s = false) ->
   fst (result X) = false).
Proof.
  intros X Ptr'. destruct (MultiFile_read_spec Ptr_ Size s) as (Hbuf & Hmap & Hres & Hhd).
  fold X in Hbuf, Hmap, Hres, Hhd. fold Ptr' in Hbuf, Hres, Hhd.
  split; [done|]. split; [done|]. split; [done|]. rewrite Hres. repeat split.
  - intros r bytes Hin. apply existsb_exists. exists (r, bytes, true).
    split; [by apply list_elem_of_In|done].
  - intros r bytes err Hin Hne. apply existsb_exists. exists (r, bytes, err).
    split; [by apply list_elem_of_In|]. unfold suspicious. simpl.
    rewrite (bool_decide_eq_true_2 (take (Z.to_nat Size) Ptr' <> bytes)) by congruence.
    by rewrite orb_true_r.
  - intros Hall. apply not_true_is_false. intros Hex.
    apply existsb_exists in Hex as ([[r bytes] err] & Hin & Hsus).
    apply list_elem_of_In in Hin. destruct (Hall r bytes err Hin) as (-> & -> & Hfl).
    unfold suspicious in Hsus. simpl in Hsus. rewrite Hfl in Hsus. simpl in Hsus.
    apply bool_decide_eq_true_1 in Hsus. by apply Hsus.
Qed.

(** C9: [read] returns true whenever the primary or an active copy
    carries an error flag of an earlier call, whatever the reads of this
    call return and whatever the bytes are. *)
Theorem read_fails_on_flagged_participant
    (r : href) (Ptr_ : list Z) (Size : Z) (s : state) :
  r ∈ participants (active s) -> flagged r s = true ->
  fst (result (MultiFile_read Ptr_ Size s)) = true.
Proof.
  intros Hr Hfl. destruct (MultiFile_read_spec Ptr_ Size s) as (_ & Hmap & -> & _).
  rewrite <- Hmap in Hr. apply list_elem_of_fmap in Hr as (x & -> & Hx).
  apply existsb_exists. exists x. split; [by apply list_elem_of_In|].
  unfold suspicious. rewrite Hfl. by rewrite orb_true_r.
Qed.

End Reading.

(** ** compare on files in memory *)

Lemma count_diff_nil : count_diff [] [] = 0.
Proof. done. Qed.

Lemma count_diff_cons (x y : Z) (a b : list Z) :
  count_diff (x :: a) (y :: b) = (if decide (x = y) then 0 else 1) + count_diff a b.
Proof.
  unfold count_diff. simpl. rewrite filter_cons. simpl.
  destruct (decide (x = y)) as [->|Hne].
  - rewrite decide_False by (intros H; by apply H). done.
  - rewrite decide_True by done. simpl length. lia.
Qed.

Lemma count_diff_app (a1 a2 b1 b2 : list Z) :
  length a1 = length b1 ->
  count_diff (a1 ++ a2) (b1 ++ b2) = count_diff a1 b1 + count_diff a2 b2.
Proof.
  revert b1. induction a1 as [|x a1 IH]; intros [|y b1] Hlen; try discriminate Hlen.
  - simpl. rewrite count_diff_nil. lia.
  - simpl. rewrite !count_diff_cons, IH by (simpl in Hlen; lia). lia.
Qed.

Lemma count_diff_same (a : list Z) : count_diff a a = 0.
Proof.
  induction a as [|x a IH]; [done|]. rewrite count_diff_cons, IH.
  by rewrite decide_True.
Qed.

Lemma count_diff_nonneg (a b : list Z) : 0 <= count_diff a b.
Proof. unfold count_diff. lia. Qed.

Lemma to_int_small (x : Z) : - 2 ^ 31 <= x < 2 ^ 31 -> to_int x = x.
Proof. intros H. unfold to_int. rewrite Z.mod_small; lia. Qed.

Section ChunkLoop.
Context `{os : OS}.

(** The inner loop counts the differing positions of the two chunks. *)
Lemma compare_chunk_from (pre1 pre2 d1 d2 r1 r2 : list Z) (L1 L2 cnt : Z) (out : list diag) :
  length pre1 = length pre2 -> length d1 = length d2 ->
  fst (fold_left (fun (acc : Z * list diag) (i : nat) =>
      let '(cnt, out) := acc in
      if negb (nth i (pre1 ++ d1 ++ r1) 0 =? nth i (pre2 ++ d2 ++ r2) 0) then
        let cnt := cnt + 1 in
        let j := L2 - L1 + Z.of_nat i in
        (cnt, out ++ [(j, nth i (pre1 ++ d1 ++ r1) 0, nth i (pre2 ++ d2 ++ r2) 0, cnt)])
      else (cnt, out))
    (seq (length pre1) (length d1)) (cnt, out))
  = cnt + count_diff d1 d2.
Proof.
  revert pre1 pre2 d2 cnt out.
  induction d1 as [|x d1 IH]; intros pre1 pre2 [|y d2] cnt out Hpre Hlen;
    try discriminate Hlen.
  - simpl. rewrite count_diff_nil. lia.
  - simpl length. simpl seq. simpl fold_left.
    rewrite (nth_middle pre1 (d1 ++ r1) x 0).
    replace (nth (length pre1) (pre2 ++ y :: d2 ++ r2) 0) with y
      by (rewrite Hpre; symmetry; apply nth_middle).
    specialize (IH (pre1 ++ [x]) (pre2 ++ [y]) d2).
    rewrite !length_app in IH. simpl in IH. rewrite Nat.add_1_r in IH.
    rewrite <- !app_assoc in IH. simpl in IH.
    rewrite count_diff_cons.
    destruct (x =? y) eqn:E; simpl.
    + apply Z.eqb_eq in E. rewrite decide_True by done.
      rewrite IH; [lia | lia | simpl in Hlen; lia].
    + apply Z.eqb_neq in E. rewrite decide_False by done.
      rewrite IH; [lia | lia | simpl in Hlen; lia].
Qed.

Lemma compare_chunk_count (d1 d2 r1 r2 : list Z) (L L1 L2 cnt : Z) (out : list diag) :
  length d1 = length d2 -> Z.to_nat L = length d1 ->
  fst (compare_chunk (d1 ++ r1) (d2 ++ r2) L L1 L2 cnt out) = cnt + count_diff d1 d2.
Proof.
  intros Hlen HL. unfold compare_chunk. rewrite HL.
  by apply (compare_chunk_from [] [] d1 d2 r1 r2).
Qed.

(** The fuel [compare] gives its loop reaches the end of the loop. *)
Lemma compare_loop_fuel (fuel : nat) (V1 V2 : list Z) (L1 L2 cnt : Z) (fr : frame) :
  (Z.to_nat (Z.abs L1) <= fuel)%nat ->
  fst (compare_loop fuel V1 V2 L1 L2 cnt fr) <> None.
Proof.
  revert V1 V2 L1 cnt fr. induction fuel as [|fuel IH]; intros V1 V2 L1 cnt fr Hfuel.
  - simpl. destruct (L1 =? 0) eqn:E; [done|]. apply Z.eqb_neq in E. lia.
  - simpl. destruct (L1 =? 0) eqn:E; [done|]. apply Z.eqb_neq in E.
    destruct (BasicFile_read V1 _ _ _) as [[[e1 V1'] f1] w1].
    destruct e1; [done|].
    destruct (BasicFile_read V2 _ _ _) as [[[e2 V2'] f2] w2].
    destruct e2; [done|].
    destruct (compare_chunk _ _ _ _ _ _ _) as [cnt' out'].
    apply IH. destruct (L1 >? 4096) eqn:E4; lia.
Qed.

Lemma leave_result (r : option Z) (fr : frame) : fst (fst (leave r fr)) = r.
Proof.
  unfold leave. destruct (BasicFile_close false (F2 fr) (fw fr)) as [[u f] w].
  by destruct (BasicFile_close false (F1 fr) w) as [[u' f'] w'].
Qed.

(** [compare] returns on every platform. *)
Lemma compare_returns (P1 P2 : string) (w : world) :
  exists r : Z, fst (fst (compare P1 P2 w)) = Some r.
Proof.
  unfold compare.
  destruct (FileRO_open P1 _ _ _) as [[ok1 f1] w1].
  destruct ok1; simpl; [|eexists; apply leave_result].
  destruct (FileRO_open P2 _ _ _) as [[ok2 f2] w2].
  destruct ok2; simpl; [|eexists; apply leave_result].
  destruct (BasicFile_length f1 w2) as [[L1 f1'] w3].
  destruct (BasicFile_length f2 w3) as [[L2 f2'] w4].
  destruct (L1 <? L2); [eexists; apply leave_result|].
  destruct (L1 >? L2); [eexists; apply leave_result|].
  pose proof (compare_loop_fuel (Z.to_nat (Z.abs L1)) (replicate 4096 0) (replicate 4096 0)
                L1 L2 0 (mkFrame f1' f2' [] w4) (le_n _)) as Hfuel.
  destruct (compare_loop _ _ _ _ _ _ _) as [[[r|cnt]|] fr]; try done;
    eexists; apply leave_result.
Qed.

End ChunkLoop.

Section InMemory.
#[local] Existing Instance MemFS.

Lemma reading_read (fs : memfs) (fd : Z) (c : list Z) (p count : Z) :
  reading fs fd c p -> 0 <= count < 2 ^ 31 ->
  exists fs',
    memfs_read fd count fs
      = (Z.of_nat (length (take (Z.to_nat count) (drop (Z.to_nat p) c))),
         take (Z.to_nat count) (drop (Z.to_nat p) c), fs') /\
    reading fs' fd c (p + Z.of_nat (length (take (Z.to_nat count) (drop (Z.to_nat p) c)))) /\
    (forall fd' c' p', fd' <> fd -> reading fs fd' c' p' -> reading fs' fd' c' p').
Proof.
  intros (o & Hfd & Hfile & Hpos & Hrd) Hcount.
  unfold memfs_read, memfs_file. rewrite Hfd, Hfile, Hrd, Hpos.
  rewrite Z.min_l by lia.
  eexists. split; [reflexivity|]. split.
  - exists (mkOpenFile (of_path o) (p + Z.of_nat (length (take (Z.to_nat count)
                                                      (drop (Z.to_nat p) c)))) (of_flags o)).
    unfold memfs_set_pos. simpl. by rewrite lookup_insert_eq.
  - intros fd' c' p' Hne (o' & Hfd' & Hfile' & Hpos' & Hrd').
    exists o'. unfold memfs_set_pos. simpl. by rewrite lookup_insert_ne.
Qed.

Lemma reading_size (fs : memfs) (fd : Z) (c : list Z) (p : Z) :
  reading fs fd c p -> memfs_size fd fs = (Z.of_nat (length c), fs).
Proof.
  intros (o & Hfd & Hfile & _). unfold memfs_size, memfs_file. by rewrite Hfd, Hfile.
Qed.

(** Reading one chunk that the file still holds. *)
Lemma read_chunk (fs : memfs) (fd : Z) (c V : list Z) (p L : Z) :
  reading fs fd c p -> 0 <= p -> 0 < L <= 4096 -> p + L <= Z.of_nat (length c) ->
  exists fs',
    BasicFile_read V (to_size_t L) (mkBasicFile fd 0) fs
      = (false, take (Z.to_nat L) (drop (Z.to_nat p) c) ++ drop (Z.to_nat L) V,
         mkBasicFile fd 0, fs') /\
    length (take (Z.to_nat L) (drop (Z.to_nat p) c)) = Z.to_nat L /\
    reading fs' fd c (p + L) /\
    (forall fd' c' p', fd' <> fd -> reading fs fd' c' p' -> reading fs' fd' c' p').
Proof.
  intros Hrd Hp HL Hend.
  assert (Hsz : to_size_t L = L) by (unfold to_size_t; rewrite Z.mod_small; lia).
  assert (Hun : to_unsigned L = L) by (unfold to_unsigned; rewrite Z.mod_small; lia).
  assert (Hlen : length (take (Z.to_nat L) (drop (Z.to_nat p) c)) = Z.to_nat L).
  { rewrite length_take, length_drop. lia. }
  destruct (reading_read fs fd c p L Hrd) as (fs' & Hread & Hrd' & Hother); [lia|].
  rewrite Hlen in Hread, Hrd'. rewrite Z2Nat.id in Hread, Hrd' by lia.
  exists fs'. unfold BasicFile_read. rewrite Hsz, Hun.
  cbn [os_read MemFS f_handle].
  rewrite Hread. rewrite Hsz, Z.eqb_refl. unfold overwrite. rewrite Hlen. done.
Qed.

(** The loop of [compare] on two descriptors at the same position of
    two files of the same length: it ends, with the count of the
    differing positions from there on added to the counter. *)
Lemma compare_loop_in_memory (a b : list Z) (fd1 fd2 L2 : Z) (fuel : nat) :
  fd1 <> fd2 -> length a = length b ->
  forall (fs : memfs) (V1 V2 : list Z) (p cnt : Z) (out : list diag),
    reading fs fd1 a p -> reading fs fd2 b p -> 0 <= p <= Z.of_nat (length a) ->
    (Z.to_nat (Z.of_nat (length a) - p) <= fuel)%nat ->
    fst (compare_loop fuel V1 V2 (Z.of_nat (length a) - p) L2 cnt
           (mkFrame (mkBasicFile fd1 0) (mkBasicFile fd2 0) out fs))
    = Some (inr (cnt + count_diff (drop (Z.to_nat p) a) (drop (Z.to_nat p) b))).
Proof.
  intros Hfd Hab. induction fuel as [|fuel IH]; intros fs V1 V2 p cnt out H1 H2 Hp Hfuel.
  - assert (Hz : Z.of_nat (length a) - p = 0) by lia.
    simpl. rewrite Hz. simpl.
    assert (Hpn : Z.to_nat p = length a) by lia.
    rewrite Hpn, drop_all, Hab, drop_all, count_diff_nil. do 2 f_equal. lia.
  - simpl. destruct (Z.of_nat (length a) - p =? 0) eqn:E.
    + apply Z.eqb_eq in E. simpl.
      assert (Hpn : Z.to_nat p = length a) by lia.
      rewrite Hpn, drop_all, Hab, drop_all, count_diff_nil. do 2 f_equal. lia.
    + apply Z.eqb_neq in E.
      set (L1 := Z.of_nat (length a) - p) in *.
      set (L := if L1 >? 4096 then 4096 else L1).
      assert (HL : 0 < L <= 4096 /\ L <= L1).
      { unfold L. destruct (L1 >? 4096) eqn:E4; lia. }
      destruct (read_chunk fs fd1 a V1 p L H1) as (fs1 & -> & Hl1 & H1' & Ho1); [lia..|].
      assert (H2' : reading fs1 fd2 b p) by (apply Ho1; [congruence|done]).
      destruct (read_chunk fs1 fd2 b V2 p L H2') as (fs2 & -> & Hl2 & H2'' & Ho2);
        [lia | lia | rewrite <- Hab; lia |].
      assert (H1'' : reading fs2 fd1 a (p + L)) by (apply Ho2; [congruence|done]).
      set (d1 := take (Z.to_nat L) (drop (Z.to_nat p) a)) in *.
      set (d2 := take (Z.to_nat L) (drop (Z.to_nat p) b)) in *.
      pose proof (compare_chunk_count d1 d2 (drop (Z.to_nat L) V1) (drop (Z.to_nat L) V2)
                    L L1 L2 cnt out) as Hchunk.
      destruct (compare_chunk _ _ _ _ _ _ _) as [cnt' out']. simpl in Hchunk.
      rewrite Hchunk by lia.
      replace (L1 - L) with (Z.of_nat (length a) - (p + L)) by (unfold L1; lia).
      rewrite IH by (done || lia). do 2 f_equal.
      replace (Z.to_nat (p + L)) with (Z.to_nat p + Z.to_nat L)%nat by lia.
      rewrite <- !drop_drop.
      rewrite <- (take_drop (Z.to_nat L) (drop (Z.to_nat p) a)) at 2.
      rewrite <- (take_drop (Z.to_nat L) (drop (Z.to_nat p) b)) at 2.
      fold d1 d2. rewrite count_diff_app by lia. lia.
Qed.

Lemma FileRO_open_existing (fs : memfs) (P : string) (c : list Z) :
  files fs !! P = Some c -> next_fd fs <> -1 ->
  FileRO_open P O_BINARY BasicFile_new fs
  = (true, mkBasicFile (next_fd fs) 0,
     mkMemFS (files fs) (<[next_fd fs := mkOpenFile P 0 32768]> (fds fs)) (next_fd fs + 1)).
Proof.
  intros Hfile Hfd. unfold FileRO_open, BasicFile_open.
  change (FileRO_filter_open O_BINARY) with 32768.
  cbn [os_open MemFS f_handle with_flags BasicFile_new]. simpl (-1 =? -1). simpl negb.
  unfold memfs_open. rewrite Hfile.
  change (has_flag 32768 256) with false. change (has_flag 32768 512) with false.
  simpl andb. unfold memfs_register. rewrite (insert_id _ _ _ Hfile).
  change (fill_open_errors 0) with 0. cbn [f_handle].
  destruct (next_fd fs =? -1) eqn:E; [apply Z.eqb_eq in E; done|]. done.
Qed.

Lemma FileRO_open_missing (fs : memfs) (P : string) :
  files fs !! P = None ->
  fst (fst (FileRO_open P O_BINARY BasicFile_new fs)) = false /\
  snd (FileRO_open P O_BINARY BasicFile_new fs) = fs.
Proof.
  intros Hfile. unfold FileRO_open, BasicFile_open.
  change (FileRO_filter_open O_BINARY) with 32768.
  cbn [os_open MemFS f_handle with_flags BasicFile_new]. simpl (-1 =? -1). simpl negb.
  unfold memfs_open. rewrite Hfile.
  change (has_flag 32768 256) with false. done.
Qed.

(** [compare] on a disk without faults: -1 when a path names no file and
    when the lengths differ, otherwise the count of the differing
    positions converted to [int]. *)
Lemma compare_in_memory (fs : memfs) (P1 P2 : string) :
  0 <= next_fd fs ->
  fst (fst (compare P1 P2 fs))
  = match files fs !! P1, files fs !! P2 with
    | Some a, Some b =>
        if decide (length a = length b) then Some (to_int (count_diff a b)) else Some (-1)
    | _, _ => Some (-1)
    end.
Proof.
  intros Hfd. unfold compare.
  destruct (files fs !! P1) as [a|] eqn:H1.
  2: { destruct (FileRO_open_missing fs P1 H1) as [Hok _].
       destruct (FileRO_open _ _ _ _) as [[ok1 f1] w1]. simpl in Hok. subst ok1.
       simpl negb. cbv iota. apply leave_result. }
  rewrite (FileRO_open_existing fs P1 a H1) by lia. simpl negb. cbv iota.
  set (fs1 := mkMemFS _ _ _).
  destruct (files fs !! P2) as [b|] eqn:H2.
  2: { destruct (FileRO_open_missing fs1 P2 H2) as [Hok _].
       destruct (FileRO_open _ _ _ _) as [[ok2 f2] w2]. simpl in Hok. subst ok2.
       simpl negb. cbv iota. apply leave_result. }
  rewrite (FileRO_open_existing fs1 P2 b H2) by (simpl; lia). simpl negb. cbv iota.
  set (fs2 := mkMemFS _ _ _).
  assert (Hr1 : reading fs2 (next_fd fs) a 0).
  { exists (mkOpenFile P1 0 32768). unfold fs2, fs1. simpl.
    rewrite lookup_insert_ne by lia. by rewrite lookup_insert_eq. }
  assert (Hr2 : reading fs2 (next_fd fs + 1) b 0).
  { exists (mkOpenFile P2 0 32768). unfold fs2, fs1. simpl. by rewrite lookup_insert_eq. }
  unfold BasicFile_length. cbn [os_size MemFS f_handle].
  rewrite (reading_size _ _ _ _ Hr1).
  destruct (Z.of_nat (length a) =? -1) eqn:E1; [apply Z.eqb_eq in E1; lia|].
  change (next_fd fs1) with (next_fd fs + 1).
  rewrite (reading_size _ _ _ _ Hr2).
  destruct (Z.of_nat (length b) =? -1) eqn:E2; [apply Z.eqb_eq in E2; lia|].
  destruct (decide (length a = length b)) as [Hlen|Hlen].
  - rewrite <- Hlen. rewrite Z.ltb_irrefl.
    assert (Hgt : (Z.of_nat (length a) >? Z.of_nat (length a)) = false) by lia.
    rewrite Hgt.
    pose proof (compare_loop_in_memory a b (next_fd fs) (next_fd fs + 1)
                  (Z.of_nat (length a)) (Z.to_nat (Z.abs (Z.of_nat (length a))))
                  ltac:(lia) Hlen fs2 (replicate 4096 0) (replicate 4096 0) 0 0 []
                  Hr1 Hr2 ltac:(lia) ltac:(lia)) as Hloop.
    rewrite Z.sub_0_r in Hloop. simpl (Z.to_nat 0) in Hloop. rewrite !drop_0 in Hloop.
    destruct (compare_loop _ _ _ _ _ _ _) as [r fr]. simpl in Hloop. subst r.
    rewrite Z.add_0_l. apply leave_result.
  - destruct (Z.of_nat (length a) <? Z.of_nat (length b)) eqn:Elt; [apply leave_result|].
    destruct (Z.of_nat (length a) >? Z.of_nat (length b)) eqn:Egt; [apply leave_result|].
    lia.
Qed.

End InMemory.

(** ** The scenarios *)

Section Scenarios.
#[local] Existing Instance MemFS.

(** C1, as stated, fails: on [rewound] both reads of five bytes return
    false and the copy's bytes are the primary's, and [read] returns true. *)
Lemma read_fails_though_copies_match :
  reads (trace (MultiFile_read [0; 0; 0; 0; 0] 5 rewound))
    = [(Hdl, [1; 2; 3; 4; 5], false); (Copy 0, [1; 2; 3; 4; 5], false)] /\
  result (MultiFile_read [0; 0; 0; 0; 0] 5 rewound) = (true, [1; 2; 3; 4; 5]).
Proof. split; vm_compute; reflexivity. Qed.

(** The amended C1 on [mirrored], where every read succeeds and the
    copy matches, and on [diverged], where the copy's bytes differ. *)
Lemma read_returns_primary_and_verifies_witness :
  (forall r bytes err,
     (r, bytes, err) ∈ reads (trace (MultiFile_read [0; 0; 0; 0; 0] 5 mirrored)) ->
     err = false /\
     bytes = take (Z.to_nat 5) (snd (result (MultiFile_read [0; 0; 0; 0; 0] 5 mirrored))) /\
     flagged r mirrored = false) /\
  fst (result (MultiFile_read [0; 0; 0; 0; 0] 5 mirrored)) = false /\
  fst (result (MultiFile_read [0; 0; 0; 0; 0] 5 diverged)) = true.
Proof.
  assert (Hyp : forall r bytes err,
     (r, bytes, err) ∈ reads (trace (MultiFile_read [0; 0; 0; 0; 0] 5 mirrored)) ->
     err = false /\
     bytes = take (Z.to_nat 5) (snd (result (MultiFile_read [0; 0; 0; 0; 0] 5 mirrored))) /\
     flagged r mirrored = false).
  { intros r bytes err Hin.
    assert (Hr : reads (trace (MultiFile_read [0; 0; 0; 0; 0] 5 mirrored))
                 = [(Hdl, [1; 2; 3; 4; 5], false); (Copy 0, [1; 2; 3; 4; 5], false)])
      by (vm_compute; reflexivity).
    rewrite Hr in Hin.
    apply elem_of_cons in Hin as [Heq|Hin];
      [inversion Heq; subst; repeat split; vm_compute; reflexivity|].
    apply elem_of_cons in Hin as [Heq|Hin];
      [inversion Heq; subst; repeat split; vm_compute; reflexivity|].
    by apply elem_of_nil in Hin. }
  split; [exact Hyp|]. split.
  - destruct (read_returns_primary_and_verifies [0; 0; 0; 0; 0] 5 mirrored)
      as (_ & _ & _ & _ & _ & Hok). exact (Hok Hyp).
  - destruct (read_returns_primary_and_verifies [0; 0; 0; 0; 0] 5 diverged)
      as (_ & _ & _ & _ & Hdiff & _).
    apply (Hdiff (Copy 0) [1; 0; 3; 0; 5] false).
    + vm_compute. right. left.
    + vm_compute. discriminate.
Defined.

(** C9 on [rewound]: the copy carries the [read] flag, the reads of
    this call succeed and match, and [read] returns true. *)
Lemma read_fails_on_flagged_participant_witness :
  Copy 0 ∈ participants (active rewound) /\
  flagged (Copy 0) rewound = true /\
  fst (result (MultiFile_read [0; 0; 0; 0; 0] 5 rewound)) = true.
Proof.
  assert (Hin : Copy 0 ∈ participants (active rewound)) by (vm_compute; right; left).
  assert (Hfl : flagged (Copy 0) rewound = true) by (vm_compute; reflexivity).
  split; [exact Hin|]. split; [exact Hfl|].
  exact (read_fails_on_flagged_participant (Copy 0) [0; 0; 0; 0; 0] 5 rewound Hin Hfl).
Defined.

(** C3: on [short_copy] the commit of the copy returns true (it
    failed) and [commit] returns false (success). *)
Theorem commit_hides_a_failed_copy :
  trace (MultiFile_commit short_copy)
    = [Ev Hdl (c_commit false); Ev (Copy 0) (c_commit true)] /\
  result (MultiFile_commit short_copy) = false.
Proof. split; vm_compute; reflexivity. Qed.

(** C5, as stated, fails: on [displaced] the open that [add] makes is
    refused, [add] returns false, and the state is not the one before:
    the slot behind the count held the open descriptor 4 and is left
    closed with the [reopen] flag, the platform has closed descriptor 4,
    and the same [add] on the state it left returns true. *)
Lemma failed_add_changes_the_state :
  0 <= NumCopies (mf displaced) < 5 /\
  fst (fst (add_open "b" displaced)) = false /\
  result (MultiFile_add "b" displaced) = false /\
  get_handle (Copy 0) (mf displaced) = mkBasicFile 4 0 /\
  get_handle (Copy 0) (mf (final (MultiFile_add "b" displaced))) = mkBasicFile (-1) 2 /\
  fds (os_w displaced) !! 4 = Some (mkOpenFile "b" 0 2) /\
  fds (os_w (final (MultiFile_add "b" displaced))) !! 4 = None /\
  final (MultiFile_add "b" displaced) <> displaced /\
  result (MultiFile_add "b" (final (MultiFile_add "b" displaced))) = true.
Proof.
  assert (Hbefore : get_handle (Copy 0) (mf displaced) = mkBasicFile 4 0)
    by (vm_compute; reflexivity).
  assert (Hafter : get_handle (Copy 0) (mf (final (MultiFile_add "b" displaced)))
                   = mkBasicFile (-1) 2) by (vm_compute; reflexivity).
  split; [vm_compute; split; [discriminate|reflexivity]|].
  split; [vm_compute; reflexivity|]. split; [vm_compute; reflexivity|].
  split; [exact Hbefore|]. split; [exact Hafter|].
  split; [vm_compute; reflexivity|]. split; [vm_compute; reflexivity|].
  split; [|vm_compute; reflexivity].
  intros Heq. rewrite Heq, Hbefore in Hafter. discriminate Hafter.
Qed.

(** The amended C5 on [full] (five copies), on [displaced], where the
    open is refused and the slot changes, on [alone] with a missing path,
    and on [alone] with an existing path. *)
Lemma add_fails_unchanged_or_counts_witness :
  (5 <= NumCopies (mf full) /\
   result (MultiFile_add "b" full) = false /\ final (MultiFile_add "b" full) = full) /\
  (0 <= NumCopies (mf displaced) < 5 /\
   fst (fst (add_open "b" displaced)) = false /\
   result (MultiFile_add "b" displaced) = false /\
   logical (final (MultiFile_add "b" displaced)) = logical displaced /\
   get_handle (Copy 0) (mf displaced) = mkBasicFile 4 0 /\
   get_handle (Copy 0) (mf (final (MultiFile_add "b" displaced))) = mkBasicFile (-1) 2) /\
  (0 <= NumCopies (mf alone) < 5 /\
   fst (fst (add_open "missing" alone)) = false /\
   result (MultiFile_add "missing" alone) = false /\
   logical (final (MultiFile_add "missing" alone)) = logical alone) /\
  (result (MultiFile_add "b" alone) = true /\
   NumCopies (mf (final (MultiFile_add "b" alone))) = NumCopies (mf alone) + 1).
Proof.
  assert (H5 : 5 <= NumCopies (mf full)) by (vm_compute; discriminate).
  assert (Hd : 0 <= NumCopies (mf displaced) < 5)
    by (vm_compute; split; [discriminate|reflexivity]).
  assert (Hdop : fst (fst (add_open "b" displaced)) = false) by (vm_compute; reflexivity).
  assert (Hbefore : get_handle (Copy 0) (mf displaced) = mkBasicFile 4 0)
    by (vm_compute; reflexivity).
  assert (Hslot : get_handle (Copy 0)
                    (set_handle (Copy (active displaced)) (snd (fst (add_open "b" displaced)))
                       (mf displaced)) = mkBasicFile (-1) 2) by (vm_compute; reflexivity).
  assert (Hlt : 0 <= NumCopies (mf alone) < 5) by (vm_compute; split; [discriminate|reflexivity]).
  assert (Hop : fst (fst (add_open "missing" alone)) = false) by (vm_compute; reflexivity).
  assert (Hok : result (MultiFile_add "b" alone) = true) by (vm_compute; reflexivity).
  split; [|split; [|split]].
  - split; [exact H5|].
    exact (proj1 (add_fails_unchanged_or_counts "b" full) H5).
  - split; [exact Hd|]. split; [exact Hdop|].
    destruct (proj1 (proj2 (add_fails_unchanged_or_counts "b" displaced)) Hd Hdop)
      as (Hres & Hlog & Hfin & _).
    split; [exact Hres|]. split; [exact Hlog|]. split; [exact Hbefore|].
    rewrite Hfin. exact Hslot.
  - split; [exact Hlt|]. split; [exact Hop|].
    destruct (proj1 (proj2 (add_fails_unchanged_or_counts "missing" alone)) Hlt Hop)
      as (Hres & Hlog & _).
    split; [exact Hres | exact Hlog].
  - split; [exact Hok|].
    exact (proj2 (proj2 (proj2 (add_fails_unchanged_or_counts "b" alone)) Hok)).
Defined.

(** C7 on [full]: a sixth [add] leaves the count in range. *)
Lemma secondary_count_in_range_witness :
  0 <= NumCopies (mf full) <= 5 /\
  0 <= NumCopies (mf (final (run (op_add "b") full))) <= 5.
Proof.
  assert (H : 0 <= NumCopies (mf full) <= 5) by (vm_compute; split; discriminate).
  split; [exact H|].
  exact (proj1 (proj2 (proj2 (proj2 secondary_count_in_range))) (op_add "b") full H).
Defined.

(** C8, as stated, fails: after the [open] of a missing primary the
    copy "b" is registered; no [close] is called; after the [open] of "a"
    a write succeeds on the primary and does not reach the copy. *)
Lemma reopen_drops_the_copy :
  let s1 := run_ops [op_open "missing" 0] unopened in
  let s2 := final (MultiFile_add "b" s1) in
  let s3 := run_ops [op_open "a" 0] s2 in
  result (MultiFile_add "b" s1) = true /\
  result (run (op_write [7; 7] 2) s3) = v_bool false /\
  trace (run (op_write [7; 7] 2) s3) = [Ev Hdl (c_write [7; 7] 2 false)] /\
  ~ participates (Copy 0) (trace (run (op_write [7; 7] 2) s3)).
Proof.
  intros s1 s2 s3.
  assert (Htr : trace (run (op_write [7; 7] 2) s3) = [Ev Hdl (c_write [7; 7] 2 false)])
    by (vm_compute; reflexivity).
  split; [vm_compute; reflexivity|]. split; [vm_compute; reflexivity|].
  split; [exact Htr|].
  rewrite Htr. intros [c Hc].
  apply elem_of_cons in Hc as [Heq|Hc]; [discriminate Heq|]. by apply elem_of_nil in Hc.
Qed.

(** The amended C8 on [alone]: the copy "b" added first is called by
    [tell] after a [write] and a [close]. *)
Lemma added_copy_keeps_participating_witness :
  result (MultiFile_add "b" alone) = true /\
  participates (Copy (active alone))
    (trace (run op_tell
              (run_ops [op_write [7; 7] 2; op_close] (final (MultiFile_add "b" alone))))).
Proof.
  assert (Hok : result (MultiFile_add "b" alone) = true) by (vm_compute; reflexivity).
  split; [exact Hok|].
  apply (added_copy_keeps_participating alone "b" [op_write [7; 7] 2; op_close] op_tell Hok);
    reflexivity.
Defined.

(** C10: [headless] is reachable; there the primary is closed and the
    copy is open, [is_open] and [is_closed] both return false, so
    [is_closed] is not the negation of [is_open] on the reachable states. *)
Theorem neither_open_nor_closed :
  reachable headless /\
  result (MultiFile_open "missing" 0 unopened) = false /\
  OpenFlags (mf (final (MultiFile_open "missing" 0 unopened))) = FileRW_filter_open 0 /\
  result (MultiFile_add "b" (final (MultiFile_open "missing" 0 unopened))) = true /\
  BasicFile_is_open (hdl (mf headless)) = false /\
  NumCopies (mf headless) = 1 /\
  BasicFile_is_open (get_handle (Copy 0) (mf headless)) = true /\
  result (MultiFile_is_open headless) = false /\
  result (MultiFile_is_closed headless) = false /\
  ~ (forall s, reachable s ->
       result (MultiFile_is_closed s) = negb (result (MultiFile_is_open s))).
Proof.
  assert (Hreach : reachable headless).
  { exists [], shelf, [op_open "missing" 0; op_add "b"]. reflexivity. }
  split; [exact Hreach|].
  do 8 (split; [vm_compute; reflexivity|]).
  intros H. specialize (H headless Hreach). vm_compute in H. discriminate H.
Qed.

End Scenarios.

(** ** compare: the count it returns *)

Lemma count_diff_replicate (n : nat) (x y : Z) :
  x <> y -> count_diff (replicate n x) (replicate n y) = Z.of_nat n.
Proof.
  intros Hne. induction n as [|n IH]; [done|].
  simpl replicate. rewrite count_diff_cons, IH, decide_False by done. lia.
Qed.

Lemma disk_two_files (A B : list Z) :
  files (disk [("a", A); ("b", B)]) !! "a" = Some A /\
  files (disk [("a", A); ("b", B)]) !! "b" = Some B.
Proof.
  unfold disk. cbn [files list_to_map foldr fst snd curry uncurry]. split.
  - by rewrite lookup_insert_eq.
  - rewrite lookup_insert_ne by done. by rewrite lookup_insert_eq.
Qed.

Section Counting_differences.
#[local] Existing Instance MemFS.

(** X24: on a disk without faults [compare] returns -1 when a path
    names no file and when the two lengths differ, 0 for two files with
    the same bytes, and otherwise the number of positions at which the
    files differ whenever that number is below 2^31. *)
Theorem compare_counts_differences (fs : memfs) (P1 P2 : string) :
  0 <= next_fd fs ->
  (files fs !! P1 = None \/ files fs !! P2 = None ->
     fst (fst (compare P1 P2 fs)) = Some (-1)) /\
  (forall a b, files fs !! P1 = Some a -> files fs !! P2 = Some b ->
     length a <> length b -> fst (fst (compare P1 P2 fs)) = Some (-1)) /\
  (forall a, files fs !! P1 = Some a -> files fs !! P2 = Some a ->
     fst (fst (compare P1 P2 fs)) = Some 0) /\
  (forall a b, files fs !! P1 = Some a -> files fs !! P2 = Some b ->
     length a = length b -> count_diff a b < 2 ^ 31 ->
     fst (fst (compare P1 P2 fs)) = Some (count_diff a b)).
Proof.
  intros Hfd. rewrite (compare_in_memory fs P1 P2 Hfd). repeat split.
  - intros [-> | H2]; [done|]. rewrite H2. by destruct (files fs !! P1).
  - intros a b -> -> Hlen. by rewrite decide_False.
  - intros a -> ->. rewrite decide_True by done. by rewrite count_diff_same.
  - intros a b -> -> Hlen Hcnt. rewrite decide_True by done.
    rewrite to_int_small; [done|]. pose proof (count_diff_nonneg a b). lia.
Qed.

(** X24 on [shelf]: a missing file, two lengths, two equal files, two
    files that differ in two bytes. *)
Lemma compare_counts_differences_witness :
  0 <= next_fd shelf /\
  fst (fst (compare "a" "missing" shelf)) = Some (-1) /\
  fst (fst (compare "a" "c" shelf)) = Some (-1) /\
  fst (fst (compare "a" "b" shelf)) = Some 0 /\
  fst (fst (compare "a" "d" shelf)) = Some 2.
Proof.
  assert (Hfd : 0 <= next_fd shelf) by (vm_compute; discriminate).
  split; [exact Hfd|]. split; [|split; [|split]].
  - apply (proj1 (compare_counts_differences shelf "a" "missing" Hfd)).
    right. vm_compute. reflexivity.
  - apply (proj1 (proj2 (compare_counts_differences shelf "a" "c" Hfd))
             [1; 2; 3; 4; 5] [1; 2; 3]);
      [vm_compute; reflexivity | vm_compute; reflexivity | vm_compute; discriminate].
  - apply (proj1 (proj2 (proj2 (compare_counts_differences shelf "a" "b" Hfd)))
             [1; 2; 3; 4; 5]); vm_compute; reflexivity.
  - apply (proj2 (proj2 (proj2 (compare_counts_differences shelf "a" "d" Hfd)))
             [1; 2; 3; 4; 5] [1; 0; 3; 0; 5]); vm_compute; reflexivity.
Defined.

(** C6: two files of 2^31 bytes that differ at every position differ
    at 2^31 positions, and [compare], which is to return the number of
    differing bytes, returns -2^31: the 64-bit counter is returned as
    [int(cnt)]. *)
Theorem compare_wraps_at_two_gib :
  length (replicate two_gib 0) = length (replicate two_gib 1) /\
  count_diff (replicate two_gib 0) (replicate two_gib 1) = 2 ^ 31 /\
  fst (fst (compare "a" "b" big_disk)) = Some (- 2 ^ 31).
Proof.
  assert (Hn : Z.of_nat two_gib = 2 ^ 31).
  { unfold two_gib. apply Z2Nat.id. discriminate. }
  assert (Hcnt : count_diff (replicate two_gib 0) (replicate two_gib 1) = 2 ^ 31).
  { rewrite count_diff_replicate by discriminate. exact Hn. }
  split; [by rewrite !length_replicate|]. split; [exact Hcnt|].
  rewrite compare_in_memory by discriminate.
  unfold big_disk.
  destruct (disk_two_files (replicate two_gib 0) (replicate two_gib 1)) as [-> ->].
  rewrite decide_True by (by rewrite !length_replicate).
  rewrite Hcnt. reflexivity.
Qed.

End Counting_differences.

(** * Further properties of the code *)

(** ** The queries over the participants *)

Section Queries.
Context `{os : OS}.

Lemma invoke_query {A} (r : href) (q : BasicFile -> A) (what : A -> call) (s : state) :
  invoke r (query q) what s
  = (q (get_handle r (mf s)), [Ev r (what (q (get_handle r (mf s))))], s).
Proof.
  unfold invoke, query. rewrite set_get_handle. by destruct s.
Qed.

Lemma for_each_query {A} (q : BasicFile -> A) what step (idx : list nat) (acc : A) (s : state) :
  for_each idx (fold_call (query q) what step) acc s
  = (fold_left step (map (fun i => q (get_handle (Copy i) (mf s))) idx) acc,
     map (fun i => Ev (Copy i) (what (q (get_handle (Copy i) (mf s))))) idx, s).
Proof.
  revert acc. induction idx as [|i idx IH]; intros acc; [done|].
  simpl. unfold bind at 1. unfold fold_call at 1, bind at 1.
  rewrite invoke_query. simpl. by rewrite IH.
Qed.

(** A forwarding query reads every participant as it is before the
    call and leaves the state as it is. *)
Lemma fan_out_query {A} (q : BasicFile -> A) what step (s : state) :
  fan_out (query q) what step s
  = (fold_left step (map (fun i => q (get_handle (Copy i) (mf s))) (seq 0 (active s)))
       (q (hdl (mf s))),
     map (fun r => Ev r (what (q (get_handle r (mf s))))) (participants (active s)), s).
Proof.
  unfold fan_out, bind at 1. rewrite invoke_query. unfold for_copies.
  fold (active s). rewrite for_each_query. simpl. unfold participants.
  by rewrite map_map.
Qed.

Lemma fold_and_map {B} (p : B -> bool) (l : list B) (a0 : bool) :
  fold_left (fun B b => B && b) (map p l) a0 = a0 && forallb p l.
Proof.
  revert a0. induction l as [|x l IH]; intros a0; simpl; [by rewrite andb_true_r|].
  rewrite IH. by rewrite andb_assoc.
Qed.

Lemma fold_or_map {B} (p : B -> bool) (l : list B) (a0 : bool) :
  fold_left (fun B b => B || b) (map p l) a0 = a0 || existsb p l.
Proof.
  revert a0. induction l as [|x l IH]; intros a0; simpl; [by rewrite orb_false_r|].
  rewrite IH. by rewrite orb_assoc.
Qed.

Lemma forallb_fmap {B C} (p : C -> bool) (g : B -> C) (l : list B) :
  forallb p (map g l) = forallb (fun x => p (g x)) l.
Proof. induction l as [|x l IH]; [done|]. simpl. by rewrite IH. Qed.

Lemma existsb_fmap {B C} (p : C -> bool) (g : B -> C) (l : list B) :
  existsb p (map g l) = existsb (fun x => p (g x)) l.
Proof. induction l as [|x l IH]; [done|]. simpl. by rewrite IH. Qed.

Lemma forallb_participants (p : href -> bool) (n : nat) :
  forallb p (participants n) = p Hdl && forallb (fun i => p (Copy i)) (seq 0 n).
Proof. unfold participants. simpl. f_equal. by rewrite forallb_fmap. Qed.

Lemma existsb_participants (p : href -> bool) (n : nat) :
  existsb p (participants n) = p Hdl || existsb (fun i => p (Copy i)) (seq 0 n).
Proof. unfold participants. simpl. f_equal. by rewrite existsb_fmap. Qed.

Lemma forallb_ext_on {B} (f g : B -> bool) (l : list B) :
  (forall x, x ∈ l -> f x = g x) -> forallb f l = forallb g l.
Proof.
  induction l as [|x l IH]; intros H; simpl; [done|].
  rewrite (H x), IH; [done| |left]. intros y Hy. apply H. by right.
Qed.

(** What the three conjunctive and disjunctive queries return. *)
Lemma MultiFile_good_value (s : state) :
  result (MultiFile_good s)
  = forallb (fun r => BasicFile_good (get_handle r (mf s))) (participants (active s)).
Proof.
  unfold MultiFile_good. rewrite fan_out_query. unfold result. cbn [fst].
  by rewrite fold_and_map, forallb_participants.
Qed.

Lemma MultiFile_fail_value (s : state) :
  result (MultiFile_fail s)
  = existsb (fun r => BasicFile_fail (get_handle r (mf s))) (participants (active s)).
Proof.
  unfold MultiFile_fail. rewrite fan_out_query. unfold result. cbn [fst].
  by rewrite fold_or_map, existsb_participants.
Qed.

Lemma MultiFile_is_open_value (s : state) :
  result (MultiFile_is_open s)
  = forallb (fun r => BasicFile_is_open (get_handle r (mf s))) (participants (active s)).
Proof.
  unfold MultiFile_is_open. rewrite fan_out_query. unfold result. cbn [fst].
  by rewrite fold_and_map, forallb_participants.
Qed.

Lemma MultiFile_is_closed_value (s : state) :
  result (MultiFile_is_closed s)
  = negb (existsb (fun r => BasicFile_is_open (get_handle r (mf s)))
            (participants (active s))).
Proof.
  unfold MultiFile_is_closed, bind. rewrite fan_out_query. unfold result, ret. cbn [fst].
  by rewrite fold_or_map, existsb_participants.
Qed.

Lemma negb_forallb {B} (p : B -> bool) (l : list B) :
  negb (forallb p l) = existsb (fun x => negb (p x)) l.
Proof. induction l as [|x l IH]; [done|]. simpl. by rewrite negb_andb, IH. Qed.

(** X1: [good] is true exactly when no participant carries an error
    flag, [fail] is true exactly when one does, each is the negation of
    the other, and neither changes the state. *)
Theorem good_and_fail_over_participants (s : state) :
  result (MultiFile_good s) = forallb (fun r => negb (flagged r s)) (participants (active s)) /\
  result (MultiFile_fail s) = existsb (fun r => flagged r s) (participants (active s)) /\
  result (MultiFile_fail s) = negb (result (MultiFile_good s)) /\
  final (MultiFile_good s) = s /\ final (MultiFile_fail s) = s.
Proof.
  assert (Hg : forall f, BasicFile_good f = negb (BasicFile_fail f)).
  { intros f. unfold BasicFile_good, BasicFile_fail, error_flags_good, error_flags_fail.
    by rewrite negb_involutive. }
  rewrite MultiFile_good_value, MultiFile_fail_value. unfold flagged.
  split; [|split; [done|split]].
  - apply forallb_ext_on. intros r _. apply Hg.
  - rewrite negb_forallb. clear -Hg.
    induction (participants (active s)) as [|r l IH]; [done|]. simpl.
    by rewrite IH, Hg, negb_involutive.
  - unfold MultiFile_good, MultiFile_fail. by rewrite !fan_out_query.
Qed.

(** X2: [is_open] is true exactly when every participant is open,
    [is_closed] exactly when none is; they are never both true, they
    are each other's negation when there is no copy, and neither changes
    the state. *)
Theorem open_and_closed_over_participants (s : state) :
  result (MultiFile_is_open s)
    = forallb (fun r => BasicFile_is_open (get_handle r (mf s))) (participants (active s)) /\
  result (MultiFile_is_closed s)
    = negb (existsb (fun r => BasicFile_is_open (get_handle r (mf s)))
              (participants (active s))) /\
  ~ (result (MultiFile_is_open s) = true /\ result (MultiFile_is_closed s) = true) /\
  (NumCopies (mf s) <= 0 ->
     result (MultiFile_is_closed s) = negb (result (MultiFile_is_open s))) /\
  final (MultiFile_is_open s) = s /\ final (MultiFile_is_closed s) = s.
Proof.
  rewrite MultiFile_is_open_value, MultiFile_is_closed_value.
  rewrite forallb_participants, existsb_participants. cbn [get_handle].
  split; [done|]. split; [done|]. split; [|split].
  - intros [Ho Hc]. apply andb_true_iff in Ho as [Ho _].
    rewrite Ho in Hc. discriminate Hc.
  - intros Hn. assert (Ha : active s = 0%nat) by (unfold active; lia).
    rewrite Ha. simpl. by rewrite andb_true_r, orb_false_r.
  - unfold MultiFile_is_open, MultiFile_is_closed, bind. by rewrite !fan_out_query.
Qed.

Lemma fold_lor_testbit {B} (g : B -> Z) (l : list B) (a0 n : Z) :
  Z.testbit (fold_left (fun fl v => Z.lor fl v) (map g l) a0) n
  = Z.testbit a0 n || existsb (fun x => Z.testbit (g x) n) l.
Proof.
  revert a0. induction l as [|x l IH]; intros a0; simpl; [by rewrite orb_false_r|].
  by rewrite IH, Z.lor_spec, orb_assoc.
Qed.

Lemma fold_lor_zero {B} (g : B -> Z) (l : list B) (a0 : Z) :
  (fold_left (fun fl v => Z.lor fl v) (map g l) a0 =? 0)
  = ((a0 =? 0) && forallb (fun x => g x =? 0) l).
Proof.
  revert a0. induction l as [|x l IH]; intros a0; simpl; [by rewrite andb_true_r|].
  rewrite IH, andb_assoc. f_equal.
  apply eq_true_iff_eq. rewrite andb_true_iff, !Z.eqb_eq. apply Z.lor_eq_0_iff.
Qed.

(** X3: [eflags] is the union of the participants' flags: a bit is set
    in it exactly when it is set in the flags of some participant, it is
    0 exactly when [good] is true, and the state is left as it is. *)
Theorem eflags_is_the_union (s : state) :
  (forall n, Z.testbit (result (MultiFile_eflags s)) n
             = existsb (fun r => Z.testbit (e_flags (get_handle r (mf s))) n)
                 (participants (active s))) /\
  (result (MultiFile_eflags s) =? 0) = result (MultiFile_good s) /\
  final (MultiFile_eflags s) = s.
Proof.
  unfold MultiFile_eflags, MultiFile_good. rewrite !fan_out_query.
  unfold result, final. cbn [fst snd]. split; [|split; [|done]].
  - intros n. rewrite fold_lor_testbit, existsb_participants. done.
  - rewrite fold_lor_zero, fold_and_map. done.
Qed.

Lemma fold_or_left (rest : list bool) (a0 : bool) :
  fold_left (fun Err e => Err || e) rest a0 = existsb id (a0 :: rest).
Proof.
  revert a0. induction rest as [|e rest IH]; intros a0; simpl.
  - by rewrite orb_false_r.
  - rewrite IH. simpl. unfold id. by rewrite orb_assoc.
Qed.

End Queries.

(** ** Opening *)

Section Opening.
Context `{os : OS}.

Lemma lor_1_nonzero (v : Z) : Z.lor v 1 <> 0.
Proof. intros H. apply Z.lor_eq_0_iff in H as [_ H]. discriminate H. Qed.

(** [open] on a handle that is open: the [reopen] flag alone, the handle
    closed through the platform, no commit, no call of [os_open]. *)
Lemma BasicFile_open_again (WRITER : bool) (Path : string) (Flags : Z)
    (f : BasicFile) (w : world) :
  f_handle f <> -1 ->
  BasicFile_open WRITER Path Flags f w
  = (1, mkBasicFile (-1) 2, snd (os_close (f_handle f) w)).
Proof.
  intros Hopen. unfold BasicFile_open. cbn [with_flags f_handle].
  assert (E : (f_handle f =? -1) = false) by (by apply Z.eqb_neq).
  rewrite E. cbn [negb].
  unfold BasicFile_close, BasicFile_is_open, BasicFile_good, raise.
  cbn [with_flags f_handle e_flags]. rewrite E. cbn [negb].
  change (error_flags_good (assign_bit bit_reopen 1 0)) with false.
  rewrite andb_false_r. destruct (os_close (f_handle f) w) as [r w']. done.
Qed.

Lemma raise_open_not_good (f : BasicFile) : BasicFile_good (raise bit_open f) = false.
Proof.
  unfold BasicFile_good, error_flags_good, raise, assign_bit. cbn.
  apply Z.eqb_neq, lor_1_nonzero.
Qed.

(** After [open] the handle is open exactly when it is good, and that
    is exactly when [open] returned 0. *)
Lemma BasicFile_open_outcome (WRITER : bool) (Path : string) (Flags : Z)
    (f : BasicFile) (w : world) :
  (fst (fst (BasicFile_open WRITER Path Flags f w)) = 0 \/
   fst (fst (BasicFile_open WRITER Path Flags f w)) = 1) /\
  BasicFile_good (snd (fst (BasicFile_open WRITER Path Flags f w)))
  = (fst (fst (BasicFile_open WRITER Path Flags f w)) =? 0) /\
  BasicFile_is_open (snd (fst (BasicFile_open WRITER Path Flags f w)))
  = (fst (fst (BasicFile_open WRITER Path Flags f w)) =? 0).
Proof.
  destruct (Z.eq_dec (f_handle f) (-1)) as [Hc|Ho].
  2: { rewrite (BasicFile_open_again WRITER Path Flags f w Ho). cbn. auto. }
  unfold BasicFile_open. cbn [with_flags f_handle]. rewrite Hc.
  change (-1 =? -1) with true. cbn [negb].
  destruct (os_open Path Flags w) as [[err fh] w1]. cbn [f_handle].
  destruct (fh =? -1) eqn:Hfh.
  - apply Z.eqb_eq in Hfh. subst fh. cbn [fst snd].
    rewrite raise_open_not_good. cbn. auto.
  - destruct (err =? 0) eqn:Herr; cbn [negb].
    + apply Z.eqb_eq in Herr. subst err. rewrite fill_open_errors_0.
      cbn. unfold BasicFile_is_open. cbn. rewrite Hfh. auto.
    + destruct (os_close _ _) as [rc w2]. cbn [fst snd e_flags].
      pose proof (raise_open_not_good (mkBasicFile fh (fill_open_errors err))) as Hng.
      unfold BasicFile_good in *. cbn [e_flags] in *. rewrite Hng. cbn. auto.
Qed.

(** X6: [open] returns 0 or 1; a [FileRO] and a [FileRW] report
    success exactly when the handle is open afterwards, and exactly when
    it is good afterwards: a handle is never left open with an error
    flag, or closed without one, by an [open]. *)
Theorem opening_succeeds_exactly_when_open_and_good (WRITER : bool) (Path : string)
    (Flags : Z) (f : BasicFile) (w : world) :
  (fst (fst (BasicFile_open WRITER Path Flags f w)) = 0 \/
   fst (fst (BasicFile_open WRITER Path Flags f w)) = 1) /\
  BasicFile_is_open (snd (fst (FileRO_open Path Flags f w)))
  = fst (fst (FileRO_open Path Flags f w)) /\
  BasicFile_good (snd (fst (FileRO_open Path Flags f w)))
  = fst (fst (FileRO_open Path Flags f w)) /\
  BasicFile_is_open (snd (fst (FileRW_open_ Path Flags f w)))
  = fst (fst (FileRW_open_ Path Flags f w)) /\
  BasicFile_good (snd (fst (FileRW_open_ Path Flags f w)))
  = fst (fst (FileRW_open_ Path Flags f w)).
Proof.
  split; [apply BasicFile_open_outcome|].
  unfold FileRO_open, FileRW_open_.
  destruct (BasicFile_open_outcome false Path (FileRO_filter_open Flags) f w)
    as (_ & Hg & Ho).
  destruct (BasicFile_open false Path (FileRO_filter_open Flags) f w) as [[r f'] w'].
  destruct (BasicFile_open_outcome true Path Flags f w) as (_ & Hg' & Ho').
  destruct (BasicFile_open true Path Flags f w) as [[r' f''] w''].
  cbn [fst snd] in *. by rewrite Hg, Ho, Hg', Ho'.
Qed.

End Opening.

(** ** Establishing a coordinator *)

Section Establishing.
Context `{os : OS}.

(** X7: [open_] on a coordinator whose primary is open returns false;
    the primary is closed through the platform and carries the [reopen]
    flag alone, the count is 0 and the copies are left as they are, open
    ones included: no copy is closed. *)
Theorem open_on_an_open_coordinator (Path : string) (Flags : Z) (s : state) :
  BasicFile_is_open (hdl (mf s)) = true ->
  MultiFile_open_ Path Flags s
  = (false, [Ev Hdl (c_open Path Flags false)],
     mkState (mkMultiFile (mkBasicFile (-1) 2) (copies (mf s)) 0 Flags) (buffer s)
       (snd (os_close (f_handle (hdl (mf s))) (os_w s)))).
Proof.
  intros Hopen. unfold BasicFile_is_open in Hopen. apply negb_true_iff, Z.eqb_neq in Hopen.
  unfold MultiFile_open_, invoke, FileRW_open_. cbn [mf get_handle hdl os_w buffer].
  by rewrite (BasicFile_open_again true Path Flags (hdl (mf s)) (os_w s) Hopen).
Qed.

Lemma FileRW_open__ok (Path : string) (flags : Z) (f : BasicFile) (w : world) :
  fst (fst (FileRW_open_ Path flags f w)) = true ->
  BasicFile_good (snd (fst (FileRW_open_ Path flags f w))) = true /\
  BasicFile_is_open (snd (fst (FileRW_open_ Path flags f w))) = true.
Proof.
  unfold FileRW_open_.
  destruct (BasicFile_open_outcome true Path flags f w) as (_ & Hg & Ho).
  destruct (BasicFile_open true Path flags f w) as [[r f'] w']. cbn in *.
  intros Hr. by rewrite Hg, Ho.
Qed.

Lemma MultiFile_add_succeeded (Path : string) (s : state) :
  result (MultiFile_add Path s) = true ->
  0 <= NumCopies (mf s) < 5 /\
  fst (fst (add_open Path s)) = true /\
  mf (final (MultiFile_add Path s))
  = mkMultiFile (hdl (mf s)) (<[active s := snd (fst (add_open Path s))]> (copies (mf s)))
      (NumCopies (mf s) + 1) (OpenFlags (mf s)).
Proof.
  unfold MultiFile_add, add_open, active, result, final.
  destruct (NumCopies (mf s) <? 0) eqn:Hlo; [discriminate|].
  destruct (NumCopies (mf s) >=? 5) eqn:Hhi; [discriminate|]. cbn [orb].
  unfold invoke. destruct (FileRW_open_ _ _ _ _) as [[ok f] w].
  destruct ok; cbn; [|discriminate]. intros _. split; [lia|done].
Qed.

Lemma seq_0_S (n : nat) : seq 0 (S n) = seq 0 n ++ [n].
Proof. by rewrite seq_S. Qed.

(** X8: a successful [open_] leaves a coordinator without copies that
    is good and open. *)
Theorem opened_coordinator_is_healthy (Path : string) (Flags : Z) (s : state) :
  result (MultiFile_open_ Path Flags s) = true ->
  NumCopies (mf (final (MultiFile_open_ Path Flags s))) = 0 /\
  result (MultiFile_good (final (MultiFile_open_ Path Flags s))) = true /\
  result (MultiFile_is_open (final (MultiFile_open_ Path Flags s))) = true.
Proof.
  intros Hok. rewrite MultiFile_good_value, MultiFile_is_open_value.
  unfold active. destruct (MultiFile_open__count Path Flags s) as (-> & _).
  split; [done|].
  cbn [Z.to_nat participants seq map forallb].
  revert Hok. unfold MultiFile_open_, invoke, result, final.
  cbn [mf get_handle hdl os_w buffer].
  pose proof (FileRW_open__ok Path Flags (hdl (mf s)) (os_w s)) as H.
  destruct (FileRW_open_ _ _ _ _) as [[ok f] w]. cbn in *.
  intros ->. destruct (H eq_refl) as [Hg Ho]. by rewrite Hg, Ho.
Qed.

(** X9: a successful [add] on a coordinator that is good and open
    leaves one that is good and open, with one copy more. *)
Theorem added_copy_keeps_it_healthy (Path : string) (s : state) :
  well_formed s ->
  result (MultiFile_good s) = true -> result (MultiFile_is_open s) = true ->
  result (MultiFile_add Path s) = true ->
  NumCopies (mf (final (MultiFile_add Path s))) = NumCopies (mf s) + 1 /\
  result (MultiFile_good (final (MultiFile_add Path s))) = true /\
  result (MultiFile_is_open (final (MultiFile_add Path s))) = true.
Proof.
  intros [Hlen Hn] Hgood Hopen Hadd.
  destruct (MultiFile_add_succeeded Path s Hadd) as (Hrange & Hok & Hmf).
  destruct (FileRW_open__ok Path (OpenFlags (mf s)) (get_handle (Copy (active s)) (mf s))
              (os_w s) Hok) as [Hg Ho].
  fold (add_open Path s) in Hg, Ho.
  split; [by rewrite Hmf|].
  rewrite MultiFile_good_value in Hgood. rewrite MultiFile_is_open_value in Hopen.
  rewrite MultiFile_good_value, MultiFile_is_open_value.
  assert (Hact : active (final (MultiFile_add Path s)) = S (active s)).
  { unfold active. rewrite Hmf. cbn. lia. }
  rewrite Hact. rewrite !forallb_participants in *. rewrite seq_0_S, !forallb_app.
  rewrite Hmf. cbn [get_handle copies hdl forallb] in *.
  assert (Hnew : nth (active s) (<[active s := snd (fst (add_open Path s))]> (copies (mf s)))
                   BasicFile_new = snd (fst (add_open Path s))).
  { apply nth_lookup_Some, list_lookup_insert_eq. unfold active. lia. }
  assert (Hold : forall (p : BasicFile -> bool),
             forallb (fun i => p (nth i (<[active s := snd (fst (add_open Path s))]>
                                           (copies (mf s))) BasicFile_new))
               (seq 0 (active s))
             = forallb (fun i => p (nth i (copies (mf s)) BasicFile_new)) (seq 0 (active s))).
  { intros p. apply forallb_ext_on. intros i Hi. apply elem_of_seq in Hi.
    rewrite !nth_lookup, list_lookup_insert_ne; [done|lia]. }
  rewrite (Hold BasicFile_good), (Hold BasicFile_is_open), Hnew.
  apply andb_true_iff in Hgood as [Hg0 Hg1]. apply andb_true_iff in Hopen as [Ho0 Ho1].
  by rewrite Hg0, Hg1, Ho0, Ho1, Ho, Hg.
Qed.

End Establishing.

(** ** Closing *)

Section Closing.
Context `{os : OS}.

Lemma BasicFile_close_handle (WRITER : bool) (f : BasicFile) (w : world) :
  f_handle (snd (fst (BasicFile_close WRITER f w))) = -1 /\
  e_flags (snd (fst (BasicFile_close WRITER f w))) = e_flags f.
Proof.
  unfold BasicFile_close, BasicFile_is_open.
  destruct (f_handle f =? -1) eqn:E; cbn [negb].
  - apply Z.eqb_eq in E. done.
  - by destruct (os_close _ _) as [r w'].
Qed.

(** Closing a closed handle calls nothing. *)
Lemma BasicFile_close_closed (WRITER : bool) (f : BasicFile) (w : world) :
  f_handle f = -1 -> BasicFile_close WRITER f w = (tt, f, w).
Proof. intros H. unfold BasicFile_close, BasicFile_is_open. by rewrite H. Qed.

Lemma final_bind {A B : Type} (m : M A) (k : A -> M B) (s : state) :
  final (bind m k s) = final (k (result (m s)) (final (m s))).
Proof.
  unfold bind, final, result. destruct (m s) as [[a t1] s1]. cbn [fst snd].
  by destruct (k a s1) as [[b t2] s2].
Qed.

Lemma final_invoke {A : Type} (r : href) (meth : method A) (what : A -> call)
    (s : state) :
  final (invoke r meth what s)
  = mkState (set_handle r (snd (fst (meth (get_handle r (mf s)) (os_w s)))) (mf s))
            (buffer s) (snd (meth (get_handle r (mf s)) (os_w s))).
Proof. unfold invoke, final. by destruct (meth _ _) as [[u f] w]. Qed.

Lemma final_for_each_cons {A : Type} (i : nat) (idx : list nat)
    (body : nat -> A -> M A) (a : A) (s : state) :
  final (for_each (i :: idx) body a s)
  = final (for_each idx body (result (body i a s)) (final (body i a s))).
Proof.
  cbn [for_each]. apply final_bind.
Qed.

Lemma final_close_copy (i : nat) (s : state) :
  final (close_copy i tt s)
  = mkState (set_handle (Copy i)
               (snd (fst (BasicFile_close true (get_handle (Copy i) (mf s)) (os_w s))))
               (mf s))
            (buffer s)
            (snd (BasicFile_close true (get_handle (Copy i) (mf s)) (os_w s))).
Proof. apply final_invoke. Qed.

Lemma close_loop (idx : list nat) (s : state) :
  let s' := final (for_each idx close_copy tt s) in
  hdl (mf s') = hdl (mf s) /\
  NumCopies (mf s') = NumCopies (mf s) /\
  length (copies (mf s')) = length (copies (mf s)) /\
  forall j,
    e_flags (get_handle (Copy j) (mf s')) = e_flags (get_handle (Copy j) (mf s)) /\
    (f_handle (get_handle (Copy j) (mf s)) = -1 ->
     f_handle (get_handle (Copy j) (mf s')) = -1) /\
    (j ∈ idx -> (j < length (copies (mf s)))%nat ->
     f_handle (get_handle (Copy j) (mf s')) = -1).
Proof.
  revert s. induction idx as [|i idx IH]; intros s; cbv zeta.
  - cbn. repeat split; try done. intros H. by apply elem_of_nil in H.
  - rewrite final_for_each_cons.
    assert (Hu : result (close_copy i () s) = ()) by (by destruct (result _)).
    rewrite Hu, final_close_copy.
    pose proof (BasicFile_close_handle true (get_handle (Copy i) (mf s)) (os_w s)) as [Hc Hf].
    set (f := snd (fst (BasicFile_close true _ _))) in *.
    set (s1 := mkState _ _ _).
    specialize (IH s1). cbv zeta in IH.
    set (s2 := final (for_each idx close_copy () s1)) in *.
    destruct IH as (Hh & Hn & Hl & Hj).
    assert (Hl1 : length (copies (mf s1)) = length (copies (mf s)))
      by (unfold s1; cbn; by rewrite length_insert).
    split; [by rewrite Hh|]. split; [by rewrite Hn|]. split; [by rewrite Hl, Hl1|].
    intros j. destruct (Hj j) as (Hje & Hjc & Hjin).
    assert (Hs1 : get_handle (Copy j) (mf s1)
                  = if decide (j = i /\ (i < length (copies (mf s)))%nat) then f
                    else get_handle (Copy j) (mf s)).
    { unfold s1. cbn [mf get_handle set_handle copies]. rewrite !nth_lookup.
      destruct (decide (j = i /\ (i < length (copies (mf s)))%nat)) as [[-> Hlt]|Hne].
      - by rewrite list_lookup_insert_eq.
      - destruct (decide (j = i)) as [->|Hji].
        + rewrite list_insert_ge; [done|]. lia.
        + by rewrite list_lookup_insert_ne. }
    rewrite Hje. rewrite Hs1 in Hjc |- *.
    destruct (decide (j = i /\ (i < length (copies (mf s)))%nat)) as [[-> Hlt]|Hne].
    + split; [done|]. split; [by intros; apply Hjc|]. intros _ _. by apply Hjc.
    + split; [done|]. split; [done|]. intros Hin Hlt.
      apply elem_of_cons in Hin as [->|Hin]; [exfalso; by apply Hne|].
      apply Hjin; [done|]. by rewrite Hl1.
Qed.

(** X10: [close] leaves the primary and every active copy closed,
    their error flags and the count as they were; afterwards [is_closed]
    is true, [is_open] is false and [good] is what it was. *)
Theorem close_closes_every_participant (s : state) :
  well_formed s ->
  let s' := final (MultiFile_close s) in
  (forall r, r ∈ participants (active s) ->
     f_handle (get_handle r (mf s')) = -1 /\
     e_flags (get_handle r (mf s')) = e_flags (get_handle r (mf s))) /\
  NumCopies (mf s') = NumCopies (mf s) /\
  result (MultiFile_is_closed s') = true /\
  result (MultiFile_is_open s') = false /\
  result (MultiFile_good s') = result (MultiFile_good s).
Proof.
  intros [Hlen Hn] s'.
  assert (Hparts : (forall r, r ∈ participants (active s) ->
     f_handle (get_handle r (mf s')) = -1 /\
     e_flags (get_handle r (mf s')) = e_flags (get_handle r (mf s))) /\
     NumCopies (mf s') = NumCopies (mf s)).
  { unfold s', MultiFile_close. rewrite final_bind, final_invoke.
    pose proof (BasicFile_close_handle true (get_handle Hdl (mf s)) (os_w s)) as [Hc Hf].
    set (f := snd (fst (BasicFile_close true _ _))) in *.
    set (s1 := mkState _ _ _). unfold for_copies.
    change (fun (i : nat) (_ : unit) => invoke (Copy i) (BasicFile_close true) (fun _ => c_close))
      with close_copy.
    assert (Hu : result (invoke Hdl (BasicFile_close true) (fun _ => c_close) s) = ())
      by (by destruct (result _)).
    try rewrite Hu. clear Hu. cbv beta.
    pose proof (close_loop (seq 0 (Z.to_nat (NumCopies (mf s1)))) s1) as Hloop.
    cbv zeta in Hloop.
    set (s2 := final (for_each _ close_copy () s1)) in *.
    destruct Hloop as (Hh & Hn2 & Hl & Hj). split; [|by rewrite Hn2].
    intros r Hr. apply elem_of_cons in Hr as [->|Hr].
    - cbn [get_handle]. rewrite Hh. done.
    - apply list_elem_of_fmap in Hr as (j & -> & Hjin).
      destruct (Hj j) as (Hje & _ & Hjc). split; [|by rewrite Hje].
      apply Hjc; [done|]. apply elem_of_seq in Hjin. unfold active in Hjin.
      unfold s1. cbn. lia. }
  destruct Hparts as [Hparts Hcount]. split; [done|]. split; [done|].
  assert (Hact : active s' = active s) by (unfold active; by rewrite Hcount).
  rewrite MultiFile_is_open_value, MultiFile_is_closed_value, !MultiFile_good_value, Hact.
  assert (Hclosed : forall r, r ∈ participants (active s) ->
             BasicFile_is_open (get_handle r (mf s')) = false).
  { intros r Hr. unfold BasicFile_is_open. by rewrite (proj1 (Hparts r Hr)). }
  split; [|split].
  - apply negb_true_iff. apply not_true_is_false. intros Hex.
    apply existsb_exists in Hex as (r & Hr & Hop). apply list_elem_of_In in Hr.
    rewrite (Hclosed r Hr) in Hop. discriminate Hop.
  - unfold participants. cbn [forallb]. rewrite (Hclosed Hdl); [done|left].
  - apply forallb_ext_on. intros r Hr. unfold BasicFile_good.
    by rewrite (proj2 (Hparts r Hr)).
Qed.

End Closing.

(** ** What a forwarding call does to the handles *)

Section Frames.
Context `{os : OS}.
Variable T : BasicFile -> BasicFile -> Prop.
Hypothesis T_refl : forall f, T f f.
Hypothesis T_trans : forall f g h, T f g -> T g h -> T f h.

Lemma get_set_handle_same (r : href) (f : BasicFile) (m : MultiFile) :
  get_handle r (set_handle r f m) = f \/
  get_handle r (set_handle r f m) = get_handle r m.
Proof.
  destruct r as [|i]; cbn; [by left|]. rewrite !nth_lookup.
  destruct (decide (i < length (copies m))%nat) as [Hlt|Hge].
  - left. by rewrite list_lookup_insert_eq.
  - right. rewrite list_insert_ge; [done|lia].
Qed.

Lemma elem_of_participants (r : href) (n : nat) :
  r ∈ participants n <-> match r with Hdl => True | Copy i => (i < n)%nat end.
Proof.
  unfold participants. rewrite elem_of_cons, list_elem_of_fmap. split.
  - intros [->|(i & -> & Hi)]; [done|]. apply elem_of_seq in Hi. lia.
  - destruct r as [|i]; [by left|]. intros Hi. right. exists i. split; [done|].
    apply elem_of_seq. lia.
Qed.

Lemma href_eq_or_not (r r0 : href) : r = r0 \/ r <> r0.
Proof.
  destruct r as [|i], r0 as [|j]; try (by left); try (by right).
  destruct (decide (i = j)) as [->|Hne]; [by left|right; congruence].
Qed.

Lemma within_ret {A} (n : nat) (a : A) : within n T (ret a).
Proof. intros s Hs. split; [done|]. intros r. split; intros _; [apply T_refl|done]. Qed.

Lemma within_bind {A B} (n : nat) (m : M A) (k : A -> M B) :
  within n T m -> (forall a, within n T (k a)) -> within n T (bind m k).
Proof.
  intros Hm Hk s Hs. rewrite final_bind.
  destruct (Hm s Hs) as [Hn1 H1].
  destruct (Hk (result (m s)) (final (m s)) Hn1) as [Hn2 H2].
  split; [done|]. intros r. destruct (H1 r) as [H1p H1n], (H2 r) as [H2p H2n]. split.
  - intros Hr. eapply T_trans; [apply H1p|apply H2p]; done.
  - intros Hr. rewrite H2n, H1n; done.
Qed.

Lemma within_invoke {A} (n : nat) (r0 : href) (meth : method A) (what : A -> call) :
  r0 ∈ participants n -> respects T meth -> within n T (invoke r0 meth what).
Proof.
  intros Hr0 Hmeth s Hs. rewrite final_invoke. cbn [mf].
  split. { unfold active in *. cbn [mf]. by destruct r0. }
  intros r. split.
  - intros _. destruct (href_eq_or_not r r0) as [->|Hne].
    + destruct (get_set_handle_same r0
                  (snd (fst (meth (get_handle r0 (mf s)) (os_w s)))) (mf s)) as [->| ->];
        [apply Hmeth|apply T_refl].
    + rewrite get_set_handle_other by done. apply T_refl.
  - intros Hr. apply get_set_handle_other. intros ->. by apply Hr.
Qed.

Lemma within_for_each {A} (n : nat) (idx : list nat) (body : nat -> A -> M A) (acc : A) :
  (forall i a, i ∈ idx -> within n T (body i a)) -> within n T (for_each idx body acc).
Proof.
  revert acc. induction idx as [|i idx IH]; intros acc Hb; cbn [for_each].
  - apply within_ret.
  - apply within_bind; [apply Hb; left|]. intros a. apply IH.
    intros j b Hj. apply Hb. by right.
Qed.

Lemma within_for_copies {A} (n : nat) (body : nat -> A -> M A) (acc : A) :
  (forall i a, (i < n)%nat -> within n T (body i a)) -> within n T (for_copies body acc).
Proof.
  intros Hb s Hs. unfold for_copies. fold (active s). rewrite Hs.
  apply within_for_each; [|done]. intros i a Hi. apply Hb. apply elem_of_seq in Hi. lia.
Qed.

Lemma within_fan_out {A} (n : nat) (meth : method A) what step :
  respects T meth -> within n T (fan_out meth what step).
Proof.
  intros Hmeth. unfold fan_out. apply within_bind.
  - apply within_invoke; [left|done].
  - intros a. apply within_for_copies. intros i acc Hi. unfold fold_call.
    apply within_bind; [|intros; apply within_ret].
    apply within_invoke; [|done]. by apply elem_of_participants.
Qed.

Lemma respects_query {A} (q : BasicFile -> A) : respects T (query q).
Proof. intros f w. apply T_refl. Qed.

Lemma within_set_buffer (n : nat) (b : list Z) : within n T (set_buffer b).
Proof. intros s Hs. split; [done|]. intros r. split; intros _; [apply T_refl|done]. Qed.

Lemma within_get_buffer (n : nat) : within n T get_buffer.
Proof. intros s Hs. split; [done|]. intros r. split; intros _; [apply T_refl|done]. Qed.

Lemma within_read_or_fail (n : nat) (r : href) (dst : list Z) (Size : Z) :
  r ∈ participants n -> (forall buf, respects T (BasicFile_read buf Size)) ->
  within n T (read_or_fail r dst Size).
Proof.
  intros Hr Hread. unfold read_or_fail.
  apply within_bind; [by apply within_invoke|]. intros [e d].
  apply within_bind; [|intros; apply within_ret].
  destruct e; [apply within_ret|]. apply within_invoke; [done|apply respects_query].
Qed.

Lemma within_read (n : nat) (Ptr_ : list Z) (Size : Z) :
  (forall buf, respects T (BasicFile_read buf Size)) ->
  within n T (MultiFile_read Ptr_ Size).
Proof.
  intros Hread. unfold MultiFile_read.
  apply within_bind; [apply within_get_buffer|]. intros b.
  apply within_bind; [apply within_set_buffer|]. intros _.
  apply within_bind; [apply within_read_or_fail; [left|done]|]. intros [e p].
  apply within_bind; [|intros; apply within_ret].
  apply within_for_copies. intros i a Hi. unfold verify_copy.
  apply within_bind; [apply within_get_buffer|]. intros b'.
  apply within_bind; [apply within_read_or_fail; [by apply elem_of_participants|done]|].
  intros [e' b'']. apply within_bind; [apply within_set_buffer|]. intros; apply within_ret.
Qed.

Lemma within_close (n : nat) :
  respects T (BasicFile_close true) -> within n T MultiFile_close.
Proof.
  intros Hclose. unfold MultiFile_close.
  apply within_bind; [apply within_invoke; [left|done]|]. intros _.
  apply within_for_copies. intros i a Hi.
  apply within_invoke; [by apply elem_of_participants|done].
Qed.

(** Every forwarding call relates the participants' handles by [T] when
    the single-file methods it calls do, and leaves the other slots. *)
Lemma within_run (n : nat) (o : op) :
  is_forwarding o = true ->
  (o = op_close -> respects T (BasicFile_close true)) ->
  (o = op_bad -> respects T (fun f w => let '(b, f) := BasicFile_bad f in (b, f, w))) ->
  respects T BasicFile_eof -> respects T BasicFile_commit -> respects T BasicFile_length ->
  (forall Pos Dir, respects T (BasicFile_seek Pos Dir)) -> respects T BasicFile_tell ->
  (forall NewSize, respects T (BasicFile_chsize NewSize)) ->
  (forall buf Size, respects T (BasicFile_write buf Size)) ->
  (forall buf Size, respects T (BasicFile_read buf Size)) ->
  within n T (run o).
Proof.
  intros Hfw Hclose Hbad Heof Hcommit Hlength Hseek Htell Hchsize Hwrite Hread.
  destruct o; try discriminate Hfw; unfold run;
    (apply within_bind; [|intros; apply within_ret]).
  - by apply within_close, Hclose.
  - by apply within_fan_out, Hbad.
  - apply within_fan_out, respects_query.
  - apply within_fan_out, respects_query.
  - apply within_fan_out, respects_query.
  - unfold MultiFile_is_closed. apply within_bind; [|intros; apply within_ret].
    apply within_fan_out, respects_query.
  - by apply within_fan_out.
  - apply within_fan_out, respects_query.
  - by apply within_fan_out.
  - by apply within_fan_out.
  - by apply within_fan_out.
  - by apply within_fan_out.
  - by apply within_fan_out.
  - by apply within_fan_out.
  - by apply within_fan_out.
  - by apply within_read.
Qed.

End Frames.

(** ** Error flags are kept *)

Section Flags.

Lemma assign_bit_spec (n x v m : Z) :
  0 <= n -> Z.testbit (assign_bit n x v) m = if m =? n then Z.odd x else Z.testbit v m.
Proof.
  intros Hn. unfold assign_bit.
  destruct (Z.ltb_spec m 0) as [Hm|Hm].
  { rewrite !Z.testbit_neg_r by done.
    destruct (m =? n) eqn:E; [apply Z.eqb_eq in E; lia|]. by destruct (Z.odd x). }
  destruct (Z.odd x).
  - rewrite Z.lor_spec, Z.shiftl_1_l, Z.pow2_bits_eqb by done.
    rewrite (Z.eqb_sym n m). destruct (m =? n); [apply orb_true_r|apply orb_false_r].
  - rewrite Z.land_spec, Z.lnot_spec, Z.shiftl_1_l, Z.pow2_bits_eqb by done.
    rewrite (Z.eqb_sym n m). destruct (m =? n); [apply andb_false_r|apply andb_true_r].
Qed.

Lemma or_assign_bit_spec (n x v m : Z) :
  0 <= n ->
  Z.testbit (or_assign_bit n x v) m
  = if m =? n then Z.testbit v n || Z.odd x else Z.testbit v m.
Proof.
  intros Hn. unfold or_assign_bit. rewrite assign_bit_spec by done.
  destruct (m =? n); [|done].
  rewrite <- !Z.bit0_odd, Z.lor_spec, !Z.bit0_odd. unfold field.
  by destruct (Z.testbit v n).
Qed.

Lemma assign_bit_1_mono (n v m : Z) :
  0 <= n -> Z.testbit v m = true -> Z.testbit (assign_bit n 1 v) m = true.
Proof. intros Hn Hm. rewrite assign_bit_spec by done. by destruct (m =? n). Qed.

Lemma or_assign_bit_mono (n x v m : Z) :
  0 <= n -> Z.testbit v m = true -> Z.testbit (or_assign_bit n x v) m = true.
Proof.
  intros Hn Hm. rewrite or_assign_bit_spec by done.
  destruct (m =? n) eqn:E; [|done]. apply Z.eqb_eq in E. subst m. by rewrite Hm.
Qed.

End Flags.

Section Sticky.
Context `{os : OS}.

Lemma keeps_errors_refl (f : BasicFile) : keeps_errors f f.
Proof. by split. Qed.

Lemma keeps_errors_trans (f g h : BasicFile) :
  keeps_errors f g -> keeps_errors g h -> keeps_errors f h.
Proof. intros [H1 B1] [H2 B2]. split; [congruence|]. intros n Hn. by apply B2, B1. Qed.

Lemma keeps_errors_raise (n : Z) (f : BasicFile) : 0 <= n -> keeps_errors f (raise n f).
Proof.
  intros Hn. split; [done|]. intros m Hm. unfold raise. cbn [with_flags e_flags].
  rewrite assign_bit_spec by done. by destruct (m =? n).
Qed.

Lemma keeps_errors_length : respects keeps_errors BasicFile_length.
Proof.
  intros f w. unfold BasicFile_length. destruct (os_size _ _) as [res w'].
  destruct (res =? -1); cbn; [by apply keeps_errors_raise|apply keeps_errors_refl].
Qed.

Lemma keeps_errors_eof : respects keeps_errors BasicFile_eof.
Proof.
  intros f w. unfold BasicFile_eof. destruct (os_eof _ _) as [res w'].
  destruct (res =? -1); cbn; [by apply keeps_errors_raise|apply keeps_errors_refl].
Qed.

Lemma keeps_errors_commit : respects keeps_errors BasicFile_commit.
Proof.
  intros f w. unfold BasicFile_commit.
  destruct (BasicFile_is_open f && BasicFile_good f); [|apply keeps_errors_refl].
  destruct (os_commit _ _) as [res w'].
  destruct (negb (res =? 0)); cbn; [by apply keeps_errors_raise|apply keeps_errors_refl].
Qed.

Lemma keeps_errors_chsize (NewSize : Z) : respects keeps_errors (BasicFile_chsize NewSize).
Proof.
  intros f w. unfold BasicFile_chsize. destruct (os_chsize _ _ _) as [err w'].
  destruct (negb (err =? 0)); cbn [fst snd]; [|apply keeps_errors_refl].
  split; [done|]. intros m Hm. cbn [e_flags with_flags].
  by apply or_assign_bit_mono, or_assign_bit_mono, assign_bit_1_mono.
Qed.

Lemma keeps_errors_seek (Pos Dir : Z) : respects keeps_errors (BasicFile_seek Pos Dir).
Proof.
  intros f w. unfold BasicFile_seek. destruct (os_seek _ _ _ _) as [res w'].
  destruct (res =? -1); cbn; [|apply keeps_errors_refl].
  eapply keeps_errors_trans; by apply keeps_errors_raise.
Qed.

Lemma keeps_errors_tell : respects keeps_errors BasicFile_tell.
Proof.
  intros f w. unfold BasicFile_tell. destruct (os_tell _ _) as [res w'].
  destruct (res =? -1); cbn; [|apply keeps_errors_refl].
  eapply keeps_errors_trans; by apply keeps_errors_raise.
Qed.

Lemma keeps_errors_read (buf : list Z) (Size : Z) :
  respects keeps_errors (BasicFile_read buf Size).
Proof.
  intros f w. unfold BasicFile_read. destruct (os_read _ _ _) as [[res data] w'].
  destruct (to_size_t res =? Size); cbn; [apply keeps_errors_refl|].
  destruct (res =? -1); cbn; [|by apply keeps_errors_raise].
  eapply keeps_errors_trans; by apply keeps_errors_raise.
Qed.

Lemma keeps_errors_write (buf : list Z) (Size : Z) :
  respects keeps_errors (BasicFile_write buf Size).
Proof.
  intros f w. unfold BasicFile_write. destruct (os_write _ _ _) as [res w'].
  destruct (to_size_t res =? Size); cbn; [apply keeps_errors_refl|].
  destruct (res =? -1); cbn; [|by apply keeps_errors_raise].
  eapply keeps_errors_trans; by apply keeps_errors_raise.
Qed.

(** X11: a forwarding call other than [close] and [bad] leaves every
    descriptor as it is, clears no error flag of any handle, keeps the
    count, and leaves the slots that are not participants unchanged. *)
Theorem forwarding_never_clears_a_flag (o : op) (s : state) :
  never_resets o = true ->
  active (final (run o s)) = active s /\
  forall r,
    keeps_errors (get_handle r (mf s)) (get_handle r (mf (final (run o s)))) /\
    (r ∉ participants (active s) ->
       get_handle r (mf (final (run o s))) = get_handle r (mf s)).
Proof.
  intros Ho.
  assert (Hrun : within (active s) keeps_errors (run o)).
  { apply within_run;
      [apply keeps_errors_refl | apply keeps_errors_trans | by destruct o
      | by intros -> | by intros ->
      | apply keeps_errors_eof | apply keeps_errors_commit | apply keeps_errors_length
      | apply keeps_errors_seek | apply keeps_errors_tell | apply keeps_errors_chsize
      | apply keeps_errors_write | apply keeps_errors_read ]. }
  destruct (Hrun s eq_refl) as [Hn Hr]. split; [done|]. intros r.
  destruct (Hr r) as [Hp Hnp]. split; [|done].
  assert (Hcase : r ∈ participants (active s) \/ r ∉ participants (active s)).
  { rewrite elem_of_participants. destruct r as [|i]; [by left|].
    destruct (decide (i < active s)%nat); [by left|by right]. }
  destruct Hcase as [Hin|Hout]; [by apply Hp|].
  rewrite Hnp by done. apply keeps_errors_refl.
Qed.

(** X12: [close] and every other forwarding call leave the slots at and
    behind the count exactly as they are. *)
Theorem forwarding_leaves_the_other_slots (o : op) (s : state) (i : nat) :
  is_forwarding o = true -> (active s <= i)%nat ->
  get_handle (Copy i) (mf (final (run o s))) = get_handle (Copy i) (mf s).
Proof.
  intros Ho Hi.
  assert (Hrun : within (active s) (fun _ _ => True) (run o)).
  { apply within_run; try done; intros; by intros ? ?. }
  destruct (Hrun s eq_refl) as [_ Hr]. destruct (Hr (Copy i)) as [_ Hnp].
  apply Hnp. rewrite elem_of_participants. lia.
Qed.

End Sticky.

(** ** An invariant of the handles *)

Section Invariant.
Context `{os : OS}.

Lemma keeps_refl (f : BasicFile) : stays_closed f f.
Proof. by intros H. Qed.

Lemma keeps_trans (f g h : BasicFile) : stays_closed f g -> stays_closed g h -> stays_closed f h.
Proof. intros H1 H2 H. by apply H2, H1. Qed.

Lemma opening_flags_cases (b : Z) :
  b ∈ opening_flags ->
  0 <= b /\ b <> bit_eacces /\ b <> bit_einval /\ b <> bit_invalid /\ b <> bit_commit /\
  b <> bit_seek /\ b <> bit_tell /\ b <> bit_read /\ b <> bit_write /\ b <> bit_corrupt.
Proof.
  unfold opening_flags. rewrite !elem_of_cons, elem_of_nil.
  intros [->|[->|[->|[->|[->|[]]]]]]; repeat split; done.
Qed.

Lemma keeps_raise (n : Z) (f : BasicFile) :
  0 <= n -> n ∉ opening_flags -> stays_closed f (raise n f).
Proof.
  intros Hn Hout H b Hb. unfold raise. cbn [with_flags e_flags f_handle].
  rewrite assign_bit_spec by done.
  destruct (b =? n) eqn:E; [apply Z.eqb_eq in E; by subst b|]. by apply H.
Qed.

Lemma not_opening (n : Z) :
  n = bit_invalid \/ n = bit_seek \/ n = bit_tell \/ n = bit_read \/ n = bit_write ->
  0 <= n /\ n ∉ opening_flags.
Proof.
  intros Hn. split; [by destruct Hn as [->|[->|[->|[->| ->]]]]|].
  intros Hin. apply opening_flags_cases in Hin.
  destruct Hin as (_ & _ & _ & H7 & _ & H9 & H10 & H11 & H12 & _).
  destruct Hn as [->|[->|[->|[->| ->]]]]; done.
Qed.

Ltac raised :=
  repeat first
    [ apply keeps_refl
    | eapply keeps_trans; [|apply keeps_raise; apply not_opening; tauto] ].

Lemma keeps_length : respects stays_closed BasicFile_length.
Proof.
  intros f w. unfold BasicFile_length. destruct (os_size _ _) as [res w'].
  destruct (res =? -1); cbn [fst snd]; raised.
Qed.

Lemma keeps_eof : respects stays_closed BasicFile_eof.
Proof.
  intros f w. unfold BasicFile_eof. destruct (os_eof _ _) as [res w'].
  destruct (res =? -1); cbn [fst snd]; raised.
Qed.

Lemma keeps_commit : respects stays_closed BasicFile_commit.
Proof.
  intros f w. unfold BasicFile_commit.
  destruct (BasicFile_is_open f && BasicFile_good f); [|apply keeps_refl].
  destruct (os_commit _ _) as [res w'].
  destruct (negb (res =? 0)); cbn [fst snd]; raised.
Qed.

Lemma keeps_seek (Pos Dir : Z) : respects stays_closed (BasicFile_seek Pos Dir).
Proof.
  intros f w. unfold BasicFile_seek. destruct (os_seek _ _ _ _) as [res w'].
  destruct (res =? -1); cbn [fst snd]; raised.
Qed.

Lemma keeps_tell : respects stays_closed BasicFile_tell.
Proof.
  intros f w. unfold BasicFile_tell. destruct (os_tell _ _) as [res w'].
  destruct (res =? -1); cbn [fst snd]; raised.
Qed.

Lemma keeps_read (buf : list Z) (Size : Z) : respects stays_closed (BasicFile_read buf Size).
Proof.
  intros f w. unfold BasicFile_read. destruct (os_read _ _ _) as [[res data] w'].
  destruct (to_size_t res =? Size); cbn [fst snd]; [apply keeps_refl|].
  destruct (res =? -1); cbn [fst snd]; raised.
Qed.

Lemma keeps_write (buf : list Z) (Size : Z) : respects stays_closed (BasicFile_write buf Size).
Proof.
  intros f w. unfold BasicFile_write. destruct (os_write _ _ _) as [res w'].
  destruct (to_size_t res =? Size); cbn [fst snd]; [apply keeps_refl|].
  destruct (res =? -1); cbn [fst snd]; raised.
Qed.

Lemma keeps_chsize (NewSize : Z) : respects stays_closed (BasicFile_chsize NewSize).
Proof.
  intros f w. unfold BasicFile_chsize. destruct (os_chsize _ _ _) as [err w'].
  destruct (negb (err =? 0)); cbn [fst snd]; [|apply keeps_refl].
  intros H b Hb. cbn [with_flags e_flags f_handle].
  destruct (opening_flags_cases b Hb) as (H0 & H2 & H4 & H7 & _).
  rewrite !or_assign_bit_spec by done.
  destruct (b =? bit_einval) eqn:E1; [apply Z.eqb_eq in E1; done|].
  destruct (b =? bit_eacces) eqn:E2; [apply Z.eqb_eq in E2; done|].
  rewrite assign_bit_spec by done.
  destruct (b =? bit_invalid) eqn:E3; [apply Z.eqb_eq in E3; done|]. by apply H.
Qed.

Lemma closed_is_fine (v : Z) : flagged_means_closed (mkBasicFile (-1) v).
Proof. by intros b _ _. Qed.

Lemma keeps_close (WRITER : bool) : respects stays_closed (BasicFile_close WRITER).
Proof.
  intros f w. unfold BasicFile_close. destruct (BasicFile_is_open f); [|apply keeps_refl].
  destruct (os_close _ _) as [r w']. cbn [fst snd]. intros _. apply closed_is_fine.
Qed.

Lemma keeps_bad :
  respects stays_closed (fun f w => let '(b, f) := BasicFile_bad f in (b, f, w)).
Proof.
  intros f w. unfold BasicFile_bad, error_flags_bad_fh. cbn [fst snd].
  intros H b Hb. cbn [with_flags e_flags f_handle]. rewrite assign_bit_spec by done.
  destruct (b =? bit_open) eqn:E; [|by apply H].
  destruct (f_handle f =? -1) eqn:Ef; [|discriminate]. intros _. by apply Z.eqb_eq.
Qed.

(** Whatever the handle was, after [open] it is closed or carries no flag. *)
Lemma BasicFile_open_closed_or_clean (WRITER : bool) (Path : string) (Flags : Z)
    (f : BasicFile) (w : world) :
  f_handle (snd (fst (BasicFile_open WRITER Path Flags f w))) = -1 \/
  e_flags (snd (fst (BasicFile_open WRITER Path Flags f w))) = 0.
Proof.
  unfold BasicFile_open. cbn [with_flags f_handle].
  destruct (negb (f_handle f =? -1)).
  - pose proof (BasicFile_close_handle WRITER
                  (raise bit_reopen (mkBasicFile (f_handle f) 0)) w) as [Hc _].
    destruct (BasicFile_close WRITER _ w) as [[u f'] w']. cbn [fst snd] in *. by left.
  - destruct (os_open Path Flags w) as [[err fh] w1]. cbn [f_handle].
    destruct (fh =? -1) eqn:Hfh.
    + apply Z.eqb_eq in Hfh. subst fh. by left.
    + destruct (negb (err =? 0)) eqn:Herr.
      * destruct (os_close _ _) as [rc w2]. by left.
      * apply negb_false_iff, Z.eqb_eq in Herr. subst err. right. cbn.
        apply fill_open_errors_0.
Qed.

Lemma keeps_open (WRITER : bool) (Path : string) (Flags : Z) :
  respects stays_closed (BasicFile_open WRITER Path Flags).
Proof.
  intros f w _ b Hb.
  destruct (BasicFile_open_closed_or_clean WRITER Path Flags f w) as [Hc|Hz]; [done|].
  rewrite Hz, Z.bits_0. discriminate.
Qed.

Lemma keeps_FileRW_open_ (Path : string) (Flags : Z) :
  respects stays_closed (FileRW_open_ Path Flags).
Proof.
  intros f w. unfold FileRW_open_.
  pose proof (keeps_open true Path Flags f w) as H.
  by destruct (BasicFile_open true Path Flags f w) as [[r f'] w'].
Qed.

Lemma invoke_preserves {A} (r0 : href) (meth : method A) (what : A -> call) (s : state) :
  respects stays_closed meth ->
  (forall r, flagged_means_closed (get_handle r (mf s))) ->
  forall r, flagged_means_closed (get_handle r (mf (final (invoke r0 meth what s)))).
Proof.
  intros Hmeth Hs r. rewrite final_invoke. cbn [mf].
  destruct (href_eq_or_not r r0) as [->|Hne].
  - destruct (get_set_handle_same r0
                (snd (fst (meth (get_handle r0 (mf s)) (os_w s)))) (mf s)) as [->| ->];
      [by apply Hmeth|done].
  - by rewrite get_set_handle_other.
Qed.

Lemma MultiFile_open__preserves (Path : string) (Flags : Z) (s : state) :
  (forall r, flagged_means_closed (get_handle r (mf s))) ->
  forall r, flagged_means_closed (get_handle r (mf (final (MultiFile_open_ Path Flags s)))).
Proof.
  intros Hs. unfold MultiFile_open_.
  apply invoke_preserves; [apply keeps_FileRW_open_|].
  intros r. specialize (Hs r). by destruct r.
Qed.

Lemma MultiFile_add_preserves (Path : string) (s : state) :
  (forall r, flagged_means_closed (get_handle r (mf s))) ->
  forall r, flagged_means_closed (get_handle r (mf (final (MultiFile_add Path s)))).
Proof.
  intros Hs r. unfold MultiFile_add.
  destruct ((NumCopies (mf s) <? 0) || (NumCopies (mf s) >=? 5)); [apply Hs|].
  pose proof (invoke_preserves (Copy (Z.to_nat (NumCopies (mf s))))
                (FileRW_open_ Path (OpenFlags (mf s))) (c_open Path (OpenFlags (mf s))) s
                (keeps_FileRW_open_ _ _) Hs r) as H.
  destruct (invoke _ _ _ s) as [[ok t] s1]. unfold final in *. cbn [snd] in *.
  destruct ok; cbn [negb snd mf]; [|done]. by destruct r.
Qed.

Lemma run_preserves (o : op) (s : state) :
  (forall r, flagged_means_closed (get_handle r (mf s))) ->
  forall r, flagged_means_closed (get_handle r (mf (final (run o s)))).
Proof.
  intros Hs r.
  destruct (is_forwarding o) eqn:Hfw.
  - assert (Hrun : within (active s) stays_closed (run o)).
    { apply within_run;
        [apply keeps_refl | apply keeps_trans | done
        | intros _; apply keeps_close | intros _; apply keeps_bad
        | apply keeps_eof | apply keeps_commit | apply keeps_length
        | apply keeps_seek | apply keeps_tell | apply keeps_chsize
        | apply keeps_write | apply keeps_read ]. }
    destruct (Hrun s eq_refl) as [_ Hr]. destruct (Hr r) as [Hp Hnp].
    destruct r as [|i].
    + apply Hp; [left|apply Hs].
    + destruct (decide (i < active s)%nat) as [Hlt|Hge].
      * apply Hp; [by apply elem_of_participants|apply Hs].
      * rewrite Hnp; [apply Hs|]. rewrite elem_of_participants. lia.
  - destruct o; try discriminate Hfw; unfold run; rewrite final_bind_ret.
    + apply MultiFile_open__preserves, Hs.
    + apply MultiFile_open__preserves, Hs.
    + apply MultiFile_open__preserves, Hs.
    + apply MultiFile_add_preserves, Hs.
Qed.

Lemma initial_flagged_means_closed (b : list Z) (w : world) (r : href) :
  flagged_means_closed (get_handle r (mf (initial b w))).
Proof.
  assert (H : get_handle r (mf (initial b w)) = BasicFile_new).
  { destruct r as [|i]; [done|]. cbn [get_handle initial mf MultiFile_new copies].
    rewrite nth_lookup. destruct (replicate 5 BasicFile_new !! i) as [f|] eqn:E; [|done].
    by apply lookup_replicate in E as [-> _]. }
  rewrite H. apply closed_is_fine.
Qed.

(** X13: in every state a sequence of calls reaches from a fresh
    coordinator, a handle that is open carries none of the flags
    [open], [reopen], [eexists], [emfile], [enoent]. *)
Theorem open_handles_carry_no_opening_flag (s : state) (r : href) (b : Z) :
  reachable s -> b ∈ opening_flags ->
  BasicFile_is_open (get_handle r (mf s)) = true ->
  Z.testbit (e_flags (get_handle r (mf s))) b = false.
Proof.
  intros (buf & w & ops & ->) Hb Hopen.
  assert (Hinv : forall r, flagged_means_closed (get_handle r (mf (run_ops ops (initial buf w))))).
  { clear. induction ops as [|o ops IH] using rev_ind.
    - apply initial_flagged_means_closed.
    - rewrite run_ops_app. cbn. apply (run_preserves o), IH. }
  apply not_true_is_false. intros Hset.
  pose proof (Hinv r b Hb Hset) as Hclosed.
  unfold BasicFile_is_open in Hopen. rewrite Hclosed in Hopen. discriminate Hopen.
Qed.

End Invariant.

(** ** Single-file methods *)

Section SingleFile.
Context `{os : OS}.

Lemma odd_land (a b : Z) : Z.odd (Z.land a b) = Z.odd a && Z.odd b.
Proof. by rewrite <- !Z.bit0_odd, Z.land_spec. Qed.

(** X14: [fill_open_errors] stores in each of its five flags the lowest
    bit of [err & E]: the flag of an error number [E] is set exactly
    when [err] and [E] are both odd, and no other flag is set. *)
Theorem fill_open_errors_bits (err n : Z) :
  Z.testbit (fill_open_errors err) n
  = Z.odd err &&
    existsb (fun p : Z * Z => (n =? fst p) && Z.odd (snd p))
      [(bit_eacces, EACCES); (bit_eexists, EEXIST); (bit_einval, EINVAL);
       (bit_emfile, EMFILE); (bit_enoent, ENOENT)].
Proof.
  unfold fill_open_errors. rewrite !assign_bit_spec by done.
  rewrite !odd_land, Z.bits_0. cbn [existsb fst snd].
  unfold bit_eacces, bit_eexists, bit_einval, bit_emfile, bit_enoent.
  destruct (Z.eqb_spec n 6) as [->|H6]; [cbn; by rewrite !orb_false_r|].
  destruct (Z.eqb_spec n 5) as [->|H5]; [cbn; by rewrite !orb_false_r|].
  destruct (Z.eqb_spec n 4) as [->|H4]; [cbn; by rewrite !orb_false_r|].
  destruct (Z.eqb_spec n 3) as [->|H3]; [cbn; by rewrite !orb_false_r|].
  destruct (Z.eqb_spec n 2) as [->|H2]; [cbn; by rewrite !orb_false_r|].
  cbn. by rewrite andb_false_r.
Qed.

Lemma testbit_255 (n : Z) : Z.testbit 255 n = (0 <=? n) && (n <? 8).
Proof.
  change 255 with (Z.ones 8).
  destruct (Z.leb_spec 0 n) as [H0|H0]; [|by rewrite Z.testbit_neg_r].
  destruct (Z.ltb_spec n 8) as [H8|H8].
  - rewrite Z.ones_spec_low; [done|lia].
  - rewrite Z.ones_spec_high; [done|lia].
Qed.

Lemma low_byte_zero (v : Z) :
  (Z.land v 255 =? 0) = forallb (fun n => negb (Z.testbit v n)) [0; 1; 2; 3; 4; 5; 6; 7].
Proof.
  apply eq_true_iff_eq. rewrite Z.eqb_eq, forallb_forall. split.
  - intros Hz n Hn. apply negb_true_iff.
    assert (Hb : Z.testbit (Z.land v 255) n = false) by (by rewrite Hz, Z.bits_0).
    rewrite Z.land_spec, testbit_255 in Hb.
    assert (Hin : (0 <=? n) && (n <? 8) = true).
    { cbn in Hn. destruct Hn as [<-|[<-|[<-|[<-|[<-|[<-|[<-|[<-|[]]]]]]]]]; done. }
    rewrite Hin, andb_true_r in Hb. done.
  - intros Hall. apply Z.bits_inj'. intros n Hn.
    rewrite Z.land_spec, testbit_255, Z.bits_0.
    destruct (Z.ltb_spec n 8) as [H8|H8]; [|by rewrite andb_false_r, andb_false_r].
    assert (Hin : In n [0; 1; 2; 3; 4; 5; 6; 7]).
    { assert (Hc : n = 0 \/ n = 1 \/ n = 2 \/ n = 3 \/ n = 4 \/ n = 5 \/ n = 6 \/ n = 7)
        by lia.
      destruct Hc as [->|[->|[->|[->|[->|[->|[->| ->]]]]]]]; cbn; tauto. }
    apply Hall, negb_true_iff in Hin. by rewrite Hin.
Qed.

(** X15: [bad()] assigns the [open] flag: it is true for every closed
    handle and, for an open one, exactly when one of the flags 1 to 7
    is set; it leaves the descriptor and the other flags, and after it a
    closed handle is never good. *)
Theorem bad_assigns_the_open_flag (f : BasicFile) :
  fst (BasicFile_bad f)
  = negb (BasicFile_is_open f)
    || existsb (fun n => Z.testbit (e_flags f) n) [1; 2; 3; 4; 5; 6; 7] /\
  f_handle (snd (BasicFile_bad f)) = f_handle f /\
  (forall n, Z.testbit (e_flags (snd (BasicFile_bad f))) n
             = if n =? bit_open then negb (BasicFile_is_open f)
               else Z.testbit (e_flags f) n) /\
  BasicFile_is_open f || negb (BasicFile_good (snd (BasicFile_bad f))) = true.
Proof.
  unfold BasicFile_bad, error_flags_bad_fh, BasicFile_is_open. cbn [fst snd with_flags].
  rewrite negb_involutive.
  assert (Hbits : forall n,
            Z.testbit (assign_bit bit_open (Z.b2z (f_handle f =? -1)) (e_flags f)) n
            = if n =? bit_open then f_handle f =? -1 else Z.testbit (e_flags f) n).
  { intros n. rewrite assign_bit_spec by done.
    destruct (n =? bit_open); [|done]. by destruct (f_handle f =? -1). }
  split; [|split; [done|split; [done|]]].
  - unfold error_flags_bad. rewrite low_byte_zero. cbn [forallb existsb].
    rewrite !Hbits. clear Hbits. generalize (Z.testbit (e_flags f)). intros t.
    change (0 =? bit_open) with true. cbv iota.
    destruct (f_handle f =? -1); [done|]. cbn.
    by destruct (t 1), (t 2), (t 3), (t 4), (t 5), (t 6), (t 7).
  - destruct (f_handle f =? -1) eqn:E; [|done]. cbn [negb orb].
    unfold BasicFile_good, error_flags_good. cbn [e_flags with_flags].
    apply negb_true_iff, Z.eqb_neq. intros Hz.
    pose proof (Hbits bit_open) as Hb. rewrite Hz, Z.bits_0 in Hb.
    change (bit_open =? bit_open) with true in Hb. discriminate Hb.
Qed.

Lemma int_is_not_that_size (res Size : Z) :
  - 2 ^ 31 <= res < 2 ^ 31 -> 2 ^ 31 <= Size < 2 ^ 64 - 2 ^ 31 ->
  (to_size_t res =? Size) = false.
Proof.
  intros Hres Hsize. apply Z.eqb_neq. unfold to_size_t.
  destruct (Z.lt_ge_cases res 0) as [Hneg|Hpos].
  - replace res with (res + 2 ^ 64 + (-1) * 2 ^ 64) by lia.
    rewrite Z.mod_add by lia. rewrite Z.mod_small by lia. lia.
  - rewrite Z.mod_small by lia. lia.
Qed.

(** X16: a [write] or a [read] of 2 GiB or more reports failure and sets
    its flag whatever the platform transferred: the [int] the platform
    returns is never equal to such a size. *)
Theorem transfers_of_two_gib_fail (buf : list Z) (Size : Z) (f : BasicFile) (w : world) :
  2 ^ 31 <= Size < 2 ^ 64 - 2 ^ 31 ->
  - 2 ^ 31 <= fst (os_write (f_handle f) (take (Z.to_nat (to_unsigned Size)) buf) w) < 2 ^ 31 ->
  - 2 ^ 31 <= fst (fst (os_read (f_handle f) (to_unsigned Size) w)) < 2 ^ 31 ->
  fst (fst (BasicFile_write buf Size f w)) = true /\
  Z.testbit (e_flags (snd (fst (BasicFile_write buf Size f w)))) bit_write = true /\
  fst (fst (fst (BasicFile_read buf Size f w))) = true /\
  Z.testbit (e_flags (snd (fst (BasicFile_read buf Size f w)))) bit_read = true.
Proof.
  intros Hsize Hw Hr. unfold BasicFile_write, BasicFile_read.
  destruct (os_write _ _ _) as [res w1]. destruct (os_read _ _ _) as [[res' data] w2].
  cbn [fst snd] in Hw, Hr.
  rewrite (int_is_not_that_size res Size Hw Hsize),
          (int_is_not_that_size res' Size Hr Hsize).
  split; [by destruct (res =? -1)|]. split.
  - destruct (res =? -1); cbn [fst snd raise with_flags e_flags];
      rewrite ?assign_bit_spec by done; done.
  - split; [by destruct (res' =? -1)|].
    destruct (res' =? -1); cbn [fst snd raise with_flags e_flags];
      rewrite ?assign_bit_spec by done; done.
Qed.

(** X17: the flags [FileRO] passes to the platform hold no bit of
    [O_RDWR], [O_TRUNC], [O_WRONLY], [O_APPEND], [O_CREAT] or [O_EXCL]. *)
Theorem read_only_filter_drops_writing_flags (flags : Z) :
  Z.land (FileRO_filter_open flags)
    (Z.lor (Z.lor (Z.lor (Z.lor (Z.lor O_RDWR O_TRUNC) O_WRONLY) O_APPEND) O_CREAT) O_EXCL)
  = 0.
Proof.
  unfold FileRO_filter_open.
  apply Z.bits_inj'. intros n Hn.
  rewrite !Z.land_spec, Z.lnot_spec, Z.bits_0 by done.
  by destruct (Z.testbit (Z.lor flags O_RDONLY) n), (Z.testbit _ n).
Qed.

(** X18: where [O_RDONLY] is 0 and [O_WRONLY], [O_CREAT], [O_EXCL] are
    distinct bits, the masks of [filter_open] and [filter_create] are
    empty: they return the caller's flags with [O_RDWR] (and [O_CREAT])
    added and remove nothing, [O_WRONLY] and [O_EXCL] included;
    [filter_excl] removes [O_WRONLY]. *)
Theorem read_write_filters_remove_nothing (flags : Z) :
  O_RDONLY = 0 -> Z.land O_WRONLY O_EXCL = 0 ->
  FileRW_filter_open flags = Z.lor flags O_RDWR /\
  FileRW_filter_create flags = Z.lor (Z.lor flags O_RDWR) O_CREAT /\
  FileRW_filter_excl flags
  = Z.land (Z.lor (Z.lor (Z.lor flags O_RDWR) O_CREAT) O_EXCL) (Z.lnot O_WRONLY).
Proof.
  intros Hro Hwe. unfold FileRW_filter_open, FileRW_filter_create, FileRW_filter_excl.
  rewrite Hro, !Z.lor_0_l.
  assert (Hwce : Z.land (Z.land O_WRONLY O_CREAT) O_EXCL = 0).
  { rewrite <- Z.land_assoc, (Z.land_comm O_CREAT), Z.land_assoc, Hwe. apply Z.land_0_l. }
  rewrite Hwce, Hwe. change (Z.lnot 0) with (-1). by rewrite !Z.land_m1_r.
Qed.

End SingleFile.

(** ** Comparing two files in memory *)

Lemma count_diff_sym (a b : list Z) : count_diff a b = count_diff b a.
Proof.
  revert b. induction a as [|x a IH]; intros [|y b]; try done.
  rewrite !count_diff_cons, IH.
  destruct (decide (x = y)) as [->|Hne].
  - by rewrite decide_True.
  - rewrite decide_False; [done|congruence].
Qed.

Lemma count_diff_le (a b : list Z) : count_diff a b <= Z.of_nat (length a).
Proof.
  revert b. induction a as [|x a IH]; intros [|y b]; try (unfold count_diff; simpl; lia).
  rewrite count_diff_cons. specialize (IH b). simpl length.
  destruct (decide (x = y)); lia.
Qed.

Lemma count_diff_zero (a b : list Z) :
  length a = length b -> count_diff a b = 0 -> a = b.
Proof.
  revert b. induction a as [|x a IH]; intros [|y b] Hlen Hz; try done.
  rewrite count_diff_cons in Hz. pose proof (count_diff_nonneg a b).
  destruct (decide (x = y)) as [->|Hne]; [|lia].
  f_equal. apply IH; [by injection Hlen|lia].
Qed.

Lemma to_int_zero (c : Z) : 0 <= c < 2 ^ 32 -> to_int c = 0 -> c = 0.
Proof.
  intros Hc. unfold to_int. intros H.
  destruct (Z.lt_ge_cases c (2 ^ 31)) as [Hlo|Hhi].
  - rewrite Z.mod_small in H by lia. lia.
  - replace (c + 2 ^ 31) with (c - 2 ^ 31 + 1 * 2 ^ 32) in H by lia.
    rewrite Z.mod_add, Z.mod_small in H by lia. lia.
Qed.

Section Comparing.
#[local] Existing Instance MemFS.

(** X19: on a disk without faults, for two files that exist and are
    shorter than 4 GiB, [compare] returns 0 exactly when they hold the
    same bytes. *)
Theorem compare_is_zero_exactly_on_equal_files (fs : memfs) (P1 P2 : string)
    (a b : list Z) :
  0 <= next_fd fs -> files fs !! P1 = Some a -> files fs !! P2 = Some b ->
  Z.of_nat (length a) < 2 ^ 32 ->
  fst (fst (compare P1 P2 fs)) = Some 0 <-> a = b.
Proof.
  intros Hfd H1 H2 Hlen. rewrite (compare_in_memory fs P1 P2 Hfd), H1, H2.
  destruct (decide (length a = length b)) as [Hab|Hab].
  - split.
    + intros Hz. injection Hz as Hz. apply count_diff_zero; [done|].
      apply to_int_zero; [|done].
      pose proof (count_diff_nonneg a b). pose proof (count_diff_le a b). lia.
    + intros ->. by rewrite count_diff_same.
  - split; [discriminate|]. intros ->. done.
Qed.

(** X20: on a disk without faults [compare] does not depend on the order
    of its two paths. *)
Theorem compare_is_symmetric (fs : memfs) (P1 P2 : string) :
  0 <= next_fd fs ->
  fst (fst (compare P1 P2 fs)) = fst (fst (compare P2 P1 fs)).
Proof.
  intros Hfd. rewrite !(compare_in_memory fs _ _ Hfd).
  destruct (files fs !! P1) as [a|], (files fs !! P2) as [b|]; try done.
  destruct (decide (length a = length b)) as [Hab|Hab].
  - rewrite decide_True by done. by rewrite count_diff_sym.
  - rewrite decide_False by congruence. done.
Qed.

End Comparing.

Section Leaving.
#[local] Existing Instance MemFS.

Lemma same_but_refl (fd1 fd2 : Z) (w : memfs) : same_but fd1 fd2 w w.
Proof. by split. Qed.

Lemma same_but_trans (fd1 fd2 : Z) (w1 w2 w3 : memfs) :
  same_but fd1 fd2 w1 w2 -> same_but fd1 fd2 w2 w3 -> same_but fd1 fd2 w1 w3.
Proof.
  intros (Hf1 & Hd1) (Hf2 & Hd2). split; [congruence|].
  intros fd H1 H2. by rewrite Hd2, Hd1.
Qed.

Lemma memfs_read_same_but (fd fd1 fd2 count : Z) (w : memfs) :
  fd = fd1 \/ fd = fd2 -> same_but fd1 fd2 w (snd (memfs_read fd count w)).
Proof.
  intros Hfd. unfold memfs_read.
  destruct (memfs_file fd w) as [[o content]|]; [|apply same_but_refl].
  destruct (readable (of_flags o)); [|apply same_but_refl].
  cbn [snd]. unfold memfs_set_pos. split; [done|].
  intros fd' H1 H2. cbn [fds]. apply lookup_insert_ne. destruct Hfd; congruence.
Qed.

Lemma BasicFile_read_same_but (fd1 fd2 : Z) (V : list Z) (Size : Z) (f : BasicFile)
    (w : memfs) :
  f_handle f = fd1 \/ f_handle f = fd2 ->
  f_handle (snd (fst (BasicFile_read V Size f w))) = f_handle f /\
  same_but fd1 fd2 w (snd (BasicFile_read V Size f w)).
Proof.
  intros Hfd. split; [apply (@keeps_errors_read MemFS V Size f w)|].
  pose proof (memfs_read_same_but (f_handle f) fd1 fd2 (to_unsigned Size) w Hfd) as H.
  unfold BasicFile_read. cbn [os_read MemFS].
  destruct (memfs_read _ _ _) as [[res data] w']. cbn [snd] in H.
  destruct (to_size_t res =? Size); [done|]. by destruct (res =? -1).
Qed.

Lemma compare_loop_same_but (fd1 fd2 : Z) (fuel : nat) :
  forall (V1 V2 : list Z) (L1 L2 cnt : Z) (fr : frame),
    f_handle (F1 fr) = fd1 -> f_handle (F2 fr) = fd2 ->
    f_handle (F1 (snd (compare_loop fuel V1 V2 L1 L2 cnt fr))) = fd1 /\
    f_handle (F2 (snd (compare_loop fuel V1 V2 L1 L2 cnt fr))) = fd2 /\
    same_but fd1 fd2 (fw fr) (fw (snd (compare_loop fuel V1 V2 L1 L2 cnt fr))).
Proof.
  induction fuel as [|fuel IH]; intros V1 V2 L1 L2 cnt fr H1 H2.
  - cbn [compare_loop]. destruct (L1 =? 0); cbn [snd]; by (split; [|split; [|apply same_but_refl]]).
  - cbn [compare_loop].
    destruct (L1 =? 0); [cbn [snd]; by (split; [|split; [|apply same_but_refl]])|].
    set (L := if L1 >? 4096 then 4096 else L1).
    destruct (BasicFile_read_same_but fd1 fd2 V1 (to_size_t L) (F1 fr) (fw fr))
      as [Hh1 Hw1]; [by left|].
    destruct (BasicFile_read V1 (to_size_t L) (F1 fr) (fw fr)) as [[[e1 V1'] f1] w1].
    cbn [fst snd] in Hh1, Hw1.
    destruct e1; [cbn [snd F1 F2 fw]; split; [congruence|by split]|].
    destruct (BasicFile_read_same_but fd1 fd2 V2 (to_size_t L) (F2 fr) w1)
      as [Hh2 Hw2]; [by right|].
    destruct (BasicFile_read V2 (to_size_t L) (F2 fr) w1) as [[[e2 V2'] f2] w2].
    cbn [fst snd] in Hh2, Hw2.
    assert (Hw : same_but fd1 fd2 (fw fr) w2) by (by eapply same_but_trans).
    destruct e2; [cbn [snd F1 F2 fw]; split; [congruence|split; [congruence|done]]|].
    destruct (compare_chunk _ _ _ _ _ _ _) as [cnt' out'].
    destruct (IH V1' V2' (L1 - L) L2 cnt' (mkFrame f1 f2 out' w2)) as (G1 & G2 & G3);
      [cbn; congruence..|].
    split; [done|]. split; [done|]. by eapply same_but_trans.
Qed.

Lemma close_world (f : BasicFile) (w : memfs) :
  files (snd (BasicFile_close false f w)) = files w /\
  (forall fd, fd <> f_handle f ->
     fds (snd (BasicFile_close false f w)) !! fd = fds w !! fd) /\
  (f_handle f <> -1 -> fds (snd (BasicFile_close false f w)) !! f_handle f = None) /\
  (f_handle f = -1 -> snd (BasicFile_close false f w) = w).
Proof.
  unfold BasicFile_close, BasicFile_is_open. cbn [os_close MemFS andb].
  destruct (f_handle f =? -1) eqn:E; cbn [negb].
  - apply Z.eqb_eq in E. cbn [snd]. by repeat split.
  - apply Z.eqb_neq in E. unfold memfs_close.
    destruct (fds w !! f_handle f) as [o|] eqn:Ho; cbn [snd fds files].
    + split; [done|]. split; [intros fd Hne; by apply lookup_delete_ne|].
      split; [intros _; apply lookup_delete_eq|done].
    + by repeat split.
Qed.

(** What leaving does to a disk whose two handles are either closed or
    the descriptors [fd1] and [fd2]. *)
Lemma leave_world (r : option Z) (fr : frame) (fs : memfs) (fd1 fd2 : Z) :
  fd1 <> -1 -> fd2 <> -1 ->
  f_handle (F1 fr) = fd1 \/ f_handle (F1 fr) = -1 /\ fds (fw fr) !! fd1 = fds fs !! fd1 ->
  f_handle (F2 fr) = fd2 \/ f_handle (F2 fr) = -1 /\ fds (fw fr) !! fd2 = fds fs !! fd2 ->
  fds fs !! fd1 = None -> fds fs !! fd2 = None ->
  same_but fd1 fd2 fs (fw fr) ->
  files (snd (leave r fr)) = files fs /\ fds (snd (leave r fr)) = fds fs.
Proof.
  intros Hn1 Hn2 H1 H2 Hf1 Hf2 (Hfiles & Hfds). unfold leave.
  destruct (close_world (F2 fr) (fw fr)) as (A1 & A2 & A3 & A4).
  destruct (BasicFile_close false (F2 fr) (fw fr)) as [[u2 g2] w2]. cbn [snd] in *.
  destruct (close_world (F1 fr) w2) as (B1 & B2 & B3 & B4).
  destruct (BasicFile_close false (F1 fr) w2) as [[u1 g1] w1]. cbn [snd] in *.
  split; [congruence|]. apply map_eq. intros fd.
  assert (Hfd2 : fds w2 !! fd2 = None).
  { destruct H2 as [H2|[H2 H2']].
    - rewrite <- H2. apply A3. congruence.
    - rewrite A4 by done. congruence. }
  destruct (decide (fd = fd1)) as [->|Hne1].
  { rewrite Hf1. destruct H1 as [H1|[H1 H1']].
    - rewrite <- H1. apply B3. congruence.
    - rewrite B4 by done. destruct (decide (fd1 = fd2)) as [->|Hne]; [done|].
      destruct H2 as [H2|[H2 _]].
      + rewrite A2 by congruence. congruence.
      + rewrite A4 by done. congruence. }
  destruct (decide (fd = fd2)) as [->|Hne2].
  { rewrite Hf2. destruct H1 as [H1|[H1 _]].
    - rewrite B2 by congruence. done.
    - rewrite B4 by done. done. }
  assert (Hw2 : fds w2 !! fd = fds (fw fr) !! fd).
  { destruct H2 as [H2|[H2 _]]; [apply A2; congruence|by rewrite A4]. }
  assert (Hw1 : fds w1 !! fd = fds w2 !! fd).
  { destruct H1 as [H1|[H1 _]]; [apply B2; congruence|by rewrite B4]. }
  rewrite Hw1, Hw2. by apply Hfds.
Qed.

Lemma BasicFile_length_world (f : BasicFile) (w : memfs) :
  f_handle (snd (fst (BasicFile_length f w))) = f_handle f /\
  snd (BasicFile_length f w) = w.
Proof.
  split; [apply (@keeps_errors_length MemFS f w)|].
  unfold BasicFile_length. cbn [os_size MemFS]. unfold memfs_size.
  destruct (memfs_file (f_handle f) w) as [[o content]|].
  - by destruct (Z.of_nat (length content) =? -1).
  - done.
Qed.

Lemma FileRO_open_failed (P : string) (flags : Z) (f : BasicFile) (w : memfs) :
  fst (fst (FileRO_open P flags f w)) = false ->
  f_handle (snd (fst (FileRO_open P flags f w))) = -1.
Proof.
  unfold FileRO_open.
  destruct (@BasicFile_open_outcome MemFS false P (FileRO_filter_open flags) f w)
    as (_ & _ & Ho).
  destruct (BasicFile_open _ _ _ _ _) as [[r f2] w2].
  cbn [fst snd] in *. intros Hr. rewrite Hr in Ho. unfold BasicFile_is_open in Ho.
  apply negb_false_iff, Z.eqb_eq in Ho. done.
Qed.

(** X21: on a disk without faults [compare] changes no file and leaves
    the table of open descriptors as it found it, on every path out
    of it. *)
Theorem compare_leaves_the_disk_as_it_was (fs : memfs) (P1 P2 : string) :
  0 <= next_fd fs -> (forall fd, next_fd fs <= fd -> fds fs !! fd = None) ->
  files (snd (compare P1 P2 fs)) = files fs /\ fds (snd (compare P1 P2 fs)) = fds fs.
Proof.
  intros Hfd Hfresh.
  assert (Hn1 : next_fd fs <> -1) by lia.
  assert (Hn2 : next_fd fs + 1 <> -1) by lia.
  assert (Hf1 : fds fs !! next_fd fs = None) by (apply Hfresh; lia).
  assert (Hf2 : fds fs !! (next_fd fs + 1) = None) by (apply Hfresh; lia).
  unfold compare.
  destruct (files fs !! P1) as [a|] eqn:H1.
  2: { destruct (FileRO_open_missing fs P1 H1) as [Hok Hw].
       pose proof (FileRO_open_failed P1 O_BINARY BasicFile_new fs Hok) as Hc.
       destruct (FileRO_open _ _ _ _) as [[ok1 f1] w1]. cbn [fst snd] in *. subst ok1 w1.
       cbn [negb]. cbv iota.
       apply (leave_world _ _ fs (next_fd fs) (next_fd fs + 1) Hn1 Hn2); cbn [F1 F2 fw];
         [by right|by right|done|done|apply same_but_refl]. }
  rewrite (FileRO_open_existing fs P1 a H1) by lia. cbn [negb]. cbv iota.
  set (fs1 := mkMemFS _ _ _).
  assert (Hs1 : same_but (next_fd fs) (next_fd fs + 1) fs fs1).
  { split; [done|]. intros fd Ha Hb. unfold fs1. cbn [fds]. by apply lookup_insert_ne. }
  destruct (files fs !! P2) as [b|] eqn:H2.
  2: { destruct (FileRO_open_missing fs1 P2 H2) as [Hok Hw].
       pose proof (FileRO_open_failed P2 O_BINARY BasicFile_new fs1 Hok) as Hc.
       destruct (FileRO_open _ _ _ _) as [[ok2 f2] w2]. cbn [fst snd] in *. subst ok2 w2.
       cbn [negb]. cbv iota.
       apply (leave_world _ _ fs (next_fd fs) (next_fd fs + 1) Hn1 Hn2); cbn [F1 F2 fw];
         [by left| |done|done|done].
       right. split; [done|]. unfold fs1. cbn [fds]. apply lookup_insert_ne. lia. }
  rewrite (FileRO_open_existing fs1 P2 b H2) by (cbn; lia). cbn [negb]. cbv iota.
  set (fs2 := mkMemFS _ _ _).
  assert (Hs2 : same_but (next_fd fs) (next_fd fs + 1) fs fs2).
  { split; [done|]. intros fd Ha Hb. unfold fs2, fs1. cbn [fds files next_fd].
    rewrite !lookup_insert_ne; done. }
  destruct (BasicFile_length_world (mkBasicFile (next_fd fs) 0) fs2) as [Hh1 Hw1].
  destruct (@BasicFile_length MemFS (mkBasicFile (next_fd fs) 0) fs2) as [[L1 f1] w3].
  cbn [fst snd f_handle] in Hh1, Hw1. subst w3.
  change (next_fd fs1) with (next_fd fs + 1).
  destruct (BasicFile_length_world (mkBasicFile (next_fd fs + 1) 0) fs2) as [Hh2 Hw2].
  destruct (@BasicFile_length MemFS (mkBasicFile (next_fd fs + 1) 0) fs2) as [[L2 f2] w4].
  cbn [fst snd f_handle] in Hh2, Hw2. subst w4.
  assert (Hleave : forall r fr,
            f_handle (F1 fr) = next_fd fs -> f_handle (F2 fr) = next_fd fs + 1 ->
            same_but (next_fd fs) (next_fd fs + 1) fs2 (fw fr) ->
            files (snd (leave r fr)) = files fs /\ fds (snd (leave r fr)) = fds fs).
  { intros r fr G1 G2 G3.
    apply (leave_world _ _ fs (next_fd fs) (next_fd fs + 1) Hn1 Hn2);
      [by left|by left|done|done|by eapply same_but_trans]. }
  destruct (L1 <? L2); [apply Hleave; [done..|apply same_but_refl]|].
  destruct (L1 >? L2); [apply Hleave; [done..|apply same_but_refl]|].
  destruct (compare_loop_same_but (next_fd fs) (next_fd fs + 1) (Z.to_nat (Z.abs L1))
              (replicate 4096 0) (replicate 4096 0) L1 L2 0 (@mkFrame MemFS f1 f2 [] fs2))
    as (G1 & G2 & G3); [done..|].
  destruct (compare_loop _ _ _ _ _ _ _) as [[[r|cnt]|] fr]; cbn [snd fw] in *;
    by apply Hleave.
Qed.

End Leaving.

(** ** The further properties on files in memory *)

Section Further_scenarios.
#[local] Existing Instance MemFS.

(** X2 on [alone], which has no copy. *)
Lemma open_and_closed_over_participants_witness :
  NumCopies (mf alone) <= 0 /\
  result (MultiFile_is_closed alone) = negb (result (MultiFile_is_open alone)).
Proof.
  assert (H : NumCopies (mf alone) <= 0) by (vm_compute; discriminate).
  split; [exact H|].
  exact (proj1 (proj2 (proj2 (proj2 (open_and_closed_over_participants alone)))) H).
Defined.

(** X7 on [mirrored]: a second [open_] is refused and the count is 0. *)
Lemma open_on_an_open_coordinator_witness :
  BasicFile_is_open (hdl (mf mirrored)) = true /\
  result (MultiFile_open_ "c" 2 mirrored) = false /\
  NumCopies (mf (final (MultiFile_open_ "c" 2 mirrored))) = 0.
Proof.
  assert (H : BasicFile_is_open (hdl (mf mirrored)) = true) by (vm_compute; reflexivity).
  split; [exact H|]. split.
  - exact (f_equal (fun x => fst (fst x)) (open_on_an_open_coordinator "c" 2 mirrored H)).
  - exact (f_equal (fun x => NumCopies (mf (snd x)))
             (open_on_an_open_coordinator "c" 2 mirrored H)).
Defined.

(** X8 on a fresh coordinator and the file "a". *)
Lemma opened_coordinator_is_healthy_witness :
  result (MultiFile_open_ "a" 2 unopened) = true /\
  result (MultiFile_good (final (MultiFile_open_ "a" 2 unopened))) = true /\
  result (MultiFile_is_open (final (MultiFile_open_ "a" 2 unopened))) = true.
Proof.
  assert (H : result (MultiFile_open_ "a" 2 unopened) = true) by (vm_compute; reflexivity).
  split; [exact H|].
  exact (proj2 (opened_coordinator_is_healthy "a" 2 unopened H)).
Defined.

(** X9 on [alone] and the file "b". *)
Lemma added_copy_keeps_it_healthy_witness :
  well_formed alone /\
  result (MultiFile_good alone) = true /\ result (MultiFile_is_open alone) = true /\
  result (MultiFile_add "b" alone) = true /\
  result (MultiFile_good (final (MultiFile_add "b" alone))) = true /\
  result (MultiFile_is_open (final (MultiFile_add "b" alone))) = true.
Proof.
  assert (Hwf : well_formed alone).
  { split; [vm_compute; reflexivity|]. vm_compute. split; discriminate. }
  assert (Hg : result (MultiFile_good alone) = true) by (vm_compute; reflexivity).
  assert (Ho : result (MultiFile_is_open alone) = true) by (vm_compute; reflexivity).
  assert (Ha : result (MultiFile_add "b" alone) = true) by (vm_compute; reflexivity).
  split; [exact Hwf|]. split; [exact Hg|]. split; [exact Ho|]. split; [exact Ha|].
  exact (proj2 (added_copy_keeps_it_healthy "b" alone Hwf Hg Ho Ha)).
Defined.

(** X10 on [mirrored]. *)
Lemma close_closes_every_participant_witness :
  well_formed mirrored /\
  result (MultiFile_is_closed (final (MultiFile_close mirrored))) = true /\
  result (MultiFile_is_open (final (MultiFile_close mirrored))) = false.
Proof.
  assert (Hwf : well_formed mirrored).
  { split; [vm_compute; reflexivity|]. vm_compute. split; discriminate. }
  split; [exact Hwf|].
  pose proof (close_closes_every_participant mirrored Hwf) as H.
  split; [exact (proj1 (proj2 (proj2 H)))|exact (proj1 (proj2 (proj2 (proj2 H))))].
Defined.

(** X11 on [rewound], whose handles carry the [read] flag, and [tell]. *)
Lemma forwarding_never_clears_a_flag_witness :
  never_resets op_tell = true /\
  keeps_errors (get_handle (Copy 0) (mf rewound))
    (get_handle (Copy 0) (mf (final (run op_tell rewound)))).
Proof.
  split; [reflexivity|].
  exact (proj1 (proj2 (forwarding_never_clears_a_flag op_tell rewound eq_refl) (Copy 0))).
Defined.

(** X12 on [mirrored]: [close] leaves the fourth slot. *)
Lemma forwarding_leaves_the_other_slots_witness :
  is_forwarding op_close = true /\ (active mirrored <= 3)%nat /\
  get_handle (Copy 3) (mf (final (run op_close mirrored)))
  = get_handle (Copy 3) (mf mirrored).
Proof.
  assert (H : (active mirrored <= 3)%nat) by (vm_compute; lia).
  split; [reflexivity|]. split; [exact H|].
  exact (forwarding_leaves_the_other_slots op_close mirrored 3 eq_refl H).
Defined.

(** X13 on [mirrored]: the open primary does not carry [enoent]. *)
Lemma open_handles_carry_no_opening_flag_witness :
  reachable mirrored /\ bit_enoent ∈ opening_flags /\
  BasicFile_is_open (get_handle Hdl (mf mirrored)) = true /\
  Z.testbit (e_flags (get_handle Hdl (mf mirrored))) bit_enoent = false.
Proof.
  assert (Hr : reachable mirrored).
  { exists [], shelf, [op_open "a" 0; op_add "b"]. reflexivity. }
  assert (Hb : bit_enoent ∈ opening_flags).
  { unfold opening_flags. rewrite !elem_of_cons. tauto. }
  assert (Ho : BasicFile_is_open (get_handle Hdl (mf mirrored)) = true)
    by (vm_compute; reflexivity).
  split; [exact Hr|]. split; [exact Hb|]. split; [exact Ho|].
  exact (open_handles_carry_no_opening_flag mirrored Hdl bit_enoent Hr Hb Ho).
Defined.

(** X16 on the open primary of [mirrored] and a buffer of 2^32 + 2
    bytes: [unsigned(Size)] is 2, the platform writes the two bytes it
    is asked to write and reads the two bytes it is asked to read, and
    both calls return true; the same write with the size 2 returns false. *)
Lemma transfers_of_two_gib_fail_witness :
  2 ^ 31 <= 2 ^ 32 + 2 < 2 ^ 64 - 2 ^ 31 /\
  Z.of_nat (length long_buffer) = 2 ^ 32 + 2 /\
  BasicFile_is_open (hdl (mf mirrored)) = true /\
  fst (os_write (f_handle (hdl (mf mirrored)))
         (take (Z.to_nat (to_unsigned (2 ^ 32 + 2))) long_buffer) (os_w mirrored)) = 2 /\
  fst (fst (os_read (f_handle (hdl (mf mirrored))) (to_unsigned (2 ^ 32 + 2))
              (os_w mirrored))) = 2 /\
  fst (fst (BasicFile_write long_buffer (2 ^ 32 + 2) (hdl (mf mirrored)) (os_w mirrored)))
  = true /\
  fst (fst (fst (BasicFile_read long_buffer (2 ^ 32 + 2) (hdl (mf mirrored))
                   (os_w mirrored)))) = true /\
  fst (fst (BasicFile_write [7; 7] 2 (hdl (mf mirrored)) (os_w mirrored))) = false.
Proof.
  assert (Hs : 2 ^ 31 <= 2 ^ 32 + 2 < 2 ^ 64 - 2 ^ 31) by lia.
  assert (Hl : Z.of_nat (length long_buffer) = 2 ^ 32 + 2).
  { unfold long_buffer. rewrite !length_cons, length_replicate. unfold four_gib. lia. }
  assert (Ho : BasicFile_is_open (hdl (mf mirrored)) = true) by (vm_compute; reflexivity).
  assert (Ht : take (Z.to_nat (to_unsigned (2 ^ 32 + 2))) long_buffer = [7; 7]).
  { change (Z.to_nat (to_unsigned (2 ^ 32 + 2))) with 2%nat. reflexivity. }
  assert (Hw : fst (os_write (f_handle (hdl (mf mirrored)))
                      (take (Z.to_nat (to_unsigned (2 ^ 32 + 2))) long_buffer)
                      (os_w mirrored)) = 2).
  { rewrite Ht. vm_compute. reflexivity. }
  assert (Hr : fst (fst (os_read (f_handle (hdl (mf mirrored))) (to_unsigned (2 ^ 32 + 2))
                           (os_w mirrored))) = 2) by (vm_compute; reflexivity).
  assert (Hw' : - 2 ^ 31 <= fst (os_write (f_handle (hdl (mf mirrored)))
                                   (take (Z.to_nat (to_unsigned (2 ^ 32 + 2))) long_buffer)
                                   (os_w mirrored)) < 2 ^ 31) by (rewrite Hw; lia).
  assert (Hr' : - 2 ^ 31 <= fst (fst (os_read (f_handle (hdl (mf mirrored)))
                                        (to_unsigned (2 ^ 32 + 2)) (os_w mirrored))) < 2 ^ 31)
    by (rewrite Hr; lia).
  pose proof (transfers_of_two_gib_fail long_buffer (2 ^ 32 + 2) (hdl (mf mirrored))
                (os_w mirrored) Hs Hw' Hr') as H.
  split; [exact Hs|]. split; [exact Hl|]. split; [exact Ho|]. split; [exact Hw|].
  split; [exact Hr|]. split; [exact (proj1 H)|]. split; [exact (proj1 (proj2 (proj2 H)))|].
  vm_compute. reflexivity.
Defined.

(** X18 on the flag values of the Microsoft runtime: [O_WRONLY] passes
    [filter_open] and reaches the platform together with [O_RDWR]. *)
Lemma read_write_filters_remove_nothing_witness :
  O_RDONLY = 0 /\ Z.land O_WRONLY O_EXCL = 0 /\
  FileRW_filter_open O_WRONLY = Z.lor O_WRONLY O_RDWR.
Proof.
  split; [reflexivity|]. split; [reflexivity|].
  exact (proj1 (read_write_filters_remove_nothing O_WRONLY eq_refl eq_refl)).
Defined.

(** X19 on [shelf]: "a" and "b" hold the same bytes. *)
Lemma compare_is_zero_exactly_on_equal_files_witness :
  0 <= next_fd shelf /\
  files shelf !! "a" = Some [1; 2; 3; 4; 5] /\
  files shelf !! "b" = Some [1; 2; 3; 4; 5] /\
  Z.of_nat (length [1; 2; 3; 4; 5]) < 2 ^ 32 /\
  fst (fst (compare "a" "b" shelf)) = Some 0.
Proof.
  assert (Hfd : 0 <= next_fd shelf) by (vm_compute; discriminate).
  assert (Ha : files shelf !! "a" = Some [1; 2; 3; 4; 5]) by (vm_compute; reflexivity).
  assert (Hb : files shelf !! "b" = Some [1; 2; 3; 4; 5]) by (vm_compute; reflexivity).
  assert (Hl : Z.of_nat (length [1; 2; 3; 4; 5]) < 2 ^ 32) by (vm_compute; reflexivity).
  split; [exact Hfd|]. split; [exact Ha|]. split; [exact Hb|]. split; [exact Hl|].
  exact (proj2 (compare_is_zero_exactly_on_equal_files shelf "a" "b" _ _ Hfd Ha Hb Hl)
           eq_refl).
Defined.

(** X20 on [shelf]. *)
Lemma compare_is_symmetric_witness :
  0 <= next_fd shelf /\
  fst (fst (compare "a" "d" shelf)) = fst (fst (compare "d" "a" shelf)).
Proof.
  assert (Hfd : 0 <= next_fd shelf) by (vm_compute; discriminate).
  split; [exact Hfd|]. exact (compare_is_symmetric shelf "a" "d" Hfd).
Defined.

(** X21 on [shelf], where nothing is open. *)
Lemma compare_leaves_the_disk_as_it_was_witness :
  0 <= next_fd shelf /\
  (forall fd, next_fd shelf <= fd -> fds shelf !! fd = None) /\
  files (snd (compare "a" "d" shelf)) = files shelf /\
  fds (snd (compare "a" "d" shelf)) = fds shelf.
Proof.
  assert (Hfd : 0 <= next_fd shelf) by (vm_compute; discriminate).
  assert (Hfresh : forall fd, next_fd shelf <= fd -> fds shelf !! fd = None).
  { intros fd _. unfold shelf, disk. cbn [fds]. apply lookup_empty. }
  split; [exact Hfd|]. split; [exact Hfresh|].
  exact (compare_leaves_the_disk_as_it_was shelf "a" "d" Hfd Hfresh).
Defined.

End Further_scenarios.

(** ** Writing and reading back *)

Section OnDisk.
#[local] Existing Instance MemFS.

Lemma rdwr_mode (flags : Z) :
  Z.land flags 3 = 2 -> readable flags = true /\ writable flags = true.
Proof. intros H. unfold readable, writable. by rewrite H. Qed.

Lemma memfs_write_at (w : memfs) (fd : Z) (P : string) (p : Z) (c data : list Z) :
  holds_at w fd P p c ->
  exists w',
    memfs_write fd data w = (Z.of_nat (length data), w') /\
    holds_at w' fd P (p + Z.of_nat (length data)) (written p data c) /\
    forall fd' P' p' c', fd' <> fd -> P' <> P ->
      holds_at w fd' P' p' c' -> holds_at w' fd' P' p' c'.
Proof.
  intros (flags & Hfd & Hmode & Ha & Hfile).
  destruct (rdwr_mode flags Hmode) as [Hr Hw].
  unfold memfs_write, memfs_file. rewrite Hfd. cbn [of_path].
  rewrite Hfile. cbn [of_path of_flags of_pos]. rewrite Hw.
  destruct data as [|x data].
  - exists w. split; [done|]. split; [|done].
    exists flags. cbn [length written]. by rewrite Z.add_0_r.
  - rewrite Ha. eexists. split; [reflexivity|]. split.
    + exists flags. cbn [fds files written]. rewrite !lookup_insert_eq. done.
    + intros fd' P' p' c' Hne HP (flags' & Hfd' & Hmode' & Ha' & Hfile').
      exists flags'. cbn [fds files]. rewrite !lookup_insert_ne by done. done.
Qed.

Lemma memfs_seek_at (w : memfs) (fd : Z) (P : string) (p p0 : Z) (c : list Z) :
  holds_at w fd P p c -> 0 <= p0 ->
  exists w',
    memfs_seek fd p0 0 w = (p0, w') /\
    holds_at w' fd P p0 c /\
    forall fd' P' p' c', fd' <> fd ->
      holds_at w fd' P' p' c' -> holds_at w' fd' P' p' c'.
Proof.
  intros (flags & Hfd & Hmode & Ha & Hfile) Hp0.
  unfold memfs_seek, memfs_file. rewrite Hfd. cbn [of_path].
  rewrite Hfile. cbn [of_path of_flags of_pos]. change (0 =? 0) with true. cbv iota. rewrite Z.add_0_l.
  destruct (p0 <? 0) eqn:E; [apply Z.ltb_lt in E; lia|].
  eexists. split; [reflexivity|]. split.
  - exists flags. unfold memfs_set_pos. cbn [fds files of_path of_flags].
    rewrite lookup_insert_eq. done.
  - intros fd' P' p' c' Hne (flags' & Hfd' & Hmode' & Ha' & Hfile').
    exists flags'. unfold memfs_set_pos. cbn [fds files].
    rewrite lookup_insert_ne by done. done.
Qed.

Lemma memfs_read_at (w : memfs) (fd : Z) (P : string) (p count : Z) (c : list Z) :
  holds_at w fd P p c -> 0 <= count < 2 ^ 31 ->
  exists w',
    memfs_read fd count w
      = (Z.of_nat (length (take (Z.to_nat count) (drop (Z.to_nat p) c))),
         take (Z.to_nat count) (drop (Z.to_nat p) c), w') /\
    files w' = files w /\
    forall fd' P' p' c', fd' <> fd ->
      holds_at w fd' P' p' c' -> holds_at w' fd' P' p' c'.
Proof.
  intros (flags & Hfd & Hmode & Ha & Hfile) Hcount.
  destruct (rdwr_mode flags Hmode) as [Hr Hw].
  unfold memfs_read, memfs_file. rewrite Hfd. cbn [of_path].
  rewrite Hfile. cbn [of_path of_flags of_pos]. rewrite Hr. rewrite Z.min_l by lia.
  eexists. split; [reflexivity|]. split; [done|].
  intros fd' P' p' c' Hne (flags' & Hfd' & Hmode' & Ha' & Hfile').
  exists flags'. unfold memfs_set_pos. cbn [fds files].
  rewrite lookup_insert_ne by done. done.
Qed.

Lemma size_fits (n : Z) : 0 <= n < 2 ^ 31 -> to_unsigned n = n /\ to_size_t n = n.
Proof.
  intros Hn. unfold to_unsigned, to_size_t. split; apply Z.mod_small; lia.
Qed.

(** A full write through a clean handle: no error, the handle as it was. *)
Lemma BasicFile_write_at (w : memfs) (fd : Z) (P : string) (p : Z) (c buf : list Z) :
  holds_at w fd P p c -> Z.of_nat (length buf) < 2 ^ 31 ->
  exists w',
    BasicFile_write buf (Z.of_nat (length buf)) (mkBasicFile fd 0) w
      = (false, mkBasicFile fd 0, w') /\
    holds_at w' fd P (p + Z.of_nat (length buf)) (written p buf c) /\
    forall fd' P' p' c', fd' <> fd -> P' <> P ->
      holds_at w fd' P' p' c' -> holds_at w' fd' P' p' c'.
Proof.
  intros Hat Hlen.
  destruct (size_fits (Z.of_nat (length buf))) as [Hun Hsz]; [lia|].
  destruct (memfs_write_at w fd P p c buf Hat) as (w' & Hwrite & Hat' & Hframe).
  exists w'. split; [|by split].
  unfold BasicFile_write. rewrite Hun, Nat2Z.id, firstn_all.
  cbn [os_write MemFS f_handle]. rewrite Hwrite. by rewrite Hsz, Z.eqb_refl.
Qed.

Lemma BasicFile_seek_at (w : memfs) (fd : Z) (P : string) (p p0 : Z) (c : list Z) :
  holds_at w fd P p c -> 0 <= p0 ->
  exists w',
    BasicFile_seek p0 0 (mkBasicFile fd 0) w = (p0, mkBasicFile fd 0, w') /\
    holds_at w' fd P p0 c /\
    forall fd' P' p' c', fd' <> fd ->
      holds_at w fd' P' p' c' -> holds_at w' fd' P' p' c'.
Proof.
  intros Hat Hp0.
  destruct (memfs_seek_at w fd P p p0 c Hat Hp0) as (w' & Hseek & Hat' & Hframe).
  exists w'. split; [|by split].
  unfold BasicFile_seek. cbn [os_seek MemFS f_handle]. rewrite Hseek.
  destruct (p0 =? -1) eqn:E; [apply Z.eqb_eq in E; lia|done].
Qed.

(** Reading back, from the position it was written at, what was written. *)
Lemma BasicFile_read_back (w : memfs) (fd : Z) (P : string) (p : Z) (c buf dst : list Z) :
  holds_at w fd P p (written p buf c) -> 0 <= p -> Z.of_nat (length buf) < 2 ^ 31 ->
  exists w',
    BasicFile_read dst (Z.of_nat (length buf)) (mkBasicFile fd 0) w
      = (false, buf ++ drop (length buf) dst, mkBasicFile fd 0, w') /\
    files w' = files w /\
    forall fd' P' p' c', fd' <> fd ->
      holds_at w fd' P' p' c' -> holds_at w' fd' P' p' c'.
Proof.
  intros Hat Hp Hlen.
  destruct (size_fits (Z.of_nat (length buf))) as [Hun Hsz]; [lia|].
  destruct (memfs_read_at w fd P p (Z.of_nat (length buf)) (written p buf c) Hat)
    as (w' & Hread & Hfiles & Hframe); [lia|].
  assert (Hdata : take (Z.to_nat (Z.of_nat (length buf)))
                    (drop (Z.to_nat p) (written p buf c)) = buf).
  { destruct buf as [|x buf]; [done|]. unfold written. rewrite Nat2Z.id.
    rewrite drop_app_length' by (by rewrite length_resize).
    by rewrite take_app_length. }
  rewrite Hdata in Hread.
  exists w'. split; [|by split].
  unfold BasicFile_read. rewrite Hun. cbn [os_read MemFS f_handle]. rewrite Hread.
  by rewrite Hsz, Z.eqb_refl.
Qed.

End OnDisk.

Section RoundTrip.
#[local] Existing Instance MemFS.
Variable fd : href -> Z.
Variable path : href -> string.
Variable n : nat.
Variable m : MultiFile.
Hypothesis Hsep : forall r r', r ∈ participants n -> r' ∈ participants n -> r <> r' ->
  fd r <> fd r' /\ path r <> path r'.
Hypothesis Hclean : forall r, r ∈ participants n -> get_handle r m = mkBasicFile (fd r) 0.
Hypothesis Hcount : Z.to_nat (NumCopies m) = n.

Lemma invoke_clean {A} (meth : method A) (what : A -> call) (r : href) (b : list Z)
    (w w' : memfs) (a : A) :
  r ∈ participants n ->
  meth (mkBasicFile (fd r) 0) w = (a, mkBasicFile (fd r) 0, w') ->
  invoke r meth what (mkState m b w) = (a, [Ev r (what a)], mkState m b w').
Proof.
  intros Hr Hm. unfold invoke. cbn [mf os_w buffer]. rewrite (Hclean r Hr), Hm.
  rewrite <- (Hclean r Hr), set_get_handle. done.
Qed.

Section Uniform.
Context {A : Type}.
Variable meth : method A.
Variable what : A -> call.
Variable step : A -> A -> A.
Variable v : A.
Variables Pre Post : href -> memfs -> Prop.
Hypothesis Hstep : forall r w, r ∈ participants n -> Pre r w ->
  exists w', meth (mkBasicFile (fd r) 0) w = (v, mkBasicFile (fd r) 0, w') /\ Post r w' /\
    forall r', r' ∈ participants n -> r' <> r ->
      (Pre r' w -> Pre r' w') /\ (Post r' w -> Post r' w').

Lemma loop_uniform (idx : list nat) :
  NoDup idx -> (forall i, i ∈ idx -> (i < n)%nat) ->
  forall acc b w,
    (forall r, r ∈ participants n ->
       ((exists i, i ∈ idx /\ r = Copy i) -> Pre r w) /\
       (~ (exists i, i ∈ idx /\ r = Copy i) -> Post r w)) ->
    exists w',
      result (for_each idx (fold_call meth what step) acc (mkState m b w))
        = fold_left step (replicate (length idx) v) acc /\
      final (for_each idx (fold_call meth what step) acc (mkState m b w)) = mkState m b w' /\
      forall r, r ∈ participants n -> Post r w'.
Proof.
  induction idx as [|i idx IH]; intros Hnd Hlt acc b w Hinv.
  - exists w. split; [done|]. split; [done|]. intros r Hr.
    apply (Hinv r Hr). intros (i & Hi & _). by apply elem_of_nil in Hi.
  - apply NoDup_cons in Hnd as [Hni Hnd].
    assert (Hi : Copy i ∈ participants n).
    { apply elem_of_participants. apply Hlt. left. }
    destruct (Hstep (Copy i) w Hi) as (w1 & Hm & Hpost & Hframe).
    { apply (Hinv (Copy i) Hi). exists i. split; [left|done]. }
    destruct (IH Hnd (fun j Hj => Hlt j (proj2 (elem_of_cons idx j i) (or_intror Hj))) (step acc v) b w1)
      as (w' & Hres & Hfin & Hall).
    { intros r Hr. destruct (Hinv r Hr) as [Hpre Hpo]. split.
      - intros (j & Hj & ->). apply Hframe; [done| |].
        + intros Heq. injection Heq as ->. done.
        + apply Hpre. exists j. split; [by right|done].
      - intros Hnot. destruct (href_eq_or_not r (Copy i)) as [->|Hne]; [done|].
        apply Hframe; [done..|]. apply Hpo. intros (j & Hj & ->).
        apply elem_of_cons in Hj as [->|Hj]; [done|]. apply Hnot. by exists j. }
    exists w'. cbn [length replicate fold_left].
    assert (Heq : for_each (i :: idx) (fold_call meth what step) acc (mkState m b w)
                  = let '(a, t, s') := for_each idx (fold_call meth what step) (step acc v)
                                         (mkState m b w1) in
                    (a, [Ev (Copy i) (what v)] ++ t, s')).
    { cbn [for_each]. unfold bind at 1, fold_call at 1, bind at 1.
      by rewrite (invoke_clean meth what (Copy i) b w w1 v Hi Hm). }
    rewrite Heq. unfold result, final in *.
    destruct (for_each idx (fold_call meth what step) (step acc v) (mkState m b w1))
      as [[a t] s']. cbn [fst snd] in *. by split.
Qed.

Lemma fan_out_uniform (b : list Z) (w : memfs) :
  (forall r, r ∈ participants n -> Pre r w) ->
  exists w',
    result (fan_out meth what step (mkState m b w)) = fold_left step (replicate n v) v /\
    final (fan_out meth what step (mkState m b w)) = mkState m b w' /\
    forall r, r ∈ participants n -> Post r w'.
Proof.
  intros Hpre.
  assert (Hh : Hdl ∈ participants n) by left.
  destruct (Hstep Hdl w Hh (Hpre Hdl Hh)) as (w1 & Hm & Hpost & Hframe).
  destruct (loop_uniform (seq 0 n) (NoDup_seq 0 n)
              (fun i Hi => proj2 (proj1 (elem_of_seq 0 n i) Hi)) v b w1)
    as (w' & Hres & Hfin & Hall).
  { intros r Hr. split.
    - intros (j & Hj & ->). apply Hframe; [done..|]. by apply Hpre.
    - intros Hnot. destruct r as [|j]; [done|]. exfalso. apply Hnot. exists j.
      split; [|done]. apply elem_of_seq. apply elem_of_participants in Hr. lia. }
  exists w'. rewrite length_seq in Hres.
  unfold fan_out, bind. rewrite (invoke_clean meth what Hdl b w w1 v Hh Hm).
  unfold for_copies. cbn [mf]. rewrite Hcount.
  unfold result, final in *.
  destruct (for_each (seq 0 n) (fold_call meth what step) v (mkState m b w1))
    as [[a t] s']. cbn [fst snd] in *. by split.
Qed.

End Uniform.

Lemma fold_write_ok (k : nat) :
  fold_left (fun Err e : bool => e || Err) (replicate k false) false = false.
Proof. induction k as [|k IH]; [done|]. exact IH. Qed.

Lemma fold_seek_same (k : nat) (p : Z) :
  fold_left keep_or_sentinel (replicate k p) p = p.
Proof.
  induction k as [|k IH]; [done|]. cbn [replicate fold_left].
  unfold keep_or_sentinel at 2. by rewrite Z.eqb_refl.
Qed.

Variable c : href -> list Z.
Variable p : Z.
Variable buf : list Z.
Hypothesis Hp : 0 <= p.
Hypothesis Hlen : Z.of_nat (length buf) < 2 ^ 31.

Lemma write_everywhere (b : list Z) (w : memfs) :
  (forall r, r ∈ participants n -> holds_at w (fd r) (path r) p (c r)) ->
  exists w',
    result (MultiFile_write buf (Z.of_nat (length buf)) (mkState m b w)) = false /\
    final (MultiFile_write buf (Z.of_nat (length buf)) (mkState m b w)) = mkState m b w' /\
    forall r, r ∈ participants n ->
      holds_at w' (fd r) (path r) (p + Z.of_nat (length buf)) (written p buf (c r)).
Proof.
  intros Hpre. unfold MultiFile_write.
  destruct (fan_out_uniform (BasicFile_write buf (Z.of_nat (length buf)))
              (c_write buf (Z.of_nat (length buf))) (fun Err e : bool => e || Err) false
              (fun r w => holds_at w (fd r) (path r) p (c r))
              (fun r w => holds_at w (fd r) (path r) (p + Z.of_nat (length buf))
                            (written p buf (c r)))) with (b := b) (w := w)
    as (w' & Hres & Hfin & Hall); [|done|].
  - intros r w0 Hr Hat.
    destruct (BasicFile_write_at w0 (fd r) (path r) p (c r) buf Hat Hlen)
      as (w1 & Hw & Hat' & Hframe).
    exists w1. split; [done|]. split; [done|]. intros r' Hr' Hne.
    destruct (Hsep r' r Hr' Hr Hne) as [Hfd HP]. split; apply Hframe; done.
  - exists w'. rewrite Hres, fold_write_ok. by split.
Qed.

Lemma seek_everywhere (q : Z) (cc : href -> list Z) (b : list Z) (w : memfs) :
  (forall r, r ∈ participants n -> holds_at w (fd r) (path r) q (cc r)) ->
  exists w',
    result (MultiFile_seek p 0 (mkState m b w)) = p /\
    final (MultiFile_seek p 0 (mkState m b w)) = mkState m b w' /\
    forall r, r ∈ participants n -> holds_at w' (fd r) (path r) p (cc r).
Proof.
  intros Hpre. unfold MultiFile_seek.
  destruct (fan_out_uniform (BasicFile_seek p 0) (c_seek p 0) keep_or_sentinel p
              (fun r w => holds_at w (fd r) (path r) q (cc r))
              (fun r w => holds_at w (fd r) (path r) p (cc r))) with (b := b) (w := w)
    as (w' & Hres & Hfin & Hall); [|done|].
  - intros r w0 Hr Hat.
    destruct (BasicFile_seek_at w0 (fd r) (path r) q p (cc r) Hat Hp)
      as (w1 & Hw & Hat' & Hframe).
    exists w1. split; [done|]. split; [done|]. intros r' Hr' Hne.
    destruct (Hsep r' r Hr' Hr Hne) as [Hfd HP]. split; apply Hframe; done.
  - exists w'. rewrite Hres, fold_seek_same. by split.
Qed.

Lemma read_or_fail_back (r : href) (dst b : list Z) (w : memfs) :
  r ∈ participants n ->
  holds_at w (fd r) (path r) p (written p buf (c r)) ->
  exists t w',
    read_or_fail r dst (Z.of_nat (length buf)) (mkState m b w)
      = ((false, buf ++ drop (length buf) dst), t, mkState m b w') /\
    files w' = files w /\
    forall r', r' ∈ participants n -> r' <> r -> forall q cc,
      holds_at w (fd r') (path r') q cc -> holds_at w' (fd r') (path r') q cc.
Proof.
  intros Hr Hat.
  destruct (BasicFile_read_back w (fd r) (path r) p (c r) buf dst Hat Hp Hlen)
    as (w' & Hread & Hfiles & Hframe).
  eexists _, w'. split; [|split; [done|]].
  - unfold read_or_fail, bind.
    rewrite (invoke_clean (BasicFile_read dst (Z.of_nat (length buf)))
               (read_call (Z.of_nat (length buf))) r b w w' _ Hr Hread).
    rewrite invoke_query. cbn [mf]. rewrite (Hclean r Hr). cbn. reflexivity.
  - intros r' Hr' Hne q cc. apply Hframe. by apply (Hsep r' r Hr' Hr Hne).
Qed.

Lemma verify_loop_back (rest : list Z) (idx : list nat) :
  NoDup idx -> (forall i, i ∈ idx -> (i < n)%nat) ->
  forall b w,
    (forall i, i ∈ idx ->
       holds_at w (fd (Copy i)) (path (Copy i)) p (written p buf (c (Copy i)))) ->
    exists b' w',
      result (for_each idx (verify_copy (buf ++ rest) (Z.of_nat (length buf))) false
                (mkState m b w)) = false /\
      final (for_each idx (verify_copy (buf ++ rest) (Z.of_nat (length buf))) false
               (mkState m b w)) = mkState m b' w' /\
      files w' = files w.
Proof.
  induction idx as [|i idx IH]; intros Hnd Hlt b w Hpre.
  - by exists b, w.
  - apply NoDup_cons in Hnd as [Hni Hnd].
    assert (Hi : Copy i ∈ participants n).
    { apply elem_of_participants. apply Hlt. left. }
    destruct (read_or_fail_back (Copy i) b b w Hi) as (t & w1 & Hrd & Hfiles & Hframe).
    { apply Hpre. left. }
    destruct (IH Hnd (fun j Hj => Hlt j (proj2 (elem_of_cons idx j i) (or_intror Hj)))
                (buf ++ drop (length buf) b) w1) as (b' & w' & Hres & Hfin & Hfiles').
    { intros j Hj. apply Hframe.
      - apply elem_of_participants. apply Hlt. by right.
      - intros Heq. injection Heq as ->. done.
      - apply Hpre. by right. }
    exists b', w'.
    assert (Heq : for_each (i :: idx) (verify_copy (buf ++ rest) (Z.of_nat (length buf)))
                    false (mkState m b w)
                  = let '(a, t', s') :=
                      for_each idx (verify_copy (buf ++ rest) (Z.of_nat (length buf))) false
                        (mkState m (buf ++ drop (length buf) b) w1) in
                    (a, (t ++ []) ++ t', s')).
    { cbn [for_each]. unfold bind at 1. unfold verify_copy at 1.
      unfold bind, get_buffer, set_buffer. cbn [buffer]. rewrite Hrd. cbn [mf os_w ret orb].
      rewrite Nat2Z.id, !take_app_length.
      rewrite bool_decide_false by (intros H; by apply H). cbn [orb]. reflexivity. }
    rewrite Heq. unfold result, final in *.
    destruct (for_each idx (verify_copy (buf ++ rest) (Z.of_nat (length buf))) false
                (mkState m (buf ++ drop (length buf) b) w1)) as [[a t'] s'].
    cbn [fst snd] in *. split; [done|]. split; [done|]. congruence.
Qed.

Lemma read_everywhere (V b : list Z) (w : memfs) :
  (forall r, r ∈ participants n ->
     holds_at w (fd r) (path r) p (written p buf (c r))) ->
  exists b' w',
    result (MultiFile_read V (Z.of_nat (length buf)) (mkState m b w))
      = (false, buf ++ drop (length buf) V) /\
    final (MultiFile_read V (Z.of_nat (length buf)) (mkState m b w)) = mkState m b' w' /\
    files w' = files w.
Proof.
  intros Hpre.
  assert (Hh : Hdl ∈ participants n) by left.
  destruct (read_or_fail_back Hdl V (resize (Z.to_nat (Z.of_nat (length buf))) 0 b) w Hh
              (Hpre Hdl Hh)) as (t & w1 & Hrd & Hfiles & Hframe).
  destruct (verify_loop_back (drop (length buf) V) (seq 0 n) (NoDup_seq 0 n)
              (fun i Hi => proj2 (proj1 (elem_of_seq 0 n i) Hi))
              (resize (Z.to_nat (Z.of_nat (length buf))) 0 b) w1)
    as (b' & w' & Hres & Hfin & Hfiles').
  { intros i Hi. apply elem_of_seq in Hi. apply Hframe; [|done|].
    - apply elem_of_participants. lia.
    - apply Hpre. apply elem_of_participants. lia. }
  exists b', w'. unfold MultiFile_read, bind, get_buffer, set_buffer.
  cbn [buffer mf os_w]. rewrite Hrd. unfold for_copies. cbn [mf]. rewrite Hcount.
  unfold result, final in *.
  destruct (for_each (seq 0 n) (verify_copy (buf ++ drop (length buf) V)
                                  (Z.of_nat (length buf))) false
              (mkState m (resize (Z.to_nat (Z.of_nat (length buf))) 0 b) w1))
    as [[a t'] s']. cbn [fst snd ret] in *. subst a s'. split; [done|]. split; [done|].
  congruence.
Qed.

End RoundTrip.

Section Written_and_read.
#[local] Existing Instance MemFS.

(** X22: on a disk without faults, on a coordinator whose participants
    are clean handles with the access mode [_O_RDWR] on distinct files,
    all at position [p]: [write] succeeds, [seek] back to [p] returns
    [p], and [read] then returns the written bytes and succeeds; every
    participant's file holds the written bytes at [p] (a write of no
    bytes leaves the files as they are), and the handles are as they
    were. *)
Theorem written_bytes_are_read_back (s : state) (fd : href -> Z) (path : href -> string)
    (c : href -> list Z) (p : Z) (buf V : list Z) :
  (forall r r', r ∈ participants (active s) -> r' ∈ participants (active s) -> r <> r' ->
     fd r <> fd r' /\ path r <> path r') ->
  (forall r, r ∈ participants (active s) -> attached fd path r p (c r) s) ->
  0 <= p -> Z.of_nat (length buf) < 2 ^ 31 ->
  let N := Z.of_nat (length buf) in
  let s1 := final (MultiFile_write buf N s) in
  let s2 := final (MultiFile_seek p 0 s1) in
  let s3 := final (MultiFile_read V N s2) in
  result (MultiFile_write buf N s) = false /\
  result (MultiFile_seek p 0 s1) = p /\
  result (MultiFile_read V N s2) = (false, buf ++ drop (length buf) V) /\
  (forall r, r ∈ participants (active s) ->
     files (os_w s3) !! path r = Some (written p buf (c r))) /\
  mf s3 = mf s.
Proof.
  intros Hsep Hatt Hp Hlen N s1 s2 s3.
  destruct s as [m b w]. unfold active, attached in *. cbn [mf os_w] in Hsep, Hatt |- *.
  set (n := Z.to_nat (NumCopies m)) in *.
  assert (Hclean : forall r, r ∈ participants n -> get_handle r m = mkBasicFile (fd r) 0)
    by (intros r Hr; apply (Hatt r Hr)).
  destruct (write_everywhere fd path n m Hsep Hclean eq_refl c p buf Hlen b w)
    as (w1 & Hr1 & Hf1 & Ha1); [intros r Hr; apply (Hatt r Hr)|].
  fold N in Hr1, Hf1, Ha1. fold s1 in Hf1.
  destruct (seek_everywhere fd path n m Hsep Hclean eq_refl p Hp (p + N)
              (fun r => written p buf (c r)) b w1 Ha1) as (w2 & Hr2 & Hf2 & Ha2).
  rewrite <- Hf1 in Hr2, Hf2. fold s2 in Hf2.
  destruct (read_everywhere fd path n m Hsep Hclean eq_refl c p buf Hp Hlen V b w2 Ha2)
    as (b3 & w3 & Hr3 & Hf3 & Hfiles).
  fold N in Hr3, Hf3. rewrite <- Hf2 in Hr3, Hf3. fold s3 in Hf3.
  split; [done|]. split; [done|]. split; [done|]. rewrite Hf3. cbn [mf os_w]. split; [|done].
  intros r Hr. rewrite Hfiles. by destruct (Ha2 r Hr) as (flags & _ & _ & _ & Hfile).
Qed.

(** X22 on [mirrored]: two bytes written at the start of "a" and "b". *)
Lemma written_bytes_are_read_back_witness :
  let fd := fun r => match r with Hdl => 3 | Copy i => 4 + Z.of_nat i end in
  let path := fun r => match r with Hdl => "a"%string | Copy _ => "b"%string end in
  (forall r r', r ∈ participants (active mirrored) -> r' ∈ participants (active mirrored) ->
     r <> r' -> fd r <> fd r' /\ path r <> path r') /\
  (forall r, r ∈ participants (active mirrored) ->
     attached fd path r 0 [1; 2; 3; 4; 5] mirrored) /\
  0 <= 0 /\ Z.of_nat (length [7; 8]) < 2 ^ 31 /\
  result (MultiFile_read [0; 0; 0] (Z.of_nat (length [7; 8]))
            (final (MultiFile_seek 0 0
                      (final (MultiFile_write [7; 8] (Z.of_nat (length [7; 8])) mirrored)))))
  = (false, [7; 8] ++ drop (length [7; 8]) [0; 0; 0]).
Proof.
  intros fd path.
  assert (Hn : active mirrored = 1%nat) by (vm_compute; reflexivity).
  assert (Hsep : forall r r', r ∈ participants (active mirrored) ->
                   r' ∈ participants (active mirrored) ->
                   r <> r' -> fd r <> fd r' /\ path r <> path r').
  { rewrite Hn. intros r r' Hr Hr' Hne.
    apply elem_of_participants in Hr. apply elem_of_participants in Hr'.
    destruct r as [|[|i]], r' as [|[|j]]; try lia; try done; split; discriminate. }
  assert (Hatt : forall r, r ∈ participants (active mirrored) ->
                   attached fd path r 0 [1; 2; 3; 4; 5] mirrored).
  { rewrite Hn. intros r Hr. apply elem_of_participants in Hr.
    destruct r as [|[|i]]; [| |lia].
    - split; [vm_compute; reflexivity|]. exists 2.
      split; [vm_compute; reflexivity|]. split; [reflexivity|].
      split; [reflexivity|]. vm_compute. reflexivity.
    - split; [vm_compute; reflexivity|]. exists 2.
      split; [vm_compute; reflexivity|]. split; [reflexivity|].
      split; [reflexivity|]. vm_compute. reflexivity. }
  assert (Hp : 0 <= 0) by lia.
  assert (Hlen : Z.of_nat (length [7; 8]) < 2 ^ 31) by (vm_compute; reflexivity).
  split; [exact Hsep|]. split; [exact Hatt|]. split; [exact Hp|]. split; [exact Hlen|].
  exact (proj1 (proj2 (proj2
           (written_bytes_are_read_back mirrored fd path (fun _ => [1; 2; 3; 4; 5]) 0
              [7; 8] [0; 0; 0] Hsep Hatt Hp Hlen)))).
Defined.

End Written_and_read.

(** ** Forwarding, call by call *)

Section In_turn.
Context `{os : OS}.

Lemma put_all_buffer_free (rs : list href) (hs : list BasicFile) (m : MultiFile) :
  NumCopies (put_all rs hs m) = NumCopies m /\
  OpenFlags (put_all rs hs m) = OpenFlags m /\
  length (copies (put_all rs hs m)) = length (copies m).
Proof.
  revert hs m. induction rs as [|r rs IH]; intros [|h hs] m; try done.
  cbn [put_all]. destruct (IH hs (set_handle r h m)) as (-> & -> & ->).
  destruct r; cbn; by rewrite ?length_insert.
Qed.

Lemma each_in_turn_length {A} (meth : method A) (hs : list BasicFile) (w : world) :
  length (fst (each_in_turn meth hs w)) = length hs.
Proof.
  revert w. induction hs as [|h hs IH]; intros w; [done|]. cbn [each_in_turn].
  destruct (meth h w) as [[a h'] w1]. specialize (IH w1).
  destruct (each_in_turn meth hs w1) as [outs w2]. cbn in *. by rewrite IH.
Qed.

(** The loop of a forwarding method calls the method on each copy as
    the copy was before the loop, on the world the call before left, and
    stores each handle back. *)
Lemma for_each_in_turn {A} (meth : method A) what step (idx : list nat) :
  NoDup idx ->
  forall (acc : A) (s : state),
    for_each idx (fold_call meth what step) acc s
    = (fold_left step
         (map fst (fst (each_in_turn meth (map (fun i => get_handle (Copy i) (mf s)) idx)
                          (os_w s)))) acc,
       zip_with (fun r a => Ev r (what a)) (map Copy idx)
         (map fst (fst (each_in_turn meth (map (fun i => get_handle (Copy i) (mf s)) idx)
                          (os_w s)))),
       mkState
         (put_all (map Copy idx)
            (map snd (fst (each_in_turn meth (map (fun i => get_handle (Copy i) (mf s)) idx)
                             (os_w s)))) (mf s))
         (buffer s)
         (snd (each_in_turn meth (map (fun i => get_handle (Copy i) (mf s)) idx) (os_w s)))).
Proof.
  induction idx as [|i idx IH]; intros Hnd acc s.
  - cbn. by destruct s.
  - apply NoDup_cons in Hnd as [Hni Hnd].
    cbn [for_each map each_in_turn]. unfold bind at 1, fold_call at 1, bind at 1.
    unfold invoke at 1.
    destruct (meth (get_handle (Copy i) (mf s)) (os_w s)) as [[a f] w1]. cbn [ret].
    rewrite (IH Hnd (step acc a)). cbn [mf os_w buffer].
    assert (Hhs : map (fun j => get_handle (Copy j) (set_handle (Copy i) f (mf s))) idx
                  = map (fun j => get_handle (Copy j) (mf s)) idx).
    { apply map_ext_in. intros j Hj. apply get_set_handle_other.
      intros Heq. injection Heq as ->. apply Hni. by apply list_elem_of_In. }
    rewrite Hhs.
    destruct (each_in_turn meth (map (fun j => get_handle (Copy j) (mf s)) idx) w1)
      as [outs w2]. cbn. done.
Qed.

(** A forwarding method calls the single-file method on the primary
    and then on each active copy, each as it was before the call. *)
Lemma fan_out_in_turn {A} (meth : method A) what step (s : state) :
  exists (a0 : A) (rest : list A),
    map fst (fst (in_turn meth s)) = a0 :: rest /\
    fan_out meth what step s
    = (fold_left step rest a0,
       zip_with (fun r a => Ev r (what a)) (participants (active s))
         (map fst (fst (in_turn meth s))),
       mkState (put_all (participants (active s)) (map snd (fst (in_turn meth s))) (mf s))
         (buffer s) (snd (in_turn meth s))).
Proof.
  unfold in_turn, handles, participants. cbn [map each_in_turn get_handle].
  unfold fan_out, bind at 1, invoke at 1. cbn [get_handle].
  destruct (meth (hdl (mf s)) (os_w s)) as [[a0 f0] w1].
  unfold for_copies. cbn [mf]. 
  assert (Hn : Z.to_nat (NumCopies (set_handle Hdl f0 (mf s))) = active s) by done.
  rewrite Hn. rewrite (for_each_in_turn meth what step (seq 0 (active s)) (NoDup_seq 0 _)).
  cbn [mf os_w buffer]. rewrite map_map.
  assert (Hhs : map (fun j => get_handle (Copy j) (set_handle Hdl f0 (mf s))) (seq 0 (active s))
                = map (fun j => get_handle (Copy j) (mf s)) (seq 0 (active s))) by done.
  rewrite Hhs.
  destruct (each_in_turn meth _ w1) as [outs w2].
  exists a0, (map fst outs). cbn. done.
Qed.

Lemma in_turn_length {A} (meth : method A) (s : state) :
  length (fst (in_turn meth s)) = S (active s).
Proof.
  unfold in_turn, handles. rewrite each_in_turn_length, length_map.
  unfold participants. cbn. by rewrite length_map, length_seq.
Qed.

End In_turn.

Section Forwarded.
Context `{os : OS}.

Lemma fan_out_calls_in_turn {A} (meth : method A) what step (s : state) :
  calls_in_turn (fan_out meth what step) meth what s /\
  exists a0 rest, reported meth s = a0 :: rest /\
                  result (fan_out meth what step s) = fold_left step rest a0.
Proof.
  destruct (fan_out_in_turn meth what step s) as (a0 & rest & Hrep & Heq).
  unfold calls_in_turn, reported, trace, final, result. rewrite Heq. cbn [fst snd].
  split; [|by exists a0, rest].
  split; [|done]. rewrite length_map. apply in_turn_length.
Qed.

Lemma fold_sentinel_swapped (rest : list Z) (a0 : Z) :
  fold_left (fun R r => if negb (r =? R) then -1 else R) rest a0
  = fold_left keep_or_sentinel rest a0.
Proof.
  revert a0. induction rest as [|v rest IH]; intros a0; simpl; [done|].
  rewrite IH. unfold keep_or_sentinel. by rewrite (Z.eqb_sym v a0).
Qed.

Lemma fold_or_swapped (rest : list bool) (a0 : bool) :
  fold_left (fun Err e : bool => e || Err) rest a0 = existsb id (a0 :: rest).
Proof.
  revert a0. induction rest as [|e rest IH]; intros a0; simpl.
  - by rewrite orb_false_r.
  - rewrite IH. simpl. unfold id. by destruct a0, e.
Qed.

(** C4: [seek], [tell] and [length] call the single-file method on the
    primary and then on every active copy, each call returning what the
    platform returned; the result is the value these calls returned when
    they all returned the same one, and -1 when two of them returned
    different ones. *)
Theorem position_queries_agree (Pos Dir : Z) (s : state) :
  (calls_in_turn (MultiFile_seek Pos Dir) (BasicFile_seek Pos Dir) (c_seek Pos Dir) s /\
   agreement (reported (BasicFile_seek Pos Dir) s) (result (MultiFile_seek Pos Dir s))) /\
  (calls_in_turn MultiFile_tell BasicFile_tell c_tell s /\
   agreement (reported BasicFile_tell s) (result (MultiFile_tell s))) /\
  (calls_in_turn MultiFile_length BasicFile_length c_length s /\
   agreement (reported BasicFile_length s) (result (MultiFile_length s))) /\
  (forall f w,
     fst (fst (BasicFile_seek Pos Dir f w)) = fst (os_seek (f_handle f) Pos Dir w) /\
     fst (fst (BasicFile_tell f w)) = fst (os_tell (f_handle f) w) /\
     fst (fst (BasicFile_length f w)) = fst (os_size (f_handle f) w)).
Proof.
  split; [|split; [|split]].
  - unfold MultiFile_seek.
    destruct (fan_out_calls_in_turn (BasicFile_seek Pos Dir) (c_seek Pos Dir)
                keep_or_sentinel s) as (Hcalls & a0 & rest & Hrep & Hres).
    split; [done|]. rewrite Hrep, Hres. split; apply (fold_agreement rest a0).
  - unfold MultiFile_tell.
    destruct (fan_out_calls_in_turn BasicFile_tell c_tell keep_or_sentinel s)
      as (Hcalls & a0 & rest & Hrep & Hres).
    split; [done|]. rewrite Hrep, Hres. split; apply (fold_agreement rest a0).
  - unfold MultiFile_length.
    destruct (fan_out_calls_in_turn BasicFile_length c_length
                (fun L l => if negb (l =? L) then -1 else L) s)
      as (Hcalls & a0 & rest & Hrep & Hres).
    split; [done|]. rewrite Hrep, Hres, fold_sentinel_swapped.
    split; apply (fold_agreement rest a0).
  - intros f w. unfold BasicFile_seek, BasicFile_tell, BasicFile_length.
    destruct (os_seek _ _ _ _) as [r1 w1], (os_tell _ _) as [r2 w2],
      (os_size _ _) as [r3 w3]. cbn [fst].
    by destruct (r1 =? -1), (r2 =? -1), (r3 =? -1).
Qed.

(** X4: [chsize] calls [chsize(NewSize)] on the primary and then on
    every active copy, whatever the earlier calls returned; each call
    returns true exactly when the platform returned an error number, and
    [chsize] returns true exactly when one of the calls did. *)
Theorem chsize_reports_any_failure (NewSize : Z) (s : state) :
  calls_in_turn (MultiFile_chsize NewSize) (BasicFile_chsize NewSize) (c_chsize NewSize) s /\
  result (MultiFile_chsize NewSize s) = existsb id (reported (BasicFile_chsize NewSize) s) /\
  (forall f w, fst (fst (BasicFile_chsize NewSize f w))
               = negb (fst (os_chsize (f_handle f) NewSize w) =? 0)).
Proof.
  unfold MultiFile_chsize.
  destruct (fan_out_calls_in_turn (BasicFile_chsize NewSize) (c_chsize NewSize)
              (fun Err e => Err || e) s) as (Hcalls & a0 & rest & Hrep & Hres).
  split; [done|]. split.
  - rewrite Hrep, Hres. apply fold_or_left.
  - intros f w. unfold BasicFile_chsize. destruct (os_chsize _ _ _) as [err w'].
    cbn [fst]. by destruct (err =? 0).
Qed.

(** X5: [eof] calls [eof()] on the primary and then on every active
    copy, each call returning what the platform returned; the result is
    the value these calls returned when they all returned the same one,
    and -1 when two of them returned different ones. *)
Theorem eof_agrees_or_sentinel (s : state) :
  calls_in_turn MultiFile_eof BasicFile_eof c_eof s /\
  agreement (reported BasicFile_eof s) (result (MultiFile_eof s)) /\
  (forall f w, fst (fst (BasicFile_eof f w)) = fst (os_eof (f_handle f) w)).
Proof.
  unfold MultiFile_eof.
  destruct (fan_out_calls_in_turn BasicFile_eof c_eof
              (fun R r => if negb (r =? R) then -1 else R) s)
    as (Hcalls & a0 & rest & Hrep & Hres).
  split; [done|]. split.
  - rewrite Hrep, Hres, fold_sentinel_swapped. split; apply (fold_agreement rest a0).
  - intros f w. unfold BasicFile_eof. destruct (os_eof _ _) as [r w']. cbn [fst].
    by destruct (r =? -1).
Qed.

(** The flags the single-file writes return are the counts the platform
    returned, compared with [Size] as [size_t]. *)
Lemma reported_write_counts (_Buf : list Z) (Size : Z) (hs : list BasicFile) (w : world) :
  map fst (fst (each_in_turn (BasicFile_write _Buf Size) hs w))
  = map (fun c => negb (to_size_t c =? Size)) (write_counts _Buf Size hs w).
Proof.
  revert w. induction hs as [|h hs IH]; intros w; [done|].
  cbn [each_in_turn write_counts map].
  rewrite <- BasicFile_write_result. specialize (IH (snd (BasicFile_write _Buf Size h w))).
  destruct (BasicFile_write _Buf Size h w) as [[e h'] w1]. cbn [fst snd] in *.
  destruct (each_in_turn (BasicFile_write _Buf Size) hs w1) as [outs w2].
  cbn [fst map] in *. by rewrite IH.
Qed.

Lemma to_size_t_int (c Size : Z) :
  0 <= Size < 2 ^ 63 -> - 2 ^ 31 <= c < 2 ^ 31 ->
  negb (to_size_t c =? Size) = negb (c =? Size).
Proof.
  intros HS Hc. f_equal. unfold to_size_t.
  destruct (Z.lt_ge_cases c 0) as [Hneg|Hpos].
  - replace c with (c + 2 ^ 64 + (-1) * 2 ^ 64) at 1 by lia.
    rewrite Z.mod_add by lia. rewrite Z.mod_small by lia.
    destruct (Z.eqb_spec (c + 2 ^ 64) Size), (Z.eqb_spec c Size); lia || done.
  - by rewrite Z.mod_small by lia.
Qed.

(** What [write] does, call by call. *)
Lemma MultiFile_write_in_turn (_Buf : list Z) (Size : Z) (s : state) :
  calls_in_turn (MultiFile_write _Buf Size) (BasicFile_write _Buf Size) (c_write _Buf Size) s /\
  result (MultiFile_write _Buf Size s) = existsb id (reported (BasicFile_write _Buf Size) s) /\
  reported (BasicFile_write _Buf Size) s
  = map (fun c => negb (to_size_t c =? Size)) (write_counts _Buf Size (handles s) (os_w s)).
Proof.
  unfold MultiFile_write.
  destruct (fan_out_calls_in_turn (BasicFile_write _Buf Size) (c_write _Buf Size)
              (fun Err e => e || Err) s) as (Hcalls & a0 & rest & Hrep & Hres).
  split; [done|]. split; [rewrite Hrep, Hres; apply fold_or_swapped|].
  apply reported_write_counts.
Qed.

(** X23: [write] calls [write(_Buf, Size)] on the primary and then on
    every active copy, whatever the earlier calls returned, each with the
    first [unsigned(Size)] bytes of the buffer; it returns true exactly
    when one of these calls did; for a size below 2^63 and counts in the
    range of [int], that is exactly when the platform returned for some
    participant another count than [Size]. *)
Theorem write_calls_every_participant (_Buf : list Z) (Size : Z) (s : state) :
  calls_in_turn (MultiFile_write _Buf Size) (BasicFile_write _Buf Size) (c_write _Buf Size) s /\
  result (MultiFile_write _Buf Size s) = existsb id (reported (BasicFile_write _Buf Size) s) /\
  length (write_counts _Buf Size (handles s) (os_w s)) = S (active s) /\
  (0 <= Size < 2 ^ 63 ->
   Forall (fun c => - 2 ^ 31 <= c < 2 ^ 31) (write_counts _Buf Size (handles s) (os_w s)) ->
   result (MultiFile_write _Buf Size s)
   = existsb (fun c => negb (c =? Size)) (write_counts _Buf Size (handles s) (os_w s))).
Proof.
  destruct (MultiFile_write_in_turn _Buf Size s) as (Hcalls & Hres & Hrep).
  split; [done|]. split; [done|]. split.
  - pose proof (f_equal length Hrep) as Hl. rewrite length_map in Hl. rewrite <- Hl.
    unfold reported. rewrite length_map. apply in_turn_length.
  - intros HS Hint. rewrite Hres, Hrep. clear Hres Hrep Hcalls.
    induction Hint as [|c cs Hc Hcs IH]; [done|]. cbn [map existsb]. unfold id at 1.
    by rewrite IH, (to_size_t_int c Size HS Hc).
Qed.

End Forwarded.

Section Forwarded_scenarios.
#[local] Existing Instance MemFS.

(** C4 on [mirrored], where both files hold five bytes, and on
    [short_copy], where the primary is at position 5 of five bytes and
    the copy at position 3 of three. *)
Lemma position_queries_agree_witness :
  reported BasicFile_length mirrored = [5; 5] /\
  result (MultiFile_length mirrored) = 5 /\
  reported (BasicFile_seek 2 0) mirrored = [2; 2] /\
  result (MultiFile_seek 2 0 mirrored) = 2 /\
  reported BasicFile_tell short_copy = [5; 3] /\
  result (MultiFile_tell short_copy) = -1 /\
  reported BasicFile_length short_copy = [5; 3] /\
  result (MultiFile_length short_copy) = -1.
Proof.
  assert (H1 : reported BasicFile_length mirrored = [5; 5]) by (vm_compute; reflexivity).
  assert (H2 : reported (BasicFile_seek 2 0) mirrored = [2; 2]) by (vm_compute; reflexivity).
  assert (H3 : reported BasicFile_tell short_copy = [5; 3]) by (vm_compute; reflexivity).
  assert (H4 : reported BasicFile_length short_copy = [5; 3]) by (vm_compute; reflexivity).
  pose proof (position_queries_agree 2 0 mirrored) as ((_ & Hseek) & _ & (_ & Hlen) & _).
  pose proof (position_queries_agree 0 0 short_copy) as (_ & (_ & Htell) & (_ & Hlen') & _).
  rewrite H1 in Hlen. rewrite H2 in Hseek. rewrite H3 in Htell. rewrite H4 in Hlen'.
  split; [exact H1|]. split.
  { apply (proj1 Hlen). intros v Hv. rewrite !elem_of_cons, elem_of_nil in Hv. tauto. }
  split; [exact H2|]. split.
  { apply (proj1 Hseek). intros v Hv. rewrite !elem_of_cons, elem_of_nil in Hv. tauto. }
  split; [exact H3|]. split.
  { apply (proj2 Htell). exists 5, 3. rewrite !elem_of_cons. split; [tauto|]. split; [tauto|done]. }
  split; [exact H4|].
  apply (proj2 Hlen'). exists 5, 3. rewrite !elem_of_cons. split; [tauto|]. split; [tauto|done].
Defined.

(** X4 on [headless], whose primary is closed, and on [mirrored]. *)
Lemma chsize_reports_any_failure_witness :
  reported (BasicFile_chsize 3) headless = [true; false] /\
  result (MultiFile_chsize 3 headless) = true /\
  reported (BasicFile_chsize 3) mirrored = [false; false] /\
  result (MultiFile_chsize 3 mirrored) = false.
Proof.
  assert (H1 : reported (BasicFile_chsize 3) headless = [true; false])
    by (vm_compute; reflexivity).
  assert (H2 : reported (BasicFile_chsize 3) mirrored = [false; false])
    by (vm_compute; reflexivity).
  pose proof (proj1 (proj2 (chsize_reports_any_failure 3 headless))) as R1.
  pose proof (proj1 (proj2 (chsize_reports_any_failure 3 mirrored))) as R2.
  rewrite H1 in R1. rewrite H2 in R2.
  split; [exact H1|]. split; [exact R1|]. split; [exact H2|exact R2].
Defined.

(** X5 on [mirrored], where no handle is at the end, and on [headless]. *)
Lemma eof_agrees_or_sentinel_witness :
  reported BasicFile_eof mirrored = [0; 0] /\
  result (MultiFile_eof mirrored) = 0 /\
  reported BasicFile_eof short_copy = [1; 1] /\
  result (MultiFile_eof short_copy) = 1 /\
  reported BasicFile_eof headless = [-1; 0] /\
  result (MultiFile_eof headless) = -1.
Proof.
  assert (H1 : reported BasicFile_eof mirrored = [0; 0]) by (vm_compute; reflexivity).
  assert (H2 : reported BasicFile_eof short_copy = [1; 1]) by (vm_compute; reflexivity).
  assert (H3 : reported BasicFile_eof headless = [-1; 0]) by (vm_compute; reflexivity).
  pose proof (proj1 (proj2 (eof_agrees_or_sentinel mirrored))) as R1.
  pose proof (proj1 (proj2 (eof_agrees_or_sentinel short_copy))) as R2.
  pose proof (proj1 (proj2 (eof_agrees_or_sentinel headless))) as R3.
  rewrite H1 in R1. rewrite H2 in R2. rewrite H3 in R3.
  split; [exact H1|]. split.
  { apply (proj1 R1). intros v Hv. rewrite !elem_of_cons, elem_of_nil in Hv. tauto. }
  split; [exact H2|]. split.
  { apply (proj1 R2). intros v Hv. rewrite !elem_of_cons, elem_of_nil in Hv. tauto. }
  split; [exact H3|].
  apply (proj2 R3). exists (-1), 0. rewrite !elem_of_cons. split; [tauto|]. split; [tauto|done].
Defined.

(** X23 on [mirrored], where both writes are complete, and on
    [headless], where the write through the closed primary fails. *)
Lemma write_calls_every_participant_witness :
  0 <= 2 < 2 ^ 63 /\
  write_counts [7; 7] 2 (handles mirrored) (os_w mirrored) = [2; 2] /\
  result (MultiFile_write [7; 7] 2 mirrored) = false /\
  write_counts [7; 7] 2 (handles headless) (os_w headless) = [-1; 2] /\
  result (MultiFile_write [7; 7] 2 headless) = true.
Proof.
  assert (HS : 0 <= 2 < 2 ^ 63) by lia.
  assert (H1 : write_counts [7; 7] 2 (handles mirrored) (os_w mirrored) = [2; 2])
    by (vm_compute; reflexivity).
  assert (H2 : write_counts [7; 7] 2 (handles headless) (os_w headless) = [-1; 2])
    by (vm_compute; reflexivity).
  assert (F1 : Forall (fun c => - 2 ^ 31 <= c < 2 ^ 31)
                 (write_counts [7; 7] 2 (handles mirrored) (os_w mirrored))).
  { rewrite H1. repeat constructor; lia. }
  assert (F2 : Forall (fun c => - 2 ^ 31 <= c < 2 ^ 31)
                 (write_counts [7; 7] 2 (handles headless) (os_w headless))).
  { rewrite H2. repeat constructor; lia. }
  pose proof (proj2 (proj2 (proj2 (write_calls_every_participant [7; 7] 2 mirrored))) HS F1)
    as R1.
  pose proof (proj2 (proj2 (proj2 (write_calls_every_participant [7; 7] 2 headless))) HS F2)
    as R2.
  rewrite H1 in R1. rewrite H2 in R2.
  split; [exact HS|]. split; [exact H1|]. split; [exact R1|]. split; [exact H2|exact R2].
Defined.

Lemma write_counts_closed (buf : list Z) (Size : Z) (hs : list BasicFile) (w : memfs) :
  Forall (fun h => fds w !! f_handle h = None) hs ->
  write_counts buf Size hs w = map (fun _ => -1) hs.
Proof.
  induction 1 as [|h hs Hh Hhs IH]; [done|]. cbn [write_counts map].
  assert (Hw : os_write (f_handle h) (take (Z.to_nat (to_unsigned Size)) buf) w = (-1, w)).
  { cbn [os_write MemFS]. unfold memfs_write, memfs_file. by rewrite Hh. }
  assert (Hsnd : snd (BasicFile_write buf Size h w) = w).
  { unfold BasicFile_write. rewrite Hw. destruct (to_size_t (-1) =? Size); [done|]. done. }
  by rewrite Hw, Hsnd, IH.
Qed.

(** C2: on [shut], where the primary and the copy are closed, the
    platform returns -1 for both writes of [write(buf, SIZE_MAX)], both
    single-file writes return false, and [write] returns false: every
    write failed and [write] reports success. *)
Theorem write_hides_failed_writes_at_size_max :
  write_counts [9] (2 ^ 64 - 1) (handles shut) (os_w shut) = [-1; -1] /\
  trace (MultiFile_write [9] (2 ^ 64 - 1) shut)
    = [Ev Hdl (c_write [9] (2 ^ 64 - 1) false); Ev (Copy 0) (c_write [9] (2 ^ 64 - 1) false)] /\
  result (MultiFile_write [9] (2 ^ 64 - 1) shut) = false.
Proof.
  assert (Hhs : handles shut = [mkBasicFile (-1) 0; mkBasicFile (-1) 0])
    by (vm_compute; reflexivity).
  assert (Hfd : fds (os_w shut) !! (-1) = None) by (vm_compute; reflexivity).
  assert (Hcounts : write_counts [9] (2 ^ 64 - 1) (handles shut) (os_w shut) = [-1; -1]).
  { rewrite write_counts_closed; [by rewrite Hhs|]. rewrite Hhs. by repeat constructor. }
  destruct (MultiFile_write_in_turn [9] (2 ^ 64 - 1) shut) as ((_ & Htr & _) & Hres & Hrep).
  rewrite Hcounts in Hrep.
  assert (Hact : participants (active shut) = [Hdl; Copy 0]) by (vm_compute; reflexivity).
  split; [exact Hcounts|]. split.
  - rewrite Htr, Hrep, Hact. reflexivity.
  - rewrite Hres, Hrep. reflexivity.
Qed.

End Forwarded_scenarios.
